(** * golog: a shallow embedding of the file backend (filebackend.go, level.go)

    The development models the Go package [golog]: the five severity levels,
    the buffered per-level writers ([syncBufio]), and the [FileBackend] with
    its foreground [Log] path and its three periodic tasks ([Flush],
    [doRotateByHour], [doMonitorFiles]).

    The operating system (files, handles, the diagnostic stream, the clock)
    and the pieces of the Go standard library the package calls ([time],
    [bufio], [regexp], [strings], [os]) are modelled explicitly, as far as the
    package depends on them. *)

From Stdlib Require Import ZArith Lia String Ascii List Bool DecimalString.
From Stdlib.Strings Require Import Byte.
From stdpp Require Import base option list gmap strings sorting.

Local Open Scope string_scope.
Local Open Scope list_scope.
Local Open Scope Z_scope.

(** Let [simpl] compute the append of texts. *)
#[local] Arguments String.append !s1 s2.

(** ** Machine integers *)

(** Go's [int64] arithmetic wraps around; [wrap64] is the two's-complement
    reduction of a mathematical integer. *)
Definition wrap64 (z : Z) : Z := (z + 2 ^ 63) mod 2 ^ 64 - 2 ^ 63.

(** [uint64] wrap-around, for the byte counter of [syncBufio]. *)
Definition wrapU64 (z : Z) : Z := z mod 2 ^ 64.

(** ** package time *)

Module time.

(** [time.Duration] is an [int64] count of nanoseconds. *)
Definition Duration := Z.

Definition Nanosecond : Duration := 1.
Definition Second : Duration := 1000000000.
Definition Minute : Duration := 60 * Second.
Definition Hour : Duration := 60 * Minute.

(** [a * b] on [Duration], with the [int64] wrap-around. *)
Definition Duration_mul (a b : Duration) : Duration := wrap64 (a * b).

(** A [time.Time]: an instant (seconds since the Unix epoch plus a
    nanosecond part in [0, 1e9)) together with the location it is
    presented in, kept as a fixed offset in seconds east of UTC.  The
    monotonic reading is left out: every time the package compares has
    been through [Truncate] or [Parse], which carry none. *)
Record Time : Type := mkTime {
  unixSec : Z;
  nsec : Z;
  zoneOffset : Z
}.

Definition valid (t : Time) : Prop := 0 <= nsec t < 1000000000.

(** Seconds from January 1, year 1 (Go's internal epoch) to the Unix epoch:
    [(1969*365 + 1969/4 - 1969/100 + 1969/400) * 86400]. *)
Definition unixToInternal : Z :=
  (1969 * 365 + 1969 / 4 - 1969 / 100 + 1969 / 400) * 86400.

(** [t.Unix()] *)
Definition Unix (t : Time) : Z := unixSec t.

(** [t.Add(d)]: Go splits [d] with truncating division and renormalises
    the nanosecond part. *)
Definition Add (t : Time) (d : Duration) : Time :=
  let dsec := Z.quot d 1000000000 in
  let ns := nsec t + Z.rem d 1000000000 in
  if 1000000000 <=? ns then
    mkTime (unixSec t + (dsec + 1)) (ns - 1000000000) (zoneOffset t)
  else if ns <? 0 then
    mkTime (unixSec t + (dsec - 1)) (ns + 1000000000) (zoneOffset t)
  else
    mkTime (unixSec t + dsec) ns (zoneOffset t).

(** [t.Truncate(d)]: rounds [t] down to a multiple of [d] since the zero
    time (January 1, year 1, 00:00 UTC), an absolute duration: the location
    plays no part. *)
Definition Truncate (t : Time) (d : Duration) : Time :=
  if d <=? 0 then t
  else
    let r := ((unixSec t + unixToInternal) * 1000000000 + nsec t) mod d in
    Add t (- r).

(** [t.After(u)] *)
Definition After (t u : Time) : bool :=
  (unixSec u <? unixSec t) || ((unixSec t =? unixSec u) && (nsec u <? nsec t)).

(** *** The presentation form: clock and calendar fields in [t]'s location *)

(** Seconds since the Unix epoch on the wall clock of [t]'s location. *)
Definition localSec (t : Time) : Z := unixSec t + zoneOffset t.

Definition Hour_of (t : Time) : Z := (localSec t mod 86400) / 3600.
Definition Minute_of (t : Time) : Z := (localSec t mod 3600) / 60.
Definition Second_of (t : Time) : Z := localSec t mod 60.
Definition Nanosecond_of (t : Time) : Z := nsec t.

(** Civil date of a day count since 1970-01-01 (proleptic Gregorian). *)
Definition civil_from_days (days : Z) : Z * Z * Z :=
  let z := days + 719468 in
  let era := z / 146097 in
  let doe := z - era * 146097 in
  let yoe := (doe - doe / 1460 + doe / 36524 - doe / 146096) / 365 in
  let y := yoe + era * 400 in
  let doy := doe - (365 * yoe + yoe / 4 - yoe / 100) in
  let mp := (5 * doy + 2) / 153 in
  let d := doy - (153 * mp + 2) / 5 + 1 in
  let m := if mp <? 10 then mp + 3 else mp - 9 in
  (if m <=? 2 then y + 1 else y, m, d).

(** Day count since 1970-01-01 of a civil date. *)
Definition days_from_civil (y m d : Z) : Z :=
  let y' := if m <=? 2 then y - 1 else y in
  let era := y' / 400 in
  let yoe := y' - era * 400 in
  let doy := (153 * (if 2 <? m then m - 3 else m + 9) + 2) / 5 + d - 1 in
  let doe := yoe * 365 + yoe / 4 - yoe / 100 + doy in
  era * 146097 + doe - 719468.

Definition isLeap (year : Z) : bool :=
  (year mod 4 =? 0) && (negb (year mod 100 =? 0) || (year mod 400 =? 0)).

Definition daysIn (month year : Z) : Z :=
  if (month =? 2) && isLeap year then 29
  else if month =? 2 then 28
  else if (month =? 4) || (month =? 6) || (month =? 9) || (month =? 11) then 30
  else 31.

(** [time.Date(year, month, day, hour, 0, 0, 0, time.UTC)] *)
Definition Date (year month day hour : Z) : Time :=
  mkTime (days_from_civil year month day * 86400 + hour * 3600) 0 0.

End time.

Import time.

(** ** The hour bucket (filebackend.go, [truncateToHour]) *)

Definition truncateToHour (t : Time) : Time := Truncate t Hour.

(** Following the words of the specification: [t] with its minute, second
    and sub-second components set to zero, the date and the hour (as [t]'s
    location shows them) kept. *)
Definition zeroMinuteSecond (t : Time) : Time :=
  mkTime (unixSec t - (Minute_of t * 60 + Second_of t)) 0 (zoneOffset t).


(** ** package strings, and text helpers *)

Module strings.

(** [s[len(p):]] when [p] is a prefix of [s]. *)
Fixpoint TrimPrefix_opt (p s : string) : option string :=
  match p, s with
  | EmptyString, _ => Some s
  | String a p', String b s' => if Ascii.eqb a b then TrimPrefix_opt p' s' else None
  | String _ _, EmptyString => None
  end.

(** [strings.Split(s, sep)] for a one-byte separator: the pieces between
    the separators, a single piece when there is none. *)
Fixpoint Split (s : string) (sep : ascii) : list string :=
  match s with
  | EmptyString => [EmptyString]
  | String c s' =>
      if Ascii.eqb c sep then EmptyString :: Split s' sep
      else match Split s' sep with
           | h :: t => String c h :: t
           | [] => [String c EmptyString]
           end
  end.

(** [strings.Contains(s, string(c))] *)
Fixpoint ContainsByte (s : string) (c : ascii) : bool :=
  match s with
  | EmptyString => false
  | String a s' => Ascii.eqb a c || ContainsByte s' c
  end.

Definition isDigit (c : ascii) : bool :=
  let n := nat_of_ascii c in (48 <=? n)%nat && (n <=? 57)%nat.

Definition digitVal (c : ascii) : Z := Z.of_nat (nat_of_ascii c) - 48.

(** The first [n] bytes of [s], [s[:n]] (all of [s] when it is shorter). *)
Fixpoint prefix_n (n : nat) (s : string) : string :=
  match n, s with
  | S n', String c s' => String c (prefix_n n' s')
  | _, _ => EmptyString
  end.

End strings.

(** ** package time: formatting and parsing with the layout ["2006010215"] *)

Module timefmt.

Import strings.

(** [appendInt(b, x, width)]: decimal, zero-padded on the left to [width]. *)
Definition appendInt (x : Z) (width : nat) : string :=
  let digits := NilZero.string_of_uint (N.to_uint (Z.to_N (Z.abs x))) in
  let pad := string_of_list_ascii
               (repeat "0"%char (width - String.length digits)%nat) in
  (if x <? 0 then "-" else "") +:+ pad +:+ digits.

(** [t.Format("2006010215")]: four-digit year, two-digit month, day and
    hour, of [t] as its location presents it. *)
Definition Format_2006010215 (t : Time) : string :=
  let '(y, m, d) := civil_from_days (localSec t / 86400) in
  appendInt y 4 +:+ appendInt m 2 +:+ appendInt d 2
    +:+ appendInt (Hour_of t) 2.

(** [getnum(s, fixed)]: one or two leading digits; exactly two when
    [fixed]. *)
Definition getnum (s : string) (fixed : bool) : option (Z * string) :=
  match s with
  | String a (String b rest) =>
      if isDigit a then
        if isDigit b then Some (digitVal a * 10 + digitVal b, rest)
        else if fixed then None else Some (digitVal a, String b rest)
      else None
  | String a EmptyString =>
      if isDigit a then (if fixed then None else Some (digitVal a, EmptyString))
      else None
  | EmptyString => None
  end.

(** The year chunk ["2006"]: exactly four digits. *)
Definition getyear (s : string) : option (Z * string) :=
  match s with
  | String a (String b (String c (String d rest))) =>
      if isDigit a && isDigit b && isDigit c && isDigit d
      then Some (((digitVal a * 10 + digitVal b) * 10 + digitVal c) * 10
                 + digitVal d, rest)
      else None
  | _ => None
  end.

(** [time.Parse("2006010215", value)]: [None] stands for a returned
    error.  The chunks are read in layout order, each range-checked as Go
    does (month 1..12, hour 0..23), text after the hour is an error, the
    day is validated against the month last; the result is in UTC. *)
Definition Parse_2006010215 (value : string) : option Time :=
  match getyear value with
  | None => None
  | Some (year, value) =>
    match getnum value true with
    | None => None
    | Some (month, value) =>
      if (month <=? 0) || (12 <? month) then None else
      match getnum value true with
      | None => None
      | Some (day, value) =>
        match getnum value false with
        | None => None
        | Some (hour, value) =>
          if (hour <? 0) || (24 <=? hour) then None else
          match value with
          | String _ _ => None
          | EmptyString =>
              if (day <? 1) || (daysIn month year <? day) then None
              else Some (Date year month day hour)
          end
        end
      end
    end
  end.

End timefmt.

Import timefmt.

(** ** package regexp: the fragment the archive pattern uses *)

Module regexp.

Import strings.

Inductive Regexp : Type :=
| Lit (s : string)             (* a literal text *)
| Digit                        (* [0-9] *)
| Alt (r1 r2 : Regexp)         (* r1|r2, r1 preferred *)
| Seq (r1 r2 : Regexp)         (* r1r2 *)
| Rep (n : nat) (r : Regexp)   (* r{n} *)
| NoMatch.                     (* the empty alternation *)

Fixpoint rep_match (n : nat) (m : string → list string) (s : string)
  : list string :=
  match n with
  | O => [s]
  | S n' => flat_map (rep_match n' m) (m s)
  end.

(** The remainders of [s] after each way [r] matches a prefix of [s], in
    the order of preference of a backtracking matcher. *)
Fixpoint match_at (r : Regexp) (s : string) : list string :=
  match r with
  | Lit l => match TrimPrefix_opt l s with Some rest => [rest] | None => [] end
  | Digit => match s with
             | String c rest => if isDigit c then [rest] else []
             | EmptyString => []
             end
  | Alt r1 r2 => match_at r1 s ++ match_at r2 s
  | Seq r1 r2 => flat_map (match_at r2) (match_at r1 s)
  | Rep n r1 => rep_match n (match_at r1) s
  | NoMatch => []
  end.

(** The leftmost match: the first start position with a match, the
    preferred match there. *)
Fixpoint find_at (r : Regexp) (s : string) : option string :=
  match match_at r s with
  | rest :: _ => Some (prefix_n (String.length s - String.length rest) s)
  | [] => match s with
          | String _ s' => find_at r s'
          | EmptyString => None
          end
  end.

(** [re.FindString(s)]: the text of the leftmost match, the empty string
    when there is none. *)
Definition FindString (r : Regexp) (s : string) : string :=
  default EmptyString (find_at r s).

(** The alternation of the literal [names], as
    [strings.Join(names, "|")] writes it. *)
Definition alternation (names : list string) : Regexp :=
  foldr (λ n r, Alt (Lit n) r) NoMatch names.

End regexp.

(** ** Levels (level.go) *)

Definition Level := Z.

Definition Debug : Level := 0.
Definition Info : Level := 1.
Definition Warning : Level := 2.
Definition Error : Level := 3.
Definition Fatal : Level := 4.
Definition levelCount : Z := 5.

Definition levelMin : Level := Debug.
Definition levelMax : Level := Fatal.

Definition levelNames : gmap Z string :=
  list_to_map [(Debug, "DEBUG"); (Info, "INFO"); (Warning, "WARNING");
               (Error, "ERROR"); (Fatal, "FATAL")].

(** [levelNames[l]]: a Go map yields the zero value for an absent key. *)
Definition levelName (l : Level) : string := default "" (levelNames !! l).

(** The levels [levelMin .. levelMax], as the [for] loops enumerate them. *)
Definition levels : list Level := [Debug; Info; Warning; Error; Fatal].

(** ** Constants of filebackend.go *)

Definition defaultFlushInterval : Duration := Second * 3.
Definition defaultBufferSize : Z := 256 * 1024.
Definition logFileSuffix : string := ".log".

(** [rotatedFilenamePattern], compiled in [init] from
    ["(%s)\\.log\\.20[0-9]{8}"] with the level names joined by ["|"].  Go
    ranges over the map [levelNames] in no fixed order; the names are
    taken here in level order (no name is a prefix of another, so the order
    does not change what matches). *)
Definition rotatedFilenamePattern : regexp.Regexp :=
  regexp.Seq (regexp.alternation (levelName <$> levels))
    (regexp.Seq (regexp.Lit ".log.20") (regexp.Rep 8 regexp.Digit)).

(** ** The operating system: files, handles, diagnostics, clock *)

(** Go's [error] values the package meets; [option error] is an [error]
    that may be [nil]. *)
Inductive error : Type :=
| ErrNotExist      (* the path has no file: os.IsNotExist *)
| ErrPermission    (* the path cannot be reached *)
| ErrClosed        (* the handle has been closed *)
| ErrShortWrite.   (* io.ErrShortWrite *)

(** One constructor per [fmt.Fprintf(os.Stderr, ...)] of the package. *)
Inductive Diag : Type :=
| DiagFlushFailed                                (* "flush failed: %v" *)
| DiagSyncFailed                                 (* "sync failed: %v" *)
| DiagWriteFailed                                (* "write file failed: %v" *)
| DiagReadDirFailed (dir : string)               (* "read dir %s failed: %v" *)
| DiagRemoveFailed (path : string)               (* "remove %s failed: %v" *)
| DiagStatFailed (path : string)                 (* "stat %s failed: %v" *)
| DiagOpenFailed (path : string)                 (* "open %s failed: %v" *)
| DiagCloseFailed                                (* "close failed: %v" *)
| DiagParseFailed (name : string)                (* "parse datetime suffix failed, ..." *)
| DiagInvalidLevel (level : Z) (content : list byte). (* "invalid level: ..." *)

Module os.

(** A file: what the operating system holds of it, and what has reached
    stable storage at the last [Sync]. *)
Record inode : Type := mkInode {
  content : list byte;
  durable : list byte
}.

(** The directory is a flat name space from paths to files; files and
    handles are numbered by their position, so a number is never reused
    ([None] in [handles] is a closed handle).  [denied] holds the paths
    no call may reach (a permission fault): it is what makes the error
    branches of the package reachable. *)
Record OS : Type := mkOS {
  names : gmap string nat;
  inodes : list inode;
  handles : list (option nat);
  denied : gset string;
  stderr : list Diag;
  now : Time
}.

Definition set_names (f : gmap string nat → gmap string nat) (o : OS) : OS :=
  mkOS (f (names o)) (inodes o) (handles o) (denied o) (stderr o) (now o).
Definition set_inodes (f : list inode → list inode) (o : OS) : OS :=
  mkOS (names o) (f (inodes o)) (handles o) (denied o) (stderr o) (now o).
Definition set_handles (f : list (option nat) → list (option nat)) (o : OS) : OS :=
  mkOS (names o) (inodes o) (f (handles o)) (denied o) (stderr o) (now o).
Definition set_stderr (f : list Diag → list Diag) (o : OS) : OS :=
  mkOS (names o) (inodes o) (handles o) (denied o) (f (stderr o)) (now o).

(** [fmt.Fprintf(os.Stderr, ...)] *)
Definition eprint (d : Diag) (o : OS) : OS := set_stderr (λ l, l ++ [d]) o.

(** The file an open handle refers to. *)
Definition file_of (h : nat) (o : OS) : option nat :=
  match handles o !! h with
  | Some (Some ino) => if decide (ino < length (inodes o))%nat then Some ino else None
  | _ => None
  end.

(** [os.MkdirAll(dir, 0755)] *)
Definition MkdirAll (dir : string) (o : OS) : option error * OS :=
  if decide (dir ∈ denied o) then (Some ErrPermission, o) else (None, o).

(** [os.OpenFile(path, O_APPEND|O_CREATE|O_WRONLY, 0644)]: a new handle
    on the file at [path], an empty file created there when absent. *)
Definition OpenFile (path : string) (o : OS) : (nat * option error) * OS :=
  if decide (path ∈ denied o) then ((O, Some ErrPermission), o)
  else
    let h := length (handles o) in
    match names o !! path with
    | Some ino => ((h, None), set_handles (λ hs, hs ++ [Some ino]) o)
    | None =>
        let ino := length (inodes o) in
        ((h, None),
         set_handles (λ hs, hs ++ [Some ino])
           (set_inodes (λ l, l ++ [mkInode [] []])
              (set_names (insert path ino) o)))
    end.

(** [file.Write(p)] on an append-mode handle. *)
Definition Write (h : nat) (p : list byte) (o : OS) : (Z * option error) * OS :=
  match file_of h o with
  | Some ino =>
      ((Z.of_nat (length p), None),
       set_inodes (alter (λ nd, mkInode (content nd ++ p) (durable nd)) ino) o)
  | None => ((0, Some ErrClosed), o)
  end.

(** [file.Sync()] *)
Definition Sync (h : nat) (o : OS) : option error * OS :=
  match file_of h o with
  | Some ino =>
      (None, set_inodes (alter (λ nd, mkInode (content nd) (content nd)) ino) o)
  | None => (Some ErrClosed, o)
  end.

(** [file.Close()] *)
Definition Close (h : nat) (o : OS) : option error * OS :=
  match file_of h o with
  | Some _ => (None, set_handles (<[h := None]>) o)
  | None => (Some ErrClosed, o)
  end.

(** [os.Stat(path)], the error only. *)
Definition Stat (path : string) (o : OS) : option error :=
  if decide (path ∈ denied o) then Some ErrPermission
  else match names o !! path with
       | Some _ => None
       | None => Some ErrNotExist
       end.

(** [os.IsNotExist(err)] *)
Definition IsNotExist (e : option error) : bool :=
  match e with Some ErrNotExist => true | _ => false end.

(** [os.Rename(oldpath, newpath)]: a file already at [newpath] is
    replaced. *)
Definition Rename (oldpath newpath : string) (o : OS) : option error * OS :=
  if decide (oldpath ∈ denied o ∨ newpath ∈ denied o) then (Some ErrPermission, o)
  else match names o !! oldpath with
       | Some ino => (None, set_names (λ m, <[newpath := ino]> (delete oldpath m)) o)
       | None => (Some ErrNotExist, o)
       end.

(** [os.Remove(path)] *)
Definition Remove (path : string) (o : OS) : option error * OS :=
  if decide (path ∈ denied o) then (Some ErrPermission, o)
  else match names o !! path with
       | Some _ => (None, set_names (delete path) o)
       | None => (Some ErrNotExist, o)
       end.

(** [path.Join(dir, name)] and [filepath.Join(dir, name)], for a clean
    non-empty [dir] and a plain [name], where there is nothing to clean
    (see [path.Join] and [path_Join_clean]). *)
Definition Join (dir name : string) : string := dir +:+ "/" +:+ name.

(** The name of the entry of directory [dir] a path stands for, if it is
    one. *)
Definition entry_name (dir path : string) : option string :=
  match strings.TrimPrefix_opt (dir +:+ "/") path with
  | Some n =>
      if String.eqb n "" || strings.ContainsByte n "/" then None else Some n
  | None => None
  end.

Definition string_le (a b : string) : Prop := String.leb a b = true.

#[global] Instance string_le_dec a b : Decision (string_le a b).
Proof. unfold string_le. apply _. Defined.

(** [ioutil.ReadDir(dir)]: the names of the entries of [dir], sorted by
    name. *)
Definition ReadDir (dir : string) (o : OS) : option (list string) :=
  if decide (dir ∈ denied o) then None
  else Some (merge_sort string_le
               (omap (λ kv, entry_name dir kv.1) (map_to_list (names o)))).

End os.

Import os.

(** ** package bufio: the buffered writer *)

Module bufio.

(** A [bufio.Writer] over the handle [wr]: the pending bytes, the sticky
    error, the buffer size. *)
Record Writer : Type := mkWriter {
  buf : list byte;
  err : option error;
  wr : nat;
  size : Z
}.

Definition NewWriterSize (wr : nat) (size : Z) : Writer :=
  mkWriter [] None wr size.

Definition Buffered (b : Writer) : Z := Z.of_nat (length (buf b)).
Definition Available (b : Writer) : Z := size b - Buffered b.

(** [b.Flush()]: hands the pending bytes to the handle; a failure is
    remembered in [err] and keeps the unwritten bytes. *)
Definition Flush (b : Writer) (o : OS) : option error * Writer * OS :=
  match err b with
  | Some e => (Some e, b, o)
  | None =>
      if Buffered b =? 0 then (None, b, o)
      else
        let '((n, e), o') := os.Write (wr b) (buf b) o in
        let e := if (n <? Buffered b) && bool_decide (e = None)
                 then Some ErrShortWrite else e in
        match e with
        | Some e' => (Some e', mkWriter (drop (Z.to_nat n) (buf b)) (Some e') (wr b) (size b), o')
        | None => (None, mkWriter [] None (wr b) (size b), o')
        end
  end.

(** The loop of [b.Write(p)]: while [p] does not fit and no error is
    pending, either write [p] straight to the handle (empty buffer) or
    fill the buffer and flush it.  [nn] counts the bytes taken. *)
Fixpoint Write_loop (fuel : nat) (b : Writer) (p : list byte) (nn : Z) (o : OS)
  : (Z * option error) * Writer * OS :=
  let finish :=
    match err b with
    | Some e => ((nn, Some e), b, o)
    | None =>
        ((nn + Z.of_nat (length p), None),
         mkWriter (buf b ++ p) None (wr b) (size b), o)
    end in
  match fuel with
  | O => finish
  | S fuel' =>
      if (Available b <? Z.of_nat (length p)) && bool_decide (err b = None) then
        if Buffered b =? 0 then
          let '((n, e), o') := os.Write (wr b) p o in
          Write_loop fuel' (mkWriter (buf b) e (wr b) (size b))
            (drop (Z.to_nat n) p) (nn + n) o'
        else
          let n := Z.to_nat (Available b) in
          let '(_, b', o') :=
            Flush (mkWriter (buf b ++ take n p) (err b) (wr b) (size b)) o in
          Write_loop fuel' b' (drop n p) (nn + Z.of_nat n) o'
      else finish
  end.

(** [b.Write(p)]; the loop runs at most twice (see [Write_loop_fuel]). *)
Definition Write (b : Writer) (p : list byte) (o : OS)
  : (Z * option error) * Writer * OS :=
  Write_loop 2 b p 0 o.

End bufio.

(** ** The buffered per-level writer ([syncBufio]) *)

Record syncBufio : Type := mkSyncBufio {
  writer : bufio.Writer;
  file : nat;
  writeSize : Z;
  filePath : string
}.

Definition newSyncBufio (file : nat) (filepath : string) (bufferSize : Z)
  : syncBufio :=
  mkSyncBufio (bufio.NewWriterSize file bufferSize) file 0 filepath.

Module SyncBufio.

Definition flush (s : syncBufio) (o : OS) : option error * syncBufio * OS :=
  let '(e, b, o') := bufio.Flush (writer s) o in
  (e, mkSyncBufio b (file s) (writeSize s) (filePath s), o').

Definition sync (s : syncBufio) (o : OS) : option error * OS :=
  os.Sync (file s) o.

Definition close (s : syncBufio) (o : OS) : option error * syncBufio * OS :=
  let '(e1, s1, o1) := flush s o in
  let o2 := match e1 with Some _ => eprint DiagFlushFailed o1 | None => o1 end in
  let '(e2, o3) := sync s1 o2 in
  let o4 := match e2 with Some _ => eprint DiagSyncFailed o3 | None => o3 end in
  let '(e3, o5) := os.Close (file s1) o4 in
  (e3, s1, o5).

Definition write (s : syncBufio) (content : list byte) (o : OS) : syncBufio * OS :=
  let '((writeCount, e), b, o1) := bufio.Write (writer s) content o in
  let o2 := match e with Some _ => eprint DiagWriteFailed o1 | None => o1 end in
  (mkSyncBufio b (file s) (wrapU64 (writeSize s + writeCount)) (filePath s), o2).

End SyncBufio.

(** ** The backend ([FileBackend]) *)

(** The fields of the Go struct.  [mutex] is [true] while some path holds
    the lock.  [writer] becomes [writers] here (the name is taken by
    [syncBufio]).  The fields [rotatedFilenamePattern] and [getNowTime] are
    set once by [NewFileBackend], to the package's pattern and to the clock:
    the model reads the pattern and the clock of [OS] directly.  [keepHours]
    is a Go [int]. *)
Record FileBackend : Type := mkFileBackend {
  mutex : bool;
  dir : string;
  writers : list (option syncBufio);
  flushInterval : Duration;
  rotateByHour : bool;
  lastRotateTime : Z;
  keepHours : Z
}.

Definition set_mutex (b : bool) (s : FileBackend) : FileBackend :=
  mkFileBackend b (dir s) (writers s) (flushInterval s) (rotateByHour s)
    (lastRotateTime s) (keepHours s).
Definition set_writers (f : list (option syncBufio) → list (option syncBufio))
  (s : FileBackend) : FileBackend :=
  mkFileBackend (mutex s) (dir s) (f (writers s)) (flushInterval s)
    (rotateByHour s) (lastRotateTime s) (keepHours s).

(** The zero value of the struct: [var fileBackend FileBackend]. *)
Definition zeroFileBackend : FileBackend :=
  mkFileBackend false "" (replicate (Z.to_nat levelCount) None) 0 false 0 0.

(** ** Computations: the backend and the operating system, with panics *)

Record World : Type := mkWorld {
  fb : FileBackend;
  sys : OS
}.

Inductive PanicKind : Type :=
| NilDereference      (* invalid memory address or nil pointer dereference *)
| IndexOutOfRange     (* index out of range *)
| UnlockOfUnlocked.   (* sync: unlock of unlocked mutex *)

(** How a call ends: it returns, it panics, or it waits for the lock
    (which the caller of this sequential run will never release). *)
Inductive Result (A : Type) : Type :=
| Done (a : A) (w : World)
| Panic (p : PanicKind) (w : World)
| Blocked (w : World).
Arguments Done {A} a w.
Arguments Panic {A} p w.
Arguments Blocked {A} w.

Definition M (A : Type) : Type := World → Result A.

#[global] Instance M_ret : MRet M := λ A a w, Done a w.
#[global] Instance M_bind : MBind M := λ A B f m w,
  match m w with
  | Done a w' => f a w'
  | Panic p w' => Panic p w'
  | Blocked w' => Blocked w'
  end.

Definition panic {A} (p : PanicKind) : M A := λ w, Panic p w.

(** Reads the backend struct. *)
Definition self : M FileBackend := λ w, Done (fb w) w.

Definition modify_fb (f : FileBackend → FileBackend) : M unit :=
  λ w, Done tt (mkWorld (f (fb w)) (sys w)).

(** Runs a call of the operating system. *)
Definition syscall {A} (f : OS → A * OS) : M A :=
  λ w, let '(a, o) := f (sys w) in Done a (mkWorld (fb w) o).

Definition fprintf (d : Diag) : M unit := syscall (λ o, (tt, eprint d o)).

(** [s.getNowTime()] *)
Definition getNowTime : M Time := λ w, Done (now (sys w)) w.

(** [s.writer[i]] as a value: indexing the array outside its bounds
    panics. *)
Definition getWriter (i : Z) : M (option syncBufio) :=
  s ← self;
  if (0 <=? i) then
    match writers s !! Z.to_nat i with
    | Some slot => mret slot
    | None => panic IndexOutOfRange
    end
  else panic IndexOutOfRange.

(** [s.writer[i] = v] *)
Definition setWriter (i : Z) (v : option syncBufio) : M unit :=
  s ← self;
  if (0 <=? i) && bool_decide (Z.to_nat i < length (writers s))%nat then
    modify_fb (set_writers (<[Z.to_nat i := v]>))
  else panic IndexOutOfRange.

(** [s.mutex.Lock()]: waits while the lock is held. *)
Definition Lock : M unit := λ w,
  if mutex (fb w) then Blocked w
  else Done tt (mkWorld (set_mutex true (fb w)) (sys w)).

(** [s.mutex.Unlock()] *)
Definition Unlock : M unit := λ w,
  if mutex (fb w) then Done tt (mkWorld (set_mutex false (fb w)) (sys w))
  else Panic UnlockOfUnlocked w.

(** [defer d; body]: [d] runs when [body] returns and when it panics. *)
Definition defer {A} (d : M unit) (body : M A) : M A := λ w,
  match body w with
  | Done a w' => match d w' with
                 | Done _ w'' => Done a w''
                 | Panic p w'' => Panic p w''
                 | Blocked w'' => Blocked w''
                 end
  | Panic p w' => match d w' with
                  | Done _ w'' => Panic p w''
                  | Panic p' w'' => Panic p' w''
                  | Blocked w'' => Blocked w''
                  end
  | Blocked w' => Blocked w'
  end.

(** A [for] loop over [l] whose body may [return] from the enclosing
    function: the body answers [true] when it did. *)
Fixpoint forReturn {A} (l : list A) (body : A → M bool) : M unit :=
  match l with
  | [] => mret tt
  | x :: l' => r ← body x; if r : bool then mret tt else forReturn l' body
  end.

(** A [for] loop over [l] that runs to its end. *)
Fixpoint forEach {A} (l : list A) (body : A → M unit) : M unit :=
  match l with
  | [] => mret tt
  | x :: l' => body x;; forEach l' body
  end.

(** ** The methods of [FileBackend] (filebackend.go) *)

(** [s.openSyncBufio(level, filepath)] *)
Definition openSyncBufio (level : Level) (filepath : string) : M (option error) :=
  '(file, err) ← syscall (OpenFile filepath);
  match err with
  | Some e => mret (Some e)
  | None =>
      setWriter level (Some (newSyncBufio file filepath defaultBufferSize));;
      mret None
  end.

(** The loop of [NewFileBackend] that opens one file per level; it returns
    the first error. *)
Fixpoint openLevels (dir : string) (ls : list Level) : M (option error) :=
  match ls with
  | [] => mret None
  | i :: ls' =>
      let filepath := Join dir (levelName i +:+ logFileSuffix) in
      err ← openSyncBufio i filepath;
      match err with
      | Some e => mret (Some e)
      | None => openLevels dir ls'
      end
  end.

(** [NewFileBackend(dir)], run on the operating system [o].  A returned
    error means no backend; otherwise the backend is the [fb] of the final
    world.  The three periodic tasks it starts are the environment's calls
    of [Flush], [doMonitorFiles] and [doRotateByHour]. *)
Definition NewFileBackend (dir : string) (o : OS) : Result (option error) :=
  let '(err, o1) := MkdirAll dir o in
  match err with
  | Some e => Done (Some e) (mkWorld zeroFileBackend o1)
  | None =>
      let fileBackend :=
        mkFileBackend false dir (writers zeroFileBackend) defaultFlushInterval
          false 0 0 in
      openLevels dir levels (mkWorld fileBackend o1)
  end.

(** [s.SetRotateFile(rotateByHour, keepHours)] *)
Definition SetRotateFile (rotate : bool) (keep : Z) : M unit :=
  if rotate then
    t ← getNowTime;
    modify_fb (λ s, mkFileBackend (mutex s) (dir s) (writers s) (flushInterval s)
                      true (Unix (truncateToHour t)) keep)
  else
    modify_fb (λ s, mkFileBackend (mutex s) (dir s) (writers s) (flushInterval s)
                      false 0 (keepHours s)).

(** [s.SetFlushInterval(t)] *)
Definition SetFlushInterval (t : Duration) : M unit :=
  modify_fb (λ s, mkFileBackend (mutex s) (dir s) (writers s) t
                    (rotateByHour s) (lastRotateTime s) (keepHours s)).

(** [s.shouldDelete(name, keepHours)] *)
Definition shouldDelete (name : string) (keep : Z) : M bool :=
  match strings.Split name "." !! 2%nat with
  | None => panic IndexOutOfRange
  | Some datetimeSuffix =>
      match Parse_2006010215 datetimeSuffix with
      | None => fprintf (DiagParseFailed name);; mret false
      | Some fileTime =>
          let fileTime := Add fileTime (Duration_mul keep Hour) in
          t ← getNowTime;
          let removePoint := truncateToHour t in
          if negb (After fileTime removePoint) then mret true else mret false
      end
  end.

(** The body of the rename loop of [doRotateByHour] for level [i]. *)
Definition rotateLevel (rotateTime : Time) (i : Level) : M unit :=
  w ← getWriter i;
  match w with
  | None => panic NilDereference
  | Some sb =>
      let originalFilename := filePath sb in
      let newFilename := originalFilename +:+ "." +:+ Format_2006010215 rotateTime in
      syscall (Rename originalFilename newFilename);;
      mret tt
  end.

(** The body of the removal loop of [doRotateByHour] for one entry. *)
Definition removeOldFile (s : FileBackend) (name : string) : M unit :=
  if String.eqb name (regexp.FindString rotatedFilenamePattern name) then
    del ← shouldDelete name (keepHours s);
    if del : bool then
      let fullpath := Join (dir s) name in
      err ← syscall (Remove fullpath);
      match err with
      | Some _ => fprintf (DiagRemoveFailed fullpath)
      | None => mret tt
      end
    else mret tt
  else mret tt.

(** The second half of [doRotateByHour], from the comment
    [// remove old files] on. *)
Definition removeOldFiles : M unit :=
  s ← self;
  if keepHours s <=? 0 then mret tt
  else
    files ← syscall (λ o, (ReadDir (dir s) o, o));
    match files with
    | None => fprintf (DiagReadDirFailed (dir s))
    | Some files => forEach files (removeOldFile s)
    end.

(** [s.doRotateByHour()] *)
Definition doRotateByHour : M unit :=
  s ← self;
  if negb (rotateByHour s) then mret tt
  else
    t ← getNowTime;
    let rotateTime := truncateToHour t in
    (if lastRotateTime s <? Unix rotateTime
     then forEach levels (rotateLevel rotateTime)
     else mret tt);;
    removeOldFiles.

(** [lockerWrapper] of [doMonitorFiles] *)
Definition lockerWrapper (level : Level) (filepath : string) : M (option error) :=
  Lock;;
  defer Unlock (openSyncBufio level filepath).

(** The body of the loop of [doMonitorFiles] for level [i]; [true] is its
    [return]. *)
Definition monitorLevel (i : Level) : M bool :=
  w ← getWriter i;
  match w with
  | None => mret false
  | Some writer =>
      let filepath := filePath writer in
      err ← syscall (λ o, (Stat filepath o, o));
      match err with
      | None => mret true
      | Some _ =>
          if negb (IsNotExist err) then
            fprintf (DiagStatFailed filepath);; mret true
          else
            err ← lockerWrapper i filepath;
            match err with
            | Some _ => fprintf (DiagOpenFailed filepath);; mret true
            | None => syscall (SyncBufio.close writer);; mret false
            end
      end
  end.

(** [s.doMonitorFiles()] *)
Definition doMonitorFiles : M unit := forReturn levels monitorLevel.

(** The body of the loop of [flush] for slot [i]. *)
Definition flushLevel (i : Z) : M unit :=
  w ← getWriter i;
  match w with
  | None => mret tt
  | Some sb =>
      '(_, sb') ← syscall (SyncBufio.flush sb);
      setWriter i (Some sb');;
      syscall (SyncBufio.sync sb');;
      mret tt
  end.

(** [s.flush()] *)
Definition flush : M unit := forEach levels flushLevel.

(** [s.Flush()] *)
Definition Flush : M unit := Lock;; defer Unlock flush.

(** The body of the loop of [close] for slot [i]. *)
Definition closeLevel (i : Z) : M unit :=
  w ← getWriter i;
  match w with
  | None => panic NilDereference
  | Some sb =>
      '(err, _) ← syscall (SyncBufio.close sb);
      match err with
      | Some _ => fprintf DiagCloseFailed
      | None => mret tt
      end;;
      setWriter i None
  end.

(** [s.close()] *)
Definition close : M unit := forEach levels closeLevel.

(** [s.Close()] *)
Definition Close : M unit := Lock;; defer Unlock close.

(** The [if]/[else] that opens the body of [Log]: the write to the level's
    slot, or the diagnostic for a level out of range. *)
Definition logWrite (level : Level) (content : list byte) : M unit :=
  if (levelMin <=? level) && (level <=? levelMax) then
    w ← getWriter level;
    match w with
    | None => panic NilDereference
    | Some sb =>
        sb' ← syscall (SyncBufio.write sb content);
        setWriter level (Some sb')
    end
  else fprintf (DiagInvalidLevel level content).

(** [s.Log(level, content)] *)
Definition Log (level : Level) (content : list byte) : M unit :=
  Lock;;
  defer Unlock (
    logWrite level content;;
    if level =? Fatal then flush else mret tt).

(** ** Scenarios: concrete worlds, after the package's tests *)

Module Scenario.

(** Where a run ended. *)
Definition final {A} (r : Result A) : World :=
  match r with Done _ w => w | Panic _ w => w | Blocked w => w end.

(** The environment moves the clock forward by [d]. *)
Definition advance (d : Duration) (w : World) : World :=
  let o := sys w in
  mkWorld (fb w)
    (mkOS (names o) (inodes o) (handles o) (denied o) (stderr o) (Add (now o) d)).

(** The environment removes the file at [path]. *)
Definition unlink (path : string) (w : World) : World :=
  mkWorld (fb w) (set_names (delete path) (sys w)).

(** Another path of execution holds the lock. *)
Definition held (w : World) : World := mkWorld (set_mutex true (fb w)) (sys w).

(** An empty disk; the clock of [TestRotate]: 2019-07-10 01:13:14 UTC. *)
Definition disk0 : OS := mkOS ∅ [] [] ∅ [] (mkTime 1562721194 0 0).

Definition msg : list byte := list_byte_of_string "This is one string.".

(** [NewFileBackend("log")] on the empty disk. *)
Definition opened0 : World := final (NewFileBackend "log" disk0).

(** ... one message logged at [Info]. *)
Definition logged0 : World := final (Log Info msg opened0).

(** ... and the backend closed. *)
Definition closed0 : World := final (Close logged0).

(** [opened0] with [INFO.log] removed from outside, [DEBUG.log] in place. *)
Definition infoMissing : World := unlink "log/INFO.log" opened0.

(** [logged0] with every active file removed from outside. *)
Definition allMissing : World :=
  foldr (λ l w, unlink (Join "log" (levelName l +:+ logFileSuffix)) w)
    logged0 levels.

(** Rotation switched on at 01:13:14 with [keepHours = 1], a message
    logged, and the clock one hour later (as [TestRotate] goes). *)
Definition rotating0 : World :=
  advance Hour (final (Log Info msg (final (SetRotateFile true 1 opened0)))).

(** A time of day in a location five and a half hours east of UTC:
    2019-01-02 12:13:00 +05:30. *)
Definition halfHourZone : Time := mkTime 1546411380 0 19800.

End Scenario.

(** ** Predicates on worlds *)

(** Every writer slot is nil. *)
Definition slots_nil (s : FileBackend) : Prop :=
  ∀ i : nat, (i < Z.to_nat levelCount)%nat → writers s !! i = Some None.


(** The backend struct and the clock are as before. *)
Definition same_backend (w w' : World) : Prop :=
  fb w' = fb w ∧ now (sys w') = now (sys w).

(** ** Archive names, in the words of the specification *)

(** The last [n] bytes of [s]. *)
Fixpoint string_drop (n : nat) (s : string) : string :=
  match n, s with
  | S n', String _ s' => string_drop n' s'
  | _, _ => s
  end.

(** The hour-bucket suffix of an archive name [<LEVEL>.log.<YYYYMMDDHH>]:
    its last ten bytes. *)
Definition hourBucketSuffix (name : string) : string :=
  string_drop (String.length name - 10) name.

(** A directory entry's name matches the archive pattern (the test of the
    removal loop, [file.Name() == pattern.FindString(file.Name())], on a
    name that is not empty, as every entry's is). *)
Definition isArchiveName (name : string) : bool :=
  negb (String.eqb name "")
  && String.eqb name (regexp.FindString rotatedFilenamePattern name).

(** [t] moved [k] hours later, in unbounded arithmetic. *)
Definition plusHours (t : Time) (k : Z) : Time :=
  mkTime (unixSec t + k * 3600) (nsec t) (zoneOffset t).

(** The instant [a] is at or before the instant [b]. *)
Definition at_or_before (a b : Time) : Prop :=
  unixSec a < unixSec b ∨ (unixSec a = unixSec b ∧ nsec a <= nsec b).

(** The retention rule as the specification words it: [keepHours > 0] and
    the suffix time plus [keepHours] hours is at or before the current hour
    bucket. *)
Definition retention_due (keep : Z) (suffixTime nowTime : Time) : Prop :=
  0 < keep ∧ at_or_before (plusHours suffixTime keep) (truncateToHour nowTime).

(** The largest [keepHours] whose nanosecond count fits a [Duration]. *)
Definition maxKeepHours : Z := (2 ^ 63 - 1) / Hour.


(** The answer of [shouldDelete] as a function of the name, the retention
    window and the clock. *)
Definition shouldDelete_answer (keep : Z) (nowTime : Time) (name : string) : bool :=
  match strings.Split name "." !! 2%nat with
  | Some datetimeSuffix =>
      match Parse_2006010215 datetimeSuffix with
      | Some fileTime =>
          negb (After (Add fileTime (Duration_mul keep Hour)) (truncateToHour nowTime))
      | None => false
      end
  | None => false
  end.

(** The removal loop removes the entry [name] of directory [d]: it is an
    archive name, [shouldDelete] answers yes, and the path can be reached. *)
Definition sweep_removes (d : string) (keep : Z) (o : OS) (name : string) : bool :=
  isArchiveName name && shouldDelete_answer keep (now o) name
  && bool_decide (Join d name ∉ denied o).


Module Scenario2.

Import Scenario.

(** The environment renames a file. *)
Definition rename (oldpath newpath : string) (w : World) : World :=
  mkWorld (fb w) (Rename oldpath newpath (sys w)).2.

(** [opened0] with rotation on and [keepHours = 2562048] (one more than
    [maxKeepHours]), and [INFO.log] already sealed as the archive of
    01:00; the clock still reads 01:13:14. *)
Definition hugeKeep : World :=
  rename "log/INFO.log" "log/INFO.log.2019071001"
    (final (SetRotateFile true 2562048 opened0)).

(** [opened0] with rotation on, [keepHours = 1], and an entry whose name
    matches the archive pattern but names no hour (month 13). *)
Definition malformed : World :=
  rename "log/INFO.log" "log/INFO.log.2019139999"
    (final (SetRotateFile true 1 opened0)).

(** [opened0] with rotation on, [keepHours = 1], the archive of 01:00 in
    place, and the clock two hours later (03:13:14). *)
Definition expired : World :=
  advance (2 * Hour)
    (rename "log/INFO.log" "log/INFO.log.2019071001"
       (final (SetRotateFile true 1 opened0))).

End Scenario2.


(** ** Open backends *)

#[global] Instance error_eq_dec : EqDecision error.
Proof. solve_decision. Defined.

(** The writers in the slots, in level order. *)
Definition live (s : FileBackend) : list syncBufio := omap id (writers s).

(** A writer in working order: no pending error, its buffer writes to its
    own handle, the handle is open on a file, the buffer has the package's
    size. *)
Definition writer_ok (o : OS) (sb : syncBufio) : Prop :=
  bufio.err (writer sb) = None
  ∧ bufio.wr (writer sb) = file sb
  ∧ is_Some (file_of (file sb) o)
  ∧ bufio.size (writer sb) = defaultBufferSize.

(** The backend as [NewFileBackend] leaves it and as it stays until
    [Close]: the lock free, a writer in working order in each of the five
    slots, the writers on different paths and on different files. *)
Definition opened (w : World) : Prop :=
  mutex (fb w) = false
  ∧ length (writers (fb w)) = Z.to_nat levelCount
  ∧ Forall is_Some (writers (fb w))
  ∧ Forall (writer_ok (sys w)) (live (fb w))
  ∧ NoDup (filePath <$> live (fb w))
  ∧ NoDup ((λ sb, file_of (file sb) (sys w)) <$> live (fb w)).

#[global] Instance opened_dec (w : World) : Decision (opened w).
Proof. unfold opened, writer_ok. apply _. Defined.

(** Every active file is missing: [os.Stat] of each writer's path answers
    "does not exist". *)
Definition all_missing (w : World) : Prop :=
  Forall (λ sb, Stat (filePath sb) (sys w) = Some ErrNotExist) (live (fb w)).

#[global] Instance all_missing_dec (w : World) : Decision (all_missing w).
Proof. unfold all_missing. apply _. Defined.

(** The bytes of a file: what the system holds, and what is durable. *)
Definition file_content (ino : nat) (o : OS) : option (list byte) :=
  content <$> inodes o !! ino.
Definition file_durable (ino : nat) (o : OS) : option (list byte) :=
  durable <$> inodes o !! ino.

(** [p] is appended to the file [ino]. *)
Definition appended (ino : nat) (p : list byte) (o : OS) : OS :=
  set_inodes (alter (λ nd, mkInode (content nd ++ p) (durable nd)) ino) o.

(** The file [ino] is made durable. *)
Definition synced (ino : nat) (o : OS) : OS :=
  set_inodes (alter (λ nd, mkInode (content nd) (content nd)) ino) o.

(** A writer with its buffer emptied. *)
Definition emptied (sb : syncBufio) : syncBufio :=
  mkSyncBufio (bufio.mkWriter [] (bufio.err (writer sb)) (bufio.wr (writer sb))
                 (bufio.size (writer sb)))
    (file sb) (writeSize sb) (filePath sb).


(** The slots hold writers in working order, on different files (the
    part of [opened] the flush loop relies on, slot by slot). *)
Definition healthy (w : World) : Prop :=
  (∀ (i : nat) sb, writers (fb w) !! i = Some (Some sb) → writer_ok (sys w) sb)
  ∧ (∀ (i j : nat) sbi sbj,
       writers (fb w) !! i = Some (Some sbi) → writers (fb w) !! j = Some (Some sbj) →
       i ≠ j → file_of (file sbi) (sys w) ≠ file_of (file sbj) (sys w)).

(** Two states of the system that differ at most in the bytes of files. *)
Definition same_but_files (o o' : OS) : Prop :=
  names o' = names o ∧ handles o' = handles o ∧ denied o' = denied o
  ∧ stderr o' = stderr o ∧ now o' = now o
  ∧ length (inodes o') = length (inodes o).

(** Two backends that differ at most in their writer slots. *)
Definition same_but_writers (s s' : FileBackend) : Prop :=
  mutex s' = mutex s ∧ dir s' = dir s ∧ flushInterval s' = flushInterval s
  ∧ rotateByHour s' = rotateByHour s ∧ lastRotateTime s' = lastRotateTime s
  ∧ keepHours s' = keepHours s ∧ length (writers s') = length (writers s).


Module Scenario3.

(** A message as long as the whole buffer, 256 KiB. *)
Definition oversize : list byte := replicate (Z.to_nat defaultBufferSize) "x"%byte.

End Scenario3.


Module Scenario4.

Import Scenario.

(** [rotating0] after [Close]: rotation is on, the hour has changed, every
    slot is nil. *)
Definition rotatingClosed : World := final (Close rotating0).

(** [opened0] with rotation switched on at 01:13:14, and the clock moved to
    01:59:59 of the same hour. *)
Definition sameHour : World :=
  advance (46 * Minute + 45 * Second) (final (SetRotateFile true 1 opened0)).

(** [rotating0] with rotation switched off again. *)
Definition rotationOff : World := final (SetRotateFile false 24 rotating0).

End Scenario4.


(** ** The bytes of a level *)

(** The writer in slot [k], if the slot holds one. *)
Definition writer_at (k : nat) (w : World) : option syncBufio :=
  writers (fb w) !! k ≫= id.

(** The bytes logged at the level of slot [k] so far: those of the slot's
    file, followed by those still in the slot's buffer. *)
Definition logged (k : nat) (w : World) : option (list byte) :=
  sb ← writer_at k w;
  ino ← file_of (file sb) (sys w);
  data ← file_content ino (sys w);
  Some (data ++ bufio.buf (writer sb)).

(** Two states of the system with the same names, diagnostics and clock,
    and as many files and handles. *)
Definition same_names (o o' : OS) : Prop :=
  names o' = names o ∧ denied o' = denied o ∧ stderr o' = stderr o
  ∧ now o' = now o ∧ length (inodes o') = length (inodes o)
  ∧ length (handles o') = length (handles o).

(** The handle [h] is closed. *)
Definition closed (h : nat) (o : OS) : OS := set_handles (<[h := None]>) o.


(** ** Opening the backend *)

(** A well-formed disk: every name leads to a file, and no two names lead
    to the same file (no hard links). *)
Definition disk_ok (o : OS) : Prop :=
  map_Forall (λ _ ino, (ino < length (inodes o))%nat) (names o)
  ∧ NoDup ((map_to_list (names o)).*2).

#[global] Instance disk_ok_dec (o : OS) : Decision (disk_ok o).
Proof. unfold disk_ok. apply _. Defined.

(** The path of the active file of level [l] under [dir], as the loop of
    [NewFileBackend] builds it. *)
Definition activePath (dir : string) (l : Level) : string :=
  Join dir (levelName l +:+ logFileSuffix).

(** What the loop of [NewFileBackend] over the levels [ls] has done when it
    ends without error, from [w] to [w']: a new handle per level, in a
    writer with an empty buffer on the level's path; files created where
    there was none, empty; nothing else renamed, removed or rewritten. *)
Definition opened_levels (dir : string) (ls : list Level) (w w' : World) : Prop :=
  same_but_writers (fb w) (fb w')
  ∧ disk_ok (sys w')
  ∧ denied (sys w') = denied (sys w) ∧ stderr (sys w') = stderr (sys w)
  ∧ now (sys w') = now (sys w)
  ∧ (∀ k : nat, Z.of_nat k ∉ ls → writers (fb w') !! k = writers (fb w) !! k)
  ∧ (∃ hs, handles (sys w') = handles (sys w) ++ hs ∧ length hs = length ls)
  ∧ (∀ h : nat, (length (handles (sys w)) ≤ h < length (handles (sys w')))%nat →
       is_Some (file_of h (sys w')))
  ∧ (∃ ns, inodes (sys w') = inodes (sys w) ++ ns
           ∧ Forall (λ nd, nd = mkInode [] []) ns)
  ∧ (∀ p ino, names (sys w) !! p = Some ino → names (sys w') !! p = Some ino)
  ∧ (∀ p ino, names (sys w') !! p = Some ino →
       names (sys w) !! p = Some ino
       ∨ ((length (inodes (sys w)) ≤ ino)%nat ∧ ∃ l, l ∈ ls ∧ p = activePath dir l))
  ∧ (∀ l, l ∈ ls →
       ∃ h ino,
         writers (fb w') !! Z.to_nat l
         = Some (Some (newSyncBufio h (activePath dir l) defaultBufferSize))
         ∧ (length (handles (sys w)) ≤ h)%nat
         ∧ file_of h (sys w') = Some ino
         ∧ names (sys w') !! activePath dir l = Some ino).


(** ** Rotation and reopening *)

(** Every writer is on the active path of its level under the backend's
    directory. *)
Definition at_home (w : World) : Prop :=
  filePath <$> live (fb w) = activePath (dir (fb w)) <$> levels.

#[global] Instance at_home_dec (w : World) : Decision (at_home w).
Proof. unfold at_home. apply _. Defined.

(** Every writer's path leads to the file its handle is open on. *)
Definition attached (w : World) : Prop :=
  Forall (λ sb, names (sys w) !! filePath sb = file_of (file sb) (sys w))
    (live (fb w)).

#[global] Instance attached_dec (w : World) : Decision (attached w).
Proof. unfold attached. apply _. Defined.

(** The name the rename loop of [doRotateByHour] gives the file of a
    writer, for the hour bucket [t]. *)
Definition archivePath (sb : syncBufio) (t : Time) : string :=
  filePath sb +:+ "." +:+ Format_2006010215 t.

(** The names after [os.Rename(oldpath, newpath)] has succeeded or found no
    file at [oldpath]. *)
Definition renamed (oldpath newpath : string) (m : gmap string nat)
  : gmap string nat :=
  match m !! oldpath with
  | Some ino => <[newpath := ino]> (delete oldpath m)
  | None => m
  end.


(** The system after [os.OpenFile] has created an empty file at [path]
    and opened a handle on it. *)
Definition created (path : string) (o : OS) : OS :=
  set_handles (λ hs, hs ++ [Some (length (inodes o))])
    (set_inodes (λ l, l ++ [mkInode [] []])
       (set_names (insert path (length (inodes o))) o)).


(** ** The hour bucket in archive names: format and parse *)

(** [P] holds of the [n] integers from [lo] on. *)
Fixpoint all_from (P : Z → bool) (lo : Z) (n : nat) : bool :=
  match n with
  | O => true
  | S n' => P lo && all_from P (lo + 1) n'
  end.

(** [appendInt x 2] is two digits that read back as [x]. *)
Definition two_digits_ok (x : Z) : bool :=
  match appendInt x 2 with
  | String a (String b EmptyString) =>
      strings.isDigit a && strings.isDigit b
      && (strings.digitVal a * 10 + strings.digitVal b =? x)
  | _ => false
  end.

(** [appendInt y 4] is ["20"] and two digits that read back as [y - 2000]. *)
Definition year_digits_ok (y : Z) : bool :=
  match appendInt y 4 with
  | String a (String b (String c (String d EmptyString))) =>
      Ascii.eqb a "2" && Ascii.eqb b "0"
      && strings.isDigit c && strings.isDigit d
      && (2000 + strings.digitVal c * 10 + strings.digitVal d =? y)
  | _ => false
  end.

(** The civil date of the day [day] is a date of the years 2000 to 2099,
    and it is the date of that day only. *)
Definition civil_ok (day : Z) : bool :=
  let '(y, m, d) := civil_from_days day in
  (2000 <=? y) && (y <? 2100) && (1 <=? m) && (m <=? 12) && (1 <=? d)
  && (d <=? daysIn m y) && (days_from_civil y m d =? day).



Module Scenario5.

Import Scenario Scenario2.

(** [malformed] with, besides the entry that names no hour, the archive of
    01:00 of another level in place, and the clock two hours later
    (03:13:14): the listing holds the malformed entry first and the expired
    archive after it. *)
Definition malformedThenExpired : World :=
  advance (2 * Hour)
    (rename "log/WARNING.log" "log/WARNING.log.2019071001" malformed).

End Scenario5.


(** ** package path: [Clean] and [Join] *)

Module path.

(** The elements joined with ["/"] between them. *)
Fixpoint join_elems (l : list string) : string :=
  match l with
  | [] => ""
  | e :: l' =>
      match l' with
      | [] => e
      | _ :: _ => e +:+ "/" +:+ join_elems l'
      end
  end.

(** One element added to the cleaned elements so far, the last one first:
    a [..] removes the element before it, stays when there is none to
    remove and the path is not rooted, and is dropped at the root. *)
Definition push (rooted : bool) (out : list string) (e : string) : list string :=
  if String.eqb e ".." then
    match out with
    | top :: rest => if String.eqb top ".." then e :: out else rest
    | [] => if rooted then [] else [e]
    end
  else e :: out.

(** [path.Clean(p)], by the rules of its documentation: multiple slashes
    count as one, [.] elements go, [..] elements go with the element before
    them, [..] elements at the root go; the empty result is ["."]. *)
Definition Clean (p : string) : string :=
  if String.eqb p "" then "."
  else
    let rooted := match p with String c _ => Ascii.eqb c "/" | EmptyString => false end in
    let elems := filter (λ e, e ≠ "" ∧ e ≠ ".") (strings.Split p "/") in
    let out := rev (foldl (push rooted) [] elems) in
    let s := (if rooted then "/" else "") +:+ join_elems out in
    if String.eqb s "" then "." else s.

(** [path.Join(dir, name)] (and [filepath.Join] on a system whose
    separator is the slash): the non-empty arguments joined with a slash,
    cleaned. *)
Definition Join (dir name : string) : string :=
  if String.eqb dir "" then (if String.eqb name "" then "" else Clean name)
  else if String.eqb name "" then Clean dir
  else Clean (dir +:+ "/" +:+ name).

End path.

(** A path element that [path.Clean] keeps as it is. *)
Definition clean_elem (e : string) : Prop := e ≠ "" ∧ e ≠ "." ∧ e ≠ "..".

(** A clean directory path: its elements are not empty, [.] or [..]
    (so it has no doubled and no trailing slash), after a leading slash or
    not. *)
Definition clean_dir (d : string) : Prop :=
  match d with
  | EmptyString => False
  | String c d' =>
      if Ascii.eqb c "/" then Forall clean_elem (strings.Split d' "/")
      else Forall clean_elem (strings.Split d "/")
  end.

#[global] Instance clean_dir_dec (d : string) : Decision (clean_dir d).
Proof. unfold clean_dir, clean_elem. destruct d as [|c d']; [apply _|]. destruct (Ascii.eqb c "/"); apply _. Defined.




(** * Properties *)

(** ** The hour bucket *)

Section HourBucket.

Lemma unixToInternal_hours : unixToInternal = 17259888 * 3600.
Proof. reflexivity. Qed.

(** What [truncateToHour] computes: the Unix second count rounded down to
    a multiple of 3600, no nanoseconds, the location kept. *)
Lemma truncateToHour_eq (t : Time) :
  valid t →
  truncateToHour t = mkTime (unixSec t - unixSec t mod 3600) 0 (zoneOffset t).
Proof.
  intros Hv. unfold valid in Hv.
  unfold truncateToHour, Truncate, Hour, Minute, Second.
  change (60 * (60 * 1000000000) <=? 0) with false. cbv iota.
  rewrite unixToInternal_hours.
  set (s := unixSec t) in *. set (n := nsec t) in *.
  assert (Hr : ((s + 17259888 * 3600) * 1000000000 + n) mod (60 * (60 * 1000000000))
               = (s mod 3600) * 1000000000 + n).
  { pose proof (Z.mod_pos_bound s 3600 ltac:(lia)) as Hm.
    pose proof (Z.div_mod s 3600 ltac:(lia)) as Hd.
    symmetry.
    apply (Z.mod_unique_pos _ _ (s / 3600 + 17259888)); [lia|].
    lia. }
  rewrite Hr. clear Hr.
  pose proof (Z.mod_pos_bound s 3600 ltac:(lia)) as Hm.
  set (m := s mod 3600) in *.
  unfold Add. fold n. fold s.
  assert (Hq : Z.quot (- (m * 1000000000 + n)) 1000000000 = - m).
  { rewrite Z.quot_opp_l by lia. f_equal.
    rewrite Z.quot_div_nonneg by lia.
    symmetry. apply (Z.div_unique_pos _ _ _ n); lia. }
  assert (Hrem : Z.rem (- (m * 1000000000 + n)) 1000000000 = - n).
  { rewrite Z.rem_opp_l by lia. f_equal.
    rewrite Z.rem_mod_nonneg by lia.
    symmetry. apply (Z.mod_unique_pos _ _ m); lia. }
  rewrite Hq, Hrem.
  replace (n + - n) with 0 by lia.
  change (1000000000 <=? 0) with false. change (0 <? 0) with false.
  cbv iota. f_equal; lia.
Qed.

Lemma truncateToHour_valid (t : Time) : valid t → valid (truncateToHour t).
Proof. intros Hv. rewrite truncateToHour_eq by done. unfold valid; simpl; lia. Qed.

Lemma truncateToHour_idempotent (t : Time) :
  valid t → truncateToHour (truncateToHour t) = truncateToHour t.
Proof.
  intros Hv.
  rewrite (truncateToHour_eq (truncateToHour t)) by by apply truncateToHour_valid.
  rewrite truncateToHour_eq by done. simpl. f_equal.
  pose proof (Z.div_mod (unixSec t) 3600 ltac:(lia)) as Hd.
  replace (unixSec t - unixSec t mod 3600) with (unixSec t / 3600 * 3600) by lia.
  rewrite Z.mod_mul by lia. lia.
Qed.

(** In a location whose offset is a whole number of hours, the hour
    bucket is the time with minute and second cleared. *)
Lemma truncateToHour_whole_hour_zone (t : Time) :
  valid t → zoneOffset t mod 3600 = 0 →
  truncateToHour t = zeroMinuteSecond t.
Proof.
  intros Hv Hz. rewrite truncateToHour_eq by done.
  unfold zeroMinuteSecond, Minute_of, Second_of, localSec. f_equal.
  set (s := unixSec t) in *. set (z := zoneOffset t) in *.
  assert (Hm : (s + z) mod 3600 = s mod 3600).
  { apply Z.mod_divide in Hz; [|lia]. destruct Hz as [k ->].
    apply Z.mod_add. lia. }
  rewrite Hm.
  assert (H60 : (s + z) mod 60 = (s mod 3600) mod 60).
  { replace ((s + z) mod 60) with (((s + z) mod 3600) mod 60).
    - by rewrite Hm.
    - pose proof (Z.div_mod (s + z) 3600 ltac:(lia)) as Hd.
      rewrite Hd at 2.
      replace (3600 * ((s + z) / 3600) + (s + z) mod 3600)
        with ((s + z) mod 3600 + (60 * ((s + z) / 3600)) * 60) by lia.
      by rewrite Z.mod_add by lia. }
  rewrite H60.
  pose proof (Z.div_mod (s mod 3600) 60 ltac:(lia)). lia.
Qed.

(** C8, its counterexample: at 12:13 in a location five and a half hours
    east of UTC, [truncateToHour] gives 11:30 of that location, not 12:00:
    the result is not the time with minute and second cleared. *)
Lemma truncateToHour_half_hour_zone :
  valid Scenario.halfHourZone ∧
  Minute_of (truncateToHour Scenario.halfHourZone) = 30 ∧
  ¬ (truncateToHour Scenario.halfHourZone = zeroMinuteSecond Scenario.halfHourZone
     ∧ truncateToHour (truncateToHour Scenario.halfHourZone)
       = truncateToHour Scenario.halfHourZone).
Proof.
  split; [by vm_compute|]. split; [reflexivity|].
  intros [H _]. vm_compute in H. discriminate H.
Qed.

(** C8, amended: for every timestamp [T], [truncateToHour T] is [T]
    rounded down to a whole hour of absolute time: its Unix time is a
    multiple of 3600 seconds not after [T] and less than an hour before it,
    with no sub-second part, so minute, second and sub-second are zero in
    UTC; in a location whose offset from UTC is a whole number of hours it
    equals [T] with minute, second and sub-second components zeroed; and
    [truncateToHour] is idempotent. *)
Theorem truncateToHour_spec (T : Time) :
  valid T →
  (Unix (truncateToHour T) mod 3600 = 0
   ∧ Unix (truncateToHour T) <= Unix T < Unix (truncateToHour T) + 3600
   ∧ Nanosecond_of (truncateToHour T) = 0
   ∧ zoneOffset (truncateToHour T) = zoneOffset T)
  ∧ (zoneOffset T mod 3600 = 0 → truncateToHour T = zeroMinuteSecond T)
  ∧ truncateToHour (truncateToHour T) = truncateToHour T.
Proof.
  intros Hv. split; [|split].
  - rewrite truncateToHour_eq by done. unfold Unix, Nanosecond_of. simpl.
    pose proof (Z.mod_pos_bound (unixSec T) 3600 ltac:(lia)) as Hm.
    pose proof (Z.div_mod (unixSec T) 3600 ltac:(lia)) as Hd.
    repeat split; try lia.
    replace (unixSec T - unixSec T mod 3600) with (unixSec T / 3600 * 3600) by lia.
    by rewrite Z.mod_mul by lia.
  - by apply truncateToHour_whole_hour_zone.
  - by apply truncateToHour_idempotent.
Qed.

Lemma truncateToHour_spec_witness :
  valid (mkTime 1546431180 7 0) ∧
  truncateToHour (mkTime 1546431180 7 0) = mkTime 1546430400 0 0 ∧
  truncateToHour (mkTime 1546431180 7 0) = zeroMinuteSecond (mkTime 1546431180 7 0).
Proof.
  assert (Hv : valid (mkTime 1546431180 7 0)) by (unfold valid; simpl; lia).
  split; [exact Hv|]. split; [reflexivity|].
  exact (proj1 (proj2 (truncateToHour_spec (mkTime 1546431180 7 0) Hv)) eq_refl).
Defined.

End HourBucket.

(** ** Basic facts about computations *)

Section Computations.

Lemma bind_run {A B} (m : M A) (f : A → M B) (w : World) :
  (m ≫= f) w = match m w with
               | Done a w' => f a w'
               | Panic p w' => Panic p w'
               | Blocked w' => Blocked w'
               end.
Proof. reflexivity. Qed.

Lemma bind_Done {A B} (m : M A) (f : A → M B) (w w' : World) (a : A) :
  m w = Done a w' → (m ≫= f) w = f a w'.
Proof. intros H. by rewrite bind_run, H. Qed.

Lemma bind_Done_inv {A B} (m : M A) (f : A → M B) (w w' : World) (b : B) :
  (m ≫= f) w = Done b w' → ∃ a w1, m w = Done a w1 ∧ f a w1 = Done b w'.
Proof. rewrite bind_run. destruct (m w) as [a w1|p w1|w1]; [eauto|done|done]. Qed.

Lemma bind_self {B} (f : FileBackend → M B) (w : World) :
  (self ≫= f) w = f (fb w) w.
Proof. reflexivity. Qed.

Lemma bind_getNowTime {B} (f : Time → M B) (w : World) :
  (getNowTime ≫= f) w = f (now (sys w)) w.
Proof. reflexivity. Qed.

Lemma Lock_free (w : World) :
  mutex (fb w) = false → Lock w = Done tt (Scenario.held w).
Proof. intros H. unfold Lock. by rewrite H. Qed.

Lemma Lock_held (w : World) : mutex (fb w) = true → Lock w = Blocked w.
Proof. intros H. unfold Lock. by rewrite H. Qed.

Lemma Lock_Done_inv (w w' : World) :
  Lock w = Done tt w' → mutex (fb w) = false ∧ w' = Scenario.held w.
Proof. unfold Lock. destruct (mutex (fb w)); [done|]. by intros [= <-]. Qed.

Lemma defer_Unlock_Done_inv {A} (body : M A) (w w' : World) (a : A) :
  defer Unlock body w = Done a w' →
  ∃ w1, body w = Done a w1 ∧ mutex (fb w1) = true
        ∧ w' = mkWorld (set_mutex false (fb w1)) (sys w1).
Proof.
  unfold defer. destruct (body w) as [a' w1|p w1|w1]; [|by destruct (Unlock w1)|done].
  unfold Unlock. destruct (mutex (fb w1)) eqn:Hm; [|done].
  intros [= -> <-]. eauto.
Qed.

(** A loop that runs to its end keeps what every round keeps. *)
Lemma forEach_invariant {A} (P : World → Prop) (body : A → M unit) (l : list A) :
  (∀ x w w', x ∈ l → P w → body x w = Done tt w' → P w') →
  ∀ w w', P w → forEach l body w = Done tt w' → P w'.
Proof.
  induction l as [|x l IH]; intros Hbody w w' HP; simpl.
  - by intros [= <-].
  - intros H. apply bind_Done_inv in H as ([] & w1 & H1 & H2).
    eapply IH; [|by eapply (Hbody x); [left| |]|done].
    intros y ? ? Hy. apply Hbody. by right.
Qed.

Lemma getWriter_Done_inv (i : Z) (w w' : World) (slot : option syncBufio) :
  getWriter i w = Done slot w' →
  w' = w ∧ 0 <= i ∧ writers (fb w) !! Z.to_nat i = Some slot.
Proof.
  unfold getWriter. rewrite bind_run. simpl.
  destruct (0 <=? i) eqn:Hi; [|done].
  destruct (writers (fb w) !! Z.to_nat i) as [s|] eqn:Hs; [|done].
  intros [= -> ->]. repeat split; try done. lia.
Qed.

Lemma getWriter_lookup (i : Z) (w : World) (slot : option syncBufio) :
  0 <= i → writers (fb w) !! Z.to_nat i = Some slot →
  getWriter i w = Done slot w.
Proof.
  intros Hi Hs. unfold getWriter. rewrite bind_run. simpl.
  destruct (0 <=? i) eqn:E; [|lia]. by rewrite Hs.
Qed.

Lemma setWriter_Done_inv (i : Z) (v : option syncBufio) (w w' : World) :
  setWriter i v w = Done tt w' →
  0 <= i ∧ (Z.to_nat i < length (writers (fb w)))%nat
  ∧ w' = mkWorld (set_writers (<[Z.to_nat i := v]>) (fb w)) (sys w).
Proof.
  unfold setWriter. rewrite bind_run. simpl.
  destruct (0 <=? i) eqn:Hi; simpl; [|done].
  case_bool_decide; [|done].
  unfold modify_fb. intros [= <-]. repeat split; try done. lia.
Qed.

Lemma setWriter_in_range (i : Z) (v : option syncBufio) (w : World) :
  0 <= i → (Z.to_nat i < length (writers (fb w)))%nat →
  setWriter i v w = Done tt (mkWorld (set_writers (<[Z.to_nat i := v]>) (fb w)) (sys w)).
Proof.
  intros Hi Hl. unfold setWriter. rewrite bind_run. simpl.
  destruct (0 <=? i) eqn:E; [|lia]. simpl.
  by rewrite bool_decide_eq_true_2.
Qed.

Lemma syscall_run {A} (f : OS → A * OS) (w : World) :
  syscall f w = Done (f (sys w)).1 (mkWorld (fb w) (f (sys w)).2).
Proof. unfold syscall. by destruct (f (sys w)). Qed.

Lemma elem_of_levels (i : Level) : i ∈ levels ↔ 0 <= i <= 4.
Proof.
  unfold levels, Debug, Info, Warning, Error, Fatal.
  rewrite !elem_of_cons, elem_of_nil. lia.
Qed.

End Computations.

(** ** After [Close] *)

Section AfterClose.

Lemma closeLevel_Done_inv (i : Z) (w w' : World) :
  closeLevel i w = Done tt w' →
  0 <= i ∧ (Z.to_nat i < length (writers (fb w)))%nat
  ∧ mutex (fb w') = mutex (fb w)
  ∧ writers (fb w') = <[Z.to_nat i := None]> (writers (fb w)).
Proof.
  unfold closeLevel. intros H.
  apply bind_Done_inv in H as (slot & w1 & Hg & H).
  apply getWriter_Done_inv in Hg as (-> & Hi & Hslot).
  destruct slot as [sb|]; [|done].
  apply bind_Done_inv in H as ([err sb'] & w2 & H3 & H).
  rewrite syscall_run in H3. injection H3 as _ <-.
  apply bind_Done_inv in H as ([] & w3 & H2 & H).
  apply setWriter_Done_inv in H as (_ & Hlen & ->).
  assert (Hfb : fb w3 = fb w).
  { destruct err; [unfold fprintf in H2; rewrite syscall_run in H2|];
      by injection H2 as <-. }
  rewrite Hfb in *. by repeat split.
Qed.

Lemma close_Done_inv (w w' : World) :
  close w = Done tt w' → mutex (fb w') = mutex (fb w) ∧ slots_nil (fb w').
Proof.
  intros H. split.
  - revert H. apply (forEach_invariant (λ v, mutex (fb v) = mutex (fb w))); [|done].
    intros i v v' _ Hv Hc. apply closeLevel_Done_inv in Hc as (_ & _ & -> & _). done.
  - assert (Hall : ∀ l v v', forEach l closeLevel v = Done tt v' →
              (∀ j : nat, writers (fb v) !! j = Some None → writers (fb v') !! j = Some None)
              ∧ ∀ i, i ∈ l → writers (fb v') !! Z.to_nat i = Some None).
    { induction l as [|i l IH]; intros v v'; simpl.
      - intros [= <-]. split; [done|]. by intros i ?%elem_of_nil.
      - intros Hl. apply bind_Done_inv in Hl as ([] & v1 & H1 & Hl).
        apply closeLevel_Done_inv in H1 as (Hi & Hlen & _ & Hw).
        destruct (IH _ _ Hl) as [Hkeep Hset].
        assert (Hstep : ∀ j : nat, writers (fb v) !! j = Some None
                          → writers (fb v1) !! j = Some None).
        { intros j Hj. rewrite Hw. destruct (decide (Z.to_nat i = j)) as [<-|Hne].
          - by apply list_lookup_insert_eq.
          - by rewrite list_lookup_insert_ne. }
        split; [by intros j Hj; apply Hkeep, Hstep|].
        intros k [->|Hk]%elem_of_cons; [|by apply Hset].
        apply Hkeep. rewrite Hw. by apply list_lookup_insert_eq. }
    destruct (Hall _ _ _ H) as [_ Hset].
    intros i Hi. specialize (Hset (Z.of_nat i)).
    rewrite Nat2Z.id in Hset. apply Hset, elem_of_levels.
    unfold levelCount in Hi. lia.
Qed.

Lemma Close_Done_inv (w w' : World) :
  Close w = Done tt w' → mutex (fb w') = false ∧ slots_nil (fb w').
Proof.
  unfold Close. intros H.
  apply bind_Done_inv in H as ([] & w1 & _ & H).
  apply defer_Unlock_Done_inv in H as (w2 & Hc & _ & ->).
  apply close_Done_inv in Hc as [_ Hn]. by split.
Qed.

Lemma flushLevel_nil (i : Z) (w : World) :
  slots_nil (fb w) → i ∈ levels → flushLevel i w = Done tt w.
Proof.
  intros Hn Hi%elem_of_levels. unfold flushLevel.
  rewrite (bind_Done _ _ w w None); [done|].
  apply getWriter_lookup; [lia|]. apply Hn. unfold levelCount. lia.
Qed.

Lemma flush_nil (w : World) : slots_nil (fb w) → flush w = Done tt w.
Proof.
  intros Hn. unfold flush.
  assert (H : ∀ l, l ⊆ levels → forEach l flushLevel w = Done tt w).
  { induction l as [|i l IH]; intros Hl; simpl; [done|].
    rewrite (bind_Done _ _ w w tt).
    - apply IH. set_solver.
    - apply flushLevel_nil; [done|]. set_solver. }
  by apply H.
Qed.

Lemma Unlock_held (w : World) :
  mutex (fb w) = false → Unlock (Scenario.held w) = Done tt w.
Proof. destruct w as [[] ?]. simpl. by intros ->. Qed.

(** C10: when [Close] has returned, every writer slot is nil, and a
    [Flush] (called directly or by the periodic flush tick) returns
    without a panic and leaves the world, backend and operating system,
    as it was. *)
Theorem Flush_after_Close (w w' : World) :
  Close w = Done tt w' →
  slots_nil (fb w') ∧ Flush w' = Done tt w'.
Proof.
  intros H. apply Close_Done_inv in H as [Hm Hn]. split; [done|].
  unfold Flush. rewrite (bind_Done _ _ _ _ _ (Lock_free _ Hm)).
  unfold defer. rewrite flush_nil by done.
  by rewrite Unlock_held.
Qed.

Lemma Flush_after_Close_witness :
  Close Scenario.logged0 = Done tt Scenario.closed0
  ∧ Flush Scenario.closed0 = Done tt Scenario.closed0.
Proof.
  assert (H : Close Scenario.logged0 = Done tt Scenario.closed0) by (by vm_compute).
  split; [exact H|].
  exact (proj2 (Flush_after_Close Scenario.logged0 Scenario.closed0 H)).
Defined.

(** C2, what the code does: when [Close] has returned, [Log] at a valid
    level finds its slot nil and panics on the nil pointer (the deferred
    unlock runs, nothing else changes); it does not end in a diagnostic. *)
Theorem Log_after_Close_panics (w w' : World) (level : Level) (content : list byte) :
  Close w = Done tt w' →
  levelMin <= level <= levelMax →
  Log level content w' = Panic NilDereference w'.
Proof.
  intros H Hl. apply Close_Done_inv in H as [Hm Hn].
  unfold levelMin, levelMax, Debug, Fatal in Hl.
  unfold Log. rewrite (bind_Done _ _ _ _ _ (Lock_free _ Hm)).
  unfold defer. rewrite bind_run. unfold logWrite.
  replace ((levelMin <=? level) && (level <=? levelMax)) with true
    by (unfold levelMin, levelMax, Debug, Fatal; symmetry; apply andb_true_iff; lia).
  rewrite bind_run.
  rewrite (getWriter_lookup level _ None); [|lia|].
  - unfold panic. by rewrite Unlock_held.
  - apply Hn. unfold levelCount. lia.
Qed.

Lemma Log_after_Close_panics_witness :
  Close Scenario.logged0 = Done tt Scenario.closed0
  ∧ Log Info Scenario.msg Scenario.closed0 = Panic NilDereference Scenario.closed0.
Proof.
  assert (H : Close Scenario.logged0 = Done tt Scenario.closed0) by (by vm_compute).
  split; [exact H|].
  apply (Log_after_Close_panics Scenario.logged0 Scenario.closed0 Info Scenario.msg H).
  unfold levelMin, levelMax, Debug, Info, Fatal. lia.
Defined.

End AfterClose.

(** ** What the calls leave alone *)

Section Frames.

Lemma same_backend_refl (w : World) : same_backend w w.
Proof. by split. Qed.

Lemma same_backend_trans (w1 w2 w3 : World) :
  same_backend w1 w2 → same_backend w2 w3 → same_backend w1 w3.
Proof. intros [? ?] [? ?]. split; congruence. Qed.

Lemma forEach_same_backend {A} (body : A → M unit) (l : list A) :
  (∀ x w w', body x w = Done tt w' → same_backend w w') →
  ∀ w w', forEach l body w = Done tt w' → same_backend w w'.
Proof.
  intros Hb w w'.
  apply (forEach_invariant (same_backend w)); [|apply same_backend_refl].
  intros x v v' _ Hv Hx. eapply same_backend_trans; [done|by eapply Hb].
Qed.

Lemma Rename_now (a b : string) (o : OS) : now (Rename a b o).2 = now o.
Proof. unfold Rename. case_decide; [done|]. by destruct (names o !! a). Qed.

Lemma Remove_now (a : string) (o : OS) : now (Remove a o).2 = now o.
Proof. unfold Remove. case_decide; [done|]. by destruct (names o !! a). Qed.

Lemma fprintf_run (d : Diag) (w : World) :
  fprintf d w = Done tt (mkWorld (fb w) (eprint d (sys w))).
Proof. reflexivity. Qed.

Lemma rotateLevel_same_backend (t : Time) (i : Level) (w w' : World) :
  rotateLevel t i w = Done tt w' → same_backend w w'.
Proof.
  unfold rotateLevel. intros H.
  apply bind_Done_inv in H as (slot & w1 & Hg & H).
  apply getWriter_Done_inv in Hg as (-> & _ & _).
  destruct slot as [sb|]; [|done].
  apply bind_Done_inv in H as (e & w2 & H2 & H).
  rewrite syscall_run in H2. injection H2 as _ <-. injection H as <-.
  split; [done|]. simpl. apply Rename_now.
Qed.

Lemma shouldDelete_same_backend (name : string) (keep : Z) (w w' : World) (b : bool) :
  shouldDelete name keep w = Done b w' → same_backend w w'.
Proof.
  unfold shouldDelete.
  destruct (strings.Split name "." !! 2%nat) as [suffix|]; [|done].
  destruct (Parse_2006010215 suffix) as [t|].
  - rewrite bind_run. simpl.
    destruct (negb _); intros [= _ <-]; apply same_backend_refl.
  - rewrite bind_run, fprintf_run. by intros [= _ <-].
Qed.

Lemma removeOldFile_same_backend (s : FileBackend) (name : string) (w w' : World) :
  removeOldFile s name w = Done tt w' → same_backend w w'.
Proof.
  unfold removeOldFile.
  destruct (String.eqb _ _); [|intros [= <-]; apply same_backend_refl].
  intros H. apply bind_Done_inv in H as (del & w1 & Hd & H).
  apply shouldDelete_same_backend in Hd.
  eapply same_backend_trans; [done|].
  destruct del; [|injection H as <-; apply same_backend_refl].
  apply bind_Done_inv in H as (e & w2 & H2 & H).
  rewrite syscall_run in H2. injection H2 as _ <-.
  assert (Hs : same_backend w1 (mkWorld (fb w1) (Remove (Join (dir s) name) (sys w1)).2))
    by (split; [done|apply Remove_now]).
  eapply same_backend_trans; [done|].
  destruct e; [rewrite fprintf_run in H|]; injection H as <-; by split.
Qed.

Lemma removeOldFiles_same_backend (w w' : World) :
  removeOldFiles w = Done tt w' → same_backend w w'.
Proof.
  unfold removeOldFiles. rewrite bind_run. simpl.
  destruct (keepHours (fb w) <=? 0); [intros [= <-]; apply same_backend_refl|].
  rewrite bind_run, syscall_run. simpl.
  destruct (ReadDir _ _) as [files|].
  - intros H. apply forEach_same_backend in H; [|apply removeOldFile_same_backend].
    destruct H as [? ?]. by split.
  - rewrite fprintf_run. by intros [= <-].
Qed.

(** [doRotateByHour] never assigns to a field of the backend: whatever
    it renames or removes, the struct ([lastRotateTime] with it) is the
    one it started from. *)
Lemma doRotateByHour_same_backend (w w' : World) :
  doRotateByHour w = Done tt w' → same_backend w w'.
Proof.
  unfold doRotateByHour. rewrite bind_self.
  destruct (negb _); [intros [= <-]; apply same_backend_refl|].
  rewrite bind_getNowTime. intros H.
  apply bind_Done_inv in H as ([] & w1 & H1 & H).
  apply removeOldFiles_same_backend in H.
  eapply same_backend_trans; [|done].
  destruct (_ <? _); [|injection H1 as <-; apply same_backend_refl].
  by apply forEach_same_backend in H1; [|apply rotateLevel_same_backend].
Qed.

End Frames.

(** ** The rotation tick and [lastRotateTime] *)

Section RotationTick.

(** C1, what the code does: a rotation tick that finds the hour bucket
    strictly after [lastRotateTime] returns with [lastRotateTime]
    unchanged (no statement of [doRotateByHour] assigns to it), so the test
    that started the renames holds again at the next tick of the same
    hour. *)
Theorem doRotateByHour_keeps_lastRotateTime (w w' : World) :
  rotateByHour (fb w) = true →
  lastRotateTime (fb w) < Unix (truncateToHour (now (sys w))) →
  doRotateByHour w = Done tt w' →
  lastRotateTime (fb w') = lastRotateTime (fb w)
  ∧ rotateByHour (fb w') = true
  ∧ lastRotateTime (fb w') < Unix (truncateToHour (now (sys w'))).
Proof.
  intros Hr Hlt H. apply doRotateByHour_same_backend in H as [-> ->]. done.
Qed.

Lemma doRotateByHour_keeps_lastRotateTime_witness :
  lastRotateTime (fb Scenario.rotating0) = 1562720400
  ∧ Unix (truncateToHour (now (sys Scenario.rotating0))) = 1562724000
  ∧ lastRotateTime (fb (Scenario.final (doRotateByHour Scenario.rotating0)))
    = 1562720400.
Proof.
  split; [reflexivity|]. split; [reflexivity|].
  refine (proj1 (doRotateByHour_keeps_lastRotateTime Scenario.rotating0
                   (Scenario.final (doRotateByHour Scenario.rotating0)) _ _ _)).
  - reflexivity.
  - reflexivity.
  - by vm_compute.
Defined.

(** The consequence, on the scenario of [TestRotate]: the first tick
    seals the message into [INFO.log.2019071002]; the monitor tick reopens
    [INFO.log]; a second rotation tick in the same hour renames the
    new, empty file over the archive, and the sealed message is no longer
    reachable under any name. *)
Example second_tick_same_hour_renames_again :
  let w1 := Scenario.final (doRotateByHour Scenario.rotating0) in
  let w2 := Scenario.final (doMonitorFiles w1) in
  let w3 := Scenario.final (doRotateByHour w2) in
  names (sys w1) !! "log/INFO.log.2019071002" = Some 1%nat
  ∧ names (sys w2) !! "log/INFO.log" = Some 6%nat
  ∧ doRotateByHour w2 = Done tt w3
  ∧ names (sys w3) !! "log/INFO.log" = None
  ∧ names (sys w3) !! "log/INFO.log.2019071002" = Some 6%nat.
Proof. by vm_compute. Qed.

End RotationTick.

(** ** The monitor tick stops at the first file in place *)

Section MonitorEarlyReturn.

Lemma monitorLevel_present (i : Level) (w : World) (sb : syncBufio) :
  0 <= i →
  writers (fb w) !! Z.to_nat i = Some (Some sb) →
  Stat (filePath sb) (sys w) = None →
  monitorLevel i w = Done true w.
Proof.
  intros Hi Hs Hst. unfold monitorLevel.
  rewrite (bind_Done _ _ _ _ _ (getWriter_lookup i w _ Hi Hs)).
  rewrite bind_run, syscall_run. simpl. rewrite Hst. by destruct w.
Qed.

(** C3, what the code does: when the first level's active file is in
    place, the tick returns right there ([return], not [continue]): the
    world is unchanged, whatever the state of the files of the other
    levels. *)
Theorem doMonitorFiles_returns_at_present_file (w : World) (sb : syncBufio) :
  writers (fb w) !! Z.to_nat Debug = Some (Some sb) →
  Stat (filePath sb) (sys w) = None →
  doMonitorFiles w = Done tt w.
Proof.
  intros Hs Hst. unfold doMonitorFiles, levels. simpl forReturn.
  by rewrite (bind_Done _ _ _ _ _ (monitorLevel_present Debug w sb ltac:(done) Hs Hst)).
Qed.

Lemma doMonitorFiles_returns_at_present_file_witness :
  Stat "log/DEBUG.log" (sys Scenario.infoMissing) = None
  ∧ Stat "log/INFO.log" (sys Scenario.infoMissing) = Some ErrNotExist
  ∧ (∃ sb, writers (fb Scenario.infoMissing) !! Z.to_nat Info = Some (Some sb)
           ∧ filePath sb = "log/INFO.log")
  ∧ doMonitorFiles Scenario.infoMissing = Done tt Scenario.infoMissing.
Proof.
  split; [by vm_compute|]. split; [by vm_compute|].
  split; [eexists; split; by vm_compute|].
  apply (doMonitorFiles_returns_at_present_file Scenario.infoMissing
           (newSyncBufio 0 "log/DEBUG.log" defaultBufferSize)); by vm_compute.
Defined.

End MonitorEarlyReturn.

(** ** Who takes the lock *)

Section Locking.

Lemma Log_waits (level : Level) (content : list byte) (w : World) :
  mutex (fb w) = true → Log level content w = Blocked w.
Proof. intros H. unfold Log. by rewrite bind_run, Lock_held. Qed.

Lemma Flush_waits (w : World) : mutex (fb w) = true → Flush w = Blocked w.
Proof. intros H. unfold Flush. by rewrite bind_run, Lock_held. Qed.

Lemma Close_waits (w : World) : mutex (fb w) = true → Close w = Blocked w.
Proof. intros H. unfold Close. by rewrite bind_run, Lock_held. Qed.

Lemma forEach_never_waits {A} (body : A → M unit) (l : list A) :
  (∀ x w w', body x w ≠ Blocked w') →
  ∀ w w', forEach l body w ≠ Blocked w'.
Proof.
  intros Hb. induction l as [|x l IH]; intros w w'; simpl; [done|].
  rewrite bind_run. destruct (body x w) eqn:E; [apply IH|done|].
  by apply Hb in E.
Qed.

Lemma rotateLevel_never_waits (t : Time) (i : Level) (w w' : World) :
  rotateLevel t i w ≠ Blocked w'.
Proof.
  unfold rotateLevel, getWriter. rewrite bind_run, bind_self.
  destruct (0 <=? i); [|done].
  destruct (writers (fb w) !! Z.to_nat i) as [[sb|]|]; try done.
  simpl. by rewrite bind_run, syscall_run.
Qed.

Lemma removeOldFile_never_waits (s : FileBackend) (name : string) (w w' : World) :
  removeOldFile s name w ≠ Blocked w'.
Proof.
  unfold removeOldFile. destruct (String.eqb _ _); [|done].
  rewrite bind_run. unfold shouldDelete.
  destruct (strings.Split name "." !! 2%nat) as [suffix|]; [|done].
  destruct (Parse_2006010215 suffix) as [t|].
  - rewrite bind_getNowTime.
    destruct (negb _); simpl; [|done].
    rewrite bind_run, syscall_run. by destruct (Remove _ _).1.
  - by rewrite bind_run, fprintf_run.
Qed.

(** [doRotateByHour] has no [Lock]: it never waits, whoever holds the
    lock. *)
Lemma doRotateByHour_never_waits (w w' : World) : doRotateByHour w ≠ Blocked w'.
Proof.
  unfold doRotateByHour. rewrite bind_self.
  destruct (negb _); [done|]. rewrite bind_getNowTime, bind_run.
  assert (Hsweep : ∀ v, removeOldFiles v ≠ Blocked w').
  { intros v. unfold removeOldFiles. rewrite bind_self.
    destruct (_ <=? _); [done|]. rewrite bind_run, syscall_run. simpl.
    destruct (ReadDir _ _); [|done].
    apply forEach_never_waits. intros. apply removeOldFile_never_waits. }
  destruct (_ <? _).
  - destruct (forEach _ _ w) eqn:E; [apply Hsweep|done|].
    apply forEach_never_waits in E; [done|].
    intros. apply rotateLevel_never_waits.
  - apply Hsweep.
Qed.

(** C4, what the code does, on the scenario of [TestRotate] with the lock
    held by another path: [Log] and [Flush] wait; [doRotateByHour] does
    not: it reads the writer slots and the rotation state and renames all
    five active files; [doMonitorFiles] reads the slots and stats the
    files without the lock (it takes it only around the reopening). *)
Theorem rotate_and_monitor_run_without_the_lock :
  let w := Scenario.held Scenario.rotating0 in
  mutex (fb w) = true
  ∧ Log Info Scenario.msg w = Blocked w
  ∧ Flush w = Blocked w
  ∧ names (sys w) !! "log/INFO.log" = Some 1%nat
  ∧ (∃ w', doRotateByHour w = Done tt w'
           ∧ names (sys w') !! "log/INFO.log" = None
           ∧ names (sys w') !! "log/INFO.log.2019071002" = Some 1%nat)
  ∧ doMonitorFiles w = Done tt w.
Proof.
  split; [reflexivity|]. split; [by apply Log_waits|].
  split; [by apply Flush_waits|]. split; [by vm_compute|].
  split; [|by vm_compute].
  eexists. split; [by vm_compute|]. split; by vm_compute.
Qed.

End Locking.

(** ** Texts *)

Section Texts.

Import strings.

Lemma append_assoc (a b c : string) : (a +:+ b) +:+ c = a +:+ (b +:+ c).
Proof. induction a as [|x a IH]; simpl; [done|by rewrite IH]. Qed.

Lemma append_nil_r (a : string) : a +:+ "" = a.
Proof. induction a as [|x a IH]; simpl; [done|by rewrite IH]. Qed.

Lemma append_length (a b : string) :
  String.length (a +:+ b) = (String.length a + String.length b)%nat.
Proof. induction a as [|x a IH]; simpl; [done|by rewrite IH]. Qed.

Lemma append_inj_l (a b c : string) : a +:+ b = a +:+ c → b = c.
Proof. induction a as [|x a IH]; simpl; [done|]. intros [= H]. by apply IH. Qed.

Lemma ascii_eqb_eq (a b : ascii) : Ascii.eqb a b = true ↔ a = b.
Proof. apply Ascii.eqb_eq. Qed.

Lemma TrimPrefix_opt_Some (p s rest : string) :
  TrimPrefix_opt p s = Some rest ↔ s = p +:+ rest.
Proof.
  revert s. induction p as [|a p IH]; intros s; simpl.
  - split; [by intros [= ->]|by intros ->].
  - destruct s as [|b s]; [done|].
    destruct (Ascii.eqb a b) eqn:E.
    + apply ascii_eqb_eq in E as ->. rewrite IH. split; [by intros ->|by intros [= ->]].
    + split; [done|]. intros [= -> _]. by rewrite Ascii.eqb_refl in E.
Qed.

Lemma TrimPrefix_opt_append (p rest : string) :
  TrimPrefix_opt p (p +:+ rest) = Some rest.
Proof. by apply TrimPrefix_opt_Some. Qed.

Lemma string_drop_append (a b : string) :
  string_drop (String.length a) (a +:+ b) = b.
Proof. induction a as [|x a IH]; simpl; [by destruct b|done]. Qed.

Lemma prefix_n_length (n : nat) (s : string) :
  String.length (prefix_n n s) = Nat.min n (String.length s).
Proof.
  revert s. induction n as [|n IH]; intros [|c s]; simpl; try done.
  by rewrite IH.
Qed.

Lemma length_zero_empty (s : string) : String.length s = O → s = "".
Proof. by destruct s. Qed.

Lemma isDigit_not_dot (c : ascii) : isDigit c = true → Ascii.eqb c "." = false.
Proof.
  intros H. destruct (Ascii.eqb c ".") eqn:E; [|done].
  apply ascii_eqb_eq in E as ->. by vm_compute in H.
Qed.

Lemma isDigit_not_slash (c : ascii) : isDigit c = true → Ascii.eqb c "/" = false.
Proof.
  intros H. destruct (Ascii.eqb c "/") eqn:E; [|done].
  apply ascii_eqb_eq in E as ->. by vm_compute in H.
Qed.

(** A run of digits has no dot: [Split] leaves it whole. *)
Lemma Split_digits (cs : list ascii) :
  Forall (λ c, isDigit c = true) cs →
  Split (string_of_list_ascii cs) "." = [string_of_list_ascii cs].
Proof.
  induction 1 as [|c cs Hc _ IH]; simpl; [done|].
  by rewrite (isDigit_not_dot c Hc), IH.
Qed.

Lemma ContainsByte_digits (cs : list ascii) :
  Forall (λ c, isDigit c = true) cs →
  ContainsByte (string_of_list_ascii cs) "/" = false.
Proof.
  induction 1 as [|c cs Hc _ IH]; simpl; [done|].
  by rewrite (isDigit_not_slash c Hc), IH.
Qed.

Lemma string_of_list_ascii_length (cs : list ascii) :
  String.length (string_of_list_ascii cs) = length cs.
Proof. induction cs as [|c cs IH]; simpl; [done|by rewrite IH]. Qed.

End Texts.

(** ** The archive pattern *)

Section ArchivePattern.

Import strings regexp.

Lemma match_at_Lit (l s rest : string) :
  In rest (match_at (Lit l) s) ↔ s = l +:+ rest.
Proof.
  simpl. destruct (TrimPrefix_opt l s) as [r|] eqn:E.
  - apply TrimPrefix_opt_Some in E as ->. simpl.
    split; [by intros [->|[]]|]. intros ->%append_inj_l. by left.
  - split; [done|]. intros ->. by rewrite TrimPrefix_opt_append in E.
Qed.

Lemma match_at_Alt (a b : Regexp) (s : string) :
  match_at (Alt a b) s = match_at a s ++ match_at b s.
Proof. reflexivity. Qed.

Lemma rep_match_Digit (n : nat) (s rest : string) :
  In rest (rep_match n (match_at Digit) s) →
  ∃ cs, length cs = n ∧ Forall (λ c, isDigit c = true) cs
        ∧ s = string_of_list_ascii cs +:+ rest.
Proof.
  revert s. induction n as [|n IH]; intros s; simpl.
  - intros [->|[]]. by exists [].
  - rewrite in_flat_map. intros (s1 & H1 & H2).
    destruct s as [|c s]; [done|].
    destruct (isDigit c) eqn:Hc; [|done].
    destruct H1 as [->|[]].
    destruct (IH _ H2) as (cs & Hl & Hd & ->).
    exists (c :: cs). simpl. split; [by rewrite Hl|]. split; [by constructor|done].
Qed.

(** What the pattern matches at the start of a text: a level name,
    [".log.20"], eight digits. *)
Lemma pattern_match_at (s rest : string) :
  In rest (match_at rotatedFilenamePattern s) →
  ∃ l cs, l ∈ levels ∧ length cs = 8%nat ∧ Forall (λ c, isDigit c = true) cs
          ∧ s = levelName l +:+ ".log.20" +:+ string_of_list_ascii cs +:+ rest.
Proof.
  unfold rotatedFilenamePattern.
  change (match_at (Seq ?a ?b) s) with (flat_map (match_at b) (match_at a s)).
  rewrite in_flat_map. intros (s1 & Hname & Htail).
  change (match_at (Seq ?a ?b) s1) with (flat_map (match_at b) (match_at a s1)) in Htail.
  rewrite in_flat_map in Htail. destruct Htail as (s2 & Hlit & Hdig).
  apply match_at_Lit in Hlit as ->.
  apply rep_match_Digit in Hdig as (cs & Hl & Hd & ->).
  assert (Hlev : ∃ l, l ∈ levels ∧ s = levelName l +:+ ".log.20" +:+ string_of_list_ascii cs +:+ rest).
  { revert Hname. generalize (".log.20" +:+ string_of_list_ascii cs +:+ rest). intros tl.
    change (levelName <$> levels) with ["DEBUG"; "INFO"; "WARNING"; "ERROR"; "FATAL"].
    unfold alternation. simpl foldr.
    rewrite !match_at_Alt, !in_app_iff, !match_at_Lit.
    change (match_at NoMatch s) with (@nil string).
    intros [H|[H|[H|[H|[H|[]]]]]]; subst s;
      [exists Debug|exists Info|exists Warning|exists Error|exists Fatal];
      (split; [apply elem_of_levels; by vm_compute|reflexivity]). }
  destruct Hlev as (l & Hl' & ->). by exists l, cs.
Qed.

Lemma find_at_length (r : Regexp) (s m : string) :
  find_at r s = Some m → (String.length m <= String.length s)%nat.
Proof.
  induction s as [|c s IH]; simpl.
  - destruct (match_at r ""); [done|]. by intros [= <-].
  - destruct (match_at r (String c s)) as [|rest ?].
    + intros H%IH. lia.
    + intros [= <-]. destruct (_ - _)%nat; simpl; [lia|].
      rewrite prefix_n_length. lia.
Qed.

(** When the leftmost match is the whole (non-empty) text, the pattern
    matches the text from its start to its end. *)
Lemma find_at_whole (r : Regexp) (s : string) :
  s ≠ "" → find_at r s = Some s → In "" (match_at r s).
Proof.
  destruct s as [|c s]; [done|]. intros _. simpl.
  destruct (match_at r (String c s)) as [|rest l] eqn:E.
  - intros H%find_at_length. simpl in H. lia.
  - intros [= H]. left.
    apply length_zero_empty.
    assert (Hlen : String.length (prefix_n (S (String.length s) - String.length rest) (String c s))
                   = S (String.length s)) by (by rewrite H).
    rewrite prefix_n_length in Hlen. simpl in Hlen. lia.
Qed.

(** The shape of an archive name. *)
Lemma isArchiveName_shape (name : string) :
  isArchiveName name = true →
  ∃ l cs, l ∈ levels ∧ length cs = 8%nat ∧ Forall (λ c, isDigit c = true) cs
          ∧ name = levelName l +:+ ".log.20" +:+ string_of_list_ascii cs.
Proof.
  unfold isArchiveName. intros [Hne Heq]%andb_true_iff.
  apply negb_true_iff, String.eqb_neq in Hne.
  apply String.eqb_eq in Heq.
  unfold FindString in Heq.
  destruct (find_at rotatedFilenamePattern name) as [m|] eqn:E; simpl in Heq; [|done].
  subst m. apply find_at_whole in E; [|done].
  apply pattern_match_at in E as (l & cs & Hl & Hlen & Hd & ->).
  exists l, cs. by rewrite append_nil_r.
Qed.

Lemma archive_name_cases (l : Level) :
  l ∈ levels →
  levelName l = "DEBUG" ∨ levelName l = "INFO" ∨ levelName l = "WARNING"
  ∨ levelName l = "ERROR" ∨ levelName l = "FATAL".
Proof.
  unfold levels. rewrite !elem_of_cons, elem_of_nil.
  intros [->|[->|[->|[->|[->|[]]]]]]; vm_compute; tauto.
Qed.

(** [strings.Split(name, ".")[2]] of an archive name is its hour-bucket
    suffix: the index is in range. *)
Lemma isArchiveName_Split (name : string) :
  isArchiveName name = true →
  Split name "." !! 2%nat = Some (hourBucketSuffix name).
Proof.
  intros (l & cs & Hl & Hlen & Hd & ->)%isArchiveName_shape.
  assert (Hsfx : hourBucketSuffix (levelName l +:+ ".log.20" +:+ string_of_list_ascii cs)
                 = "20" +:+ string_of_list_ascii cs).
  { replace (levelName l +:+ ".log.20" +:+ string_of_list_ascii cs)
      with ((levelName l +:+ ".log.") +:+ ("20" +:+ string_of_list_ascii cs))
      by (by rewrite append_assoc).
    unfold hourBucketSuffix.
    set (p := levelName l +:+ ".log.").
    replace (String.length (p +:+ "20" +:+ string_of_list_ascii cs) - 10)%nat
      with (String.length p).
    - apply string_drop_append.
    - rewrite !append_length, string_of_list_ascii_length, Hlen. simpl. lia. }
  rewrite Hsfx.
  destruct (archive_name_cases l Hl) as [-> | [-> | [-> | [-> | ->]]]]; simpl;
    by rewrite (Split_digits cs Hd).
Qed.

Lemma isArchiveName_no_slash (name : string) :
  isArchiveName name = true → ContainsByte name "/" = false.
Proof.
  intros (l & cs & Hl & Hlen & Hd & ->)%isArchiveName_shape.
  destruct (archive_name_cases l Hl) as [-> | [-> | [-> | [-> | ->]]]]; simpl;
    by rewrite (ContainsByte_digits cs Hd).
Qed.

Lemma isArchiveName_nonempty (name : string) : isArchiveName name = true → name ≠ "".
Proof.
  unfold isArchiveName. intros [Hne _]%andb_true_iff.
  by apply negb_true_iff, String.eqb_neq in Hne.
Qed.

End ArchivePattern.

(** ** The retention sweep *)

Section RetentionSweep.

Import strings.

Lemma Join_inj (d a b : string) : Join d a = Join d b → a = b.
Proof. unfold Join. intros H%append_inj_l. by injection H. Qed.

Lemma entry_name_Join (d name : string) :
  name ≠ "" → ContainsByte name "/" = false → entry_name d (Join d name) = Some name.
Proof.
  intros Hne Hs. unfold entry_name, Join.
  rewrite <- append_assoc, TrimPrefix_opt_append.
  apply String.eqb_neq in Hne. by rewrite Hne, Hs.
Qed.

Lemma entry_name_inv (d path name : string) :
  entry_name d path = Some name → name ≠ "" ∧ path = Join d name.
Proof.
  unfold entry_name, Join.
  destruct (TrimPrefix_opt _ _) as [n|] eqn:E; [|done].
  apply TrimPrefix_opt_Some in E as ->.
  destruct (String.eqb n "") eqn:En; [done|].
  destruct (ContainsByte n "/"); [done|]. intros [= ->].
  apply String.eqb_neq in En. split; [done|]. by rewrite append_assoc.
Qed.

(** The entries [ReadDir] lists. *)
Lemma ReadDir_elem (d : string) (o : OS) (files : list string) (name : string) :
  ReadDir d o = Some files →
  name ∈ files ↔ name ≠ "" ∧ ContainsByte name "/" = false
                 ∧ is_Some (names o !! Join d name).
Proof.
  unfold ReadDir. case_decide; [done|]. intros [= <-].
  rewrite merge_sort_Permutation, list_elem_of_omap. split.
  - intros ([path ino] & Hin & He). apply elem_of_map_to_list in Hin.
    simpl in He. pose proof He as [Hne ->]%entry_name_inv.
    split; [done|]. split; [|by eexists].
    unfold entry_name in He. destruct (TrimPrefix_opt _ _) as [n|]; [|done].
    destruct (String.eqb n ""); [done|].
    destruct (ContainsByte n "/") eqn:Hc; [done|]. by injection He as ->.
  - intros (Hne & Hs & [ino Hino]). exists (Join d name, ino).
    split; [by apply elem_of_map_to_list|]. by apply entry_name_Join.
Qed.

Lemma shouldDelete_archive (name : string) (keep : Z) (w : World) :
  isArchiveName name = true →
  shouldDelete name keep w
  = Done (shouldDelete_answer keep (now (sys w)) name)
      (match Parse_2006010215 (hourBucketSuffix name) with
       | Some _ => w
       | None => mkWorld (fb w) (eprint (DiagParseFailed name) (sys w))
       end).
Proof.
  intros Ha. unfold shouldDelete, shouldDelete_answer.
  rewrite (isArchiveName_Split name Ha).
  destruct (Parse_2006010215 _) as [t|]; [|done].
  rewrite bind_getNowTime. by destruct (negb _).
Qed.

(** One round of the removal loop. *)
Lemma removeOldFile_spec (s : FileBackend) (name : string) (w : World) :
  name ≠ "" →
  ∃ w', removeOldFile s name w = Done tt w'
        ∧ same_backend w w'
        ∧ denied (sys w') = denied (sys w)
        ∧ names (sys w')
          = if sweep_removes (dir s) (keepHours s) (sys w) name
            then delete (Join (dir s) name) (names (sys w)) else names (sys w).
Proof.
  intros Hne. unfold removeOldFile, sweep_removes.
  assert (Harch : isArchiveName name
                  = String.eqb name (regexp.FindString rotatedFilenamePattern name)).
  { unfold isArchiveName. apply String.eqb_neq in Hne. by rewrite Hne. }
  rewrite <- Harch. destruct (isArchiveName name) eqn:Ha; simpl.
  2:{ exists w. by repeat split. }
  rewrite bind_run, (shouldDelete_archive name _ w Ha).
  set (w1 := match Parse_2006010215 _ with Some _ => w | None => _ end).
  assert (H1 : same_backend w w1 ∧ denied (sys w1) = denied (sys w)
               ∧ names (sys w1) = names (sys w)).
  { unfold w1. by destruct (Parse_2006010215 _). }
  destruct H1 as (Hsb & Hden & Hnam).
  destruct (shouldDelete_answer _ _ name); simpl.
  2:{ exists w1. by split. }
  rewrite bind_run, syscall_run. unfold Remove. rewrite Hden, Hnam.
  case_decide as Hd.
  - rewrite bool_decide_eq_false_2 by (by intros ?). simpl.
    rewrite fprintf_run. eexists. split; [done|].
    destruct Hsb as [? ?]. by repeat split.
  - rewrite bool_decide_eq_true_2 by done.
    destruct (names (sys w) !! Join (dir s) name) as [ino|] eqn:Hl; simpl.
    + eexists. split; [done|]. destruct Hsb as [? ?]. simpl.
      repeat split; try done. by rewrite Hnam.
    + rewrite fprintf_run. eexists. split; [done|].
      destruct Hsb as [? ?]. simpl. repeat split; try done.
      by rewrite delete_id.
Qed.

Lemma sweep_removes_ext (d : string) (keep : Z) (o o' : OS) (name : string) :
  now o' = now o → denied o' = denied o →
  sweep_removes d keep o' name = sweep_removes d keep o name.
Proof. unfold sweep_removes. by intros -> ->. Qed.

(** The removal loop over a listing: it returns, and a path has a file
    afterwards exactly when it had one and no round removed it. *)
Lemma sweep_loop_spec (s : FileBackend) (files : list string) (o : OS) (w : World) :
  Forall (λ name, name ≠ "") files →
  now (sys w) = now o → denied (sys w) = denied o →
  ∃ w', forEach files (removeOldFile s) w = Done tt w'
        ∧ same_backend w w'
        ∧ denied (sys w') = denied (sys w)
        ∧ ∀ p, names (sys w') !! p
               = if existsb (λ name, sweep_removes (dir s) (keepHours s) o name
                                     && bool_decide (p = Join (dir s) name)) files
                 then None else names (sys w) !! p.
Proof.
  intros Hall. revert w.
  induction Hall as [|name files Hne _ IH]; intros w Hnow Hden; simpl.
  - exists w. by repeat split.
  - destruct (removeOldFile_spec s name w Hne) as (w1 & H1 & Hsb1 & Hd1 & Hn1).
    destruct (IH w1) as (w' & H' & Hsb' & Hd' & Hn').
    { destruct Hsb1 as [_ ->]. done. }
    { congruence. }
    exists w'. rewrite (bind_Done _ _ _ _ _ H1).
    split; [done|]. split; [by eapply same_backend_trans|].
    split; [congruence|]. intros p. rewrite Hn'.
    rewrite (sweep_removes_ext _ _ o (sys w)) in Hn1 by done.
    destruct (existsb _ files); [by rewrite orb_true_r|].
    rewrite orb_false_r, Hn1.
    destruct (sweep_removes _ _ o name); simpl; [|done].
    case_bool_decide as Hp; [subst p; apply lookup_delete_eq|by apply lookup_delete_ne].
Qed.

(** The sweep returns: no entry makes it panic. *)
Lemma removeOldFiles_returns (w : World) :
  ∃ w', removeOldFiles w = Done tt w' ∧ same_backend w w'.
Proof.
  unfold removeOldFiles. rewrite bind_self.
  destruct (_ <=? _); [by exists w|].
  rewrite bind_run, syscall_run. simpl.
  destruct (ReadDir _ _) as [files|] eqn:Hr.
  - destruct (sweep_loop_spec (fb w) files (sys w) (mkWorld (fb w) (sys w)))
      as (w' & H & Hsb & _); [|done|done|].
    + apply Forall_forall. intros n Hn. by apply (ReadDir_elem _ _ _ _ Hr) in Hn as [? _].
    + exists w'. split; [done|]. destruct Hsb. by split.
  - rewrite fprintf_run. eexists. by split.
Qed.

(** What the sweep does to the entry [name], when it runs. *)
Lemma removeOldFiles_entry (w : World) (name : string) :
  0 < keepHours (fb w) → dir (fb w) ∉ denied (sys w) →
  isArchiveName name = true → is_Some (names (sys w) !! Join (dir (fb w)) name) →
  ∃ w', removeOldFiles w = Done tt w'
        ∧ (names (sys w') !! Join (dir (fb w)) name
           = if sweep_removes (dir (fb w)) (keepHours (fb w)) (sys w) name
             then None else names (sys w) !! Join (dir (fb w)) name).
Proof.
  intros Hk Hd Ha Hin. unfold removeOldFiles. rewrite bind_self.
  destruct (_ <=? _) eqn:E; [lia|]. rewrite bind_run, syscall_run. simpl.
  destruct (ReadDir _ _) as [files|] eqn:Hr;
    [|unfold ReadDir in Hr; by rewrite decide_False in Hr].
  destruct (sweep_loop_spec (fb w) files (sys w) (mkWorld (fb w) (sys w)))
    as (w' & H & _ & _ & Hn); [|done|done|].
  { apply Forall_forall. intros n Hn. by apply (ReadDir_elem _ _ _ _ Hr) in Hn as [? _]. }
  exists w'. split; [done|]. rewrite Hn. simpl.
  assert (Hmem : name ∈ files).
  { apply (ReadDir_elem _ _ _ _ Hr). split; [by apply isArchiveName_nonempty|].
    split; [by apply isArchiveName_no_slash|done]. }
  destruct (sweep_removes _ _ _ name) eqn:Hs.
  - replace (existsb _ files) with true; [done|]. symmetry.
    apply existsb_exists. exists name. split; [by apply list_elem_of_In|].
    by rewrite Hs, bool_decide_eq_true_2.
  - replace (existsb _ files) with false; [done|]. symmetry.
    apply not_true_is_false. intros (n & _ & Hn')%existsb_exists.
    apply andb_true_iff in Hn' as [Hrem Heq].
    apply bool_decide_eq_true_1, Join_inj in Heq as <-. congruence.
Qed.

End RetentionSweep.

(** ** Which archives the sweep removes *)

Section Retention.

Lemma shouldDelete_answer_malformed (keep : Z) (t : Time) (name : string) :
  isArchiveName name = true →
  Parse_2006010215 (hourBucketSuffix name) = None →
  shouldDelete_answer keep t name = false.
Proof.
  intros Ha Hp. unfold shouldDelete_answer.
  by rewrite (isArchiveName_Split name Ha), Hp.
Qed.

(** One round of the removal loop only adds to the diagnostic stream, and
    adds the parse diagnostic for an archive name whose suffix does not
    parse. *)
Lemma removeOldFile_stderr (s : FileBackend) (name : string) (w w' : World) :
removeOldFile s name w = Done tt w' →
∃ l, stderr (sys w') = stderr (sys w) ++ l
     ∧ (isArchiveName name = true →
        Parse_2006010215 (hourBucketSuffix name) = None →
        DiagParseFailed name ∈ l).
Proof.
unfold removeOldFile.
destruct (String.eqb name _) eqn:Hm.
2:{ intros [= <-]. exists []. rewrite app_nil_r. split; [done|].
    unfold isArchiveName. rewrite Hm, andb_false_r. done. }
intros H. apply bind_Done_inv in H as (del & w1 & Hd & H).
destruct (decide (isArchiveName name = true)) as [Ha|Hna].
- rewrite (shouldDelete_archive name _ w Ha) in Hd. injection Hd as <- <-.
  destruct (Parse_2006010215 (hourBucketSuffix name)) as [t|] eqn:Hp.
  + destruct (shouldDelete_answer _ _ name).
    * apply bind_Done_inv in H as (e & w2 & H2 & H).
      rewrite syscall_run in H2. injection H2 as <- <-.
      assert (Hst : stderr (Remove (Join (dir s) name) (sys w)).2 = stderr (sys w)).
      { unfold Remove. repeat case_match; done. }
      destruct (Remove _ _).1; [rewrite fprintf_run in H|]; injection H as <-; simpl.
      -- rewrite Hst. by eexists.
      -- rewrite Hst. exists []. by rewrite app_nil_r.
    * injection H as <-. exists []. by rewrite app_nil_r.
  + unfold shouldDelete_answer in H. rewrite (isArchiveName_Split name Ha), Hp in H.
    injection H as <-. exists [DiagParseFailed name]. split; [done|].
    intros _ _. by apply list_elem_of_singleton.
- assert (Hst : ∃ l, stderr (sys w1) = stderr (sys w) ++ l).
  { revert Hd. unfold shouldDelete.
    destruct (strings.Split name "." !! 2%nat) as [suffix|]; [|done].
    destruct (Parse_2006010215 suffix) as [t|].
    - rewrite bind_getNowTime. destruct (negb _); intros [= _ <-];
        exists []; by rewrite app_nil_r.
    - rewrite bind_run, fprintf_run. intros [= _ <-]. by eexists. }
  destruct Hst as (l1 & Hl1).
  destruct del.
  + apply bind_Done_inv in H as (e & w2 & H2 & H).
    rewrite syscall_run in H2. injection H2 as <- <-.
    assert (Hst : stderr (Remove (Join (dir s) name) (sys w1)).2 = stderr (sys w1)).
    { unfold Remove. repeat case_match; done. }
    destruct (Remove _ _).1; [rewrite fprintf_run in H|]; injection H as <-; simpl;
      rewrite Hst, Hl1.
    * exists (l1 ++ [DiagRemoveFailed (Join (dir s) name)]).
      by rewrite app_assoc.
    * by exists l1.
  + injection H as <-. by exists l1.
Qed.

(** The removal loop over a listing that holds an archive name whose
    suffix does not parse: the parse diagnostic for that name is on the
    diagnostic stream when the loop ends. *)
Lemma sweep_loop_reports (s : FileBackend) (files : list string) (name : string)
  (w w' : World) :
forEach files (removeOldFile s) w = Done tt w' →
∃ l, stderr (sys w') = stderr (sys w) ++ l
     ∧ (name ∈ files → isArchiveName name = true →
        Parse_2006010215 (hourBucketSuffix name) = None →
        DiagParseFailed name ∈ l).
Proof.
revert w. induction files as [|f files IH]; intros w; cbn [forEach].
- intros [= <-]. exists []. rewrite app_nil_r. split; [done|]. by intros ?%elem_of_nil.
- intros H. apply bind_Done_inv in H as ([] & w1 & H1 & H).
  apply removeOldFile_stderr in H1 as (l1 & Hl1 & Hr1).
  apply IH in H as (l2 & Hl2 & Hr2).
  exists (l1 ++ l2). split; [by rewrite Hl2, Hl1, app_assoc|].
  intros [->|Hin]%elem_of_cons Ha Hp; apply elem_of_app; [left|right]; auto.
Qed.

(** C9: for every archive filename whose hour-bucket suffix does not
    parse as a YYYYMMDDHH time, [shouldDelete] reports the error on the
    diagnostic stream and answers [false]; the round of the sweep for that
    entry does just that and returns, so the loop goes on with the next
    entry; and the whole sweep returns with the entry as it was.  When the
    sweep runs ([keepHours > 0], the directory can be read) and the entry is
    in the directory, the parse diagnostic for the entry is on the
    diagnostic stream when the sweep returns, and every other archive entry
    of the directory has been removed or kept as the retention rule says for
    it: the malformed suffix causes no deletion and aborts nothing. *)
Theorem malformed_suffix_is_reported_and_kept (w : World) (name : string) :
isArchiveName name = true →
Parse_2006010215 (hourBucketSuffix name) = None →
let reported := mkWorld (fb w) (eprint (DiagParseFailed name) (sys w)) in
(∀ keep, shouldDelete name keep w = Done false reported)
∧ (∀ s rest, forEach (name :: rest) (removeOldFile s) w
             = forEach rest (removeOldFile s) reported)
∧ (∃ w', removeOldFiles w = Done tt w'
         ∧ names (sys w') !! Join (dir (fb w)) name
           = names (sys w) !! Join (dir (fb w)) name
         ∧ (0 < keepHours (fb w) → dir (fb w) ∉ denied (sys w) →
            is_Some (names (sys w) !! Join (dir (fb w)) name) →
            (∃ l, stderr (sys w') = stderr (sys w) ++ l ∧ DiagParseFailed name ∈ l)
            ∧ ∀ other,
                isArchiveName other = true →
                is_Some (names (sys w) !! Join (dir (fb w)) other) →
                names (sys w') !! Join (dir (fb w)) other
                = if sweep_removes (dir (fb w)) (keepHours (fb w)) (sys w) other
                  then None
                  else names (sys w) !! Join (dir (fb w)) other)).
Proof.
intros Ha Hp reported. split; [|split].
- intros keep. rewrite (shouldDelete_archive name keep w Ha), Hp.
  by rewrite shouldDelete_answer_malformed.
- intros s rest. simpl. rewrite bind_run. unfold removeOldFile.
  assert (Hm : String.eqb name (regexp.FindString rotatedFilenamePattern name) = true).
  { unfold isArchiveName in Ha. by apply andb_true_iff in Ha as [_ ?]. }
  rewrite Hm, bind_run, (shouldDelete_archive name _ w Ha), Hp.
  by rewrite shouldDelete_answer_malformed.
- destruct (removeOldFiles_returns w) as (w' & Hrun & _).
  exists w'. split; [done|]. split.
  + revert Hrun. unfold removeOldFiles. rewrite bind_self.
    destruct (_ <=? _); [by intros [= <-]|].
    rewrite bind_run, syscall_run. simpl.
    destruct (ReadDir _ _) as [files|] eqn:Hr; [|rewrite fprintf_run; by intros [= <-]].
    destruct (sweep_loop_spec (fb w) files (sys w) (mkWorld (fb w) (sys w)))
      as (w'' & H & _ & _ & Hn); [|done|done|].
    { apply Forall_forall. intros n Hn. by apply (ReadDir_elem _ _ _ _ Hr) in Hn as [? _]. }
    rewrite H. intros [= <-]. rewrite Hn. simpl.
    replace (existsb _ files) with false; [done|]. symmetry.
    apply not_true_is_false. intros (n & _ & Hn')%existsb_exists.
    apply andb_true_iff in Hn' as [Hrem Heq].
    apply bool_decide_eq_true_1, Join_inj in Heq as <-.
    unfold sweep_removes in Hrem.
    by rewrite (shouldDelete_answer_malformed _ _ name Ha Hp), andb_false_r in Hrem.
  + intros Hk Hd Hin. split.
    * revert Hrun. unfold removeOldFiles. rewrite bind_self.
      destruct (_ <=? _) eqn:E; [lia|]. rewrite bind_run, syscall_run. simpl.
      destruct (ReadDir _ _) as [files|] eqn:Hr;
        [|unfold ReadDir in Hr; by rewrite decide_False in Hr].
      intros Hloop.
      apply (sweep_loop_reports _ _ name) in Hloop as (l & Hl & Hrep).
      exists l. split; [done|]. apply Hrep; [|done..].
      apply (ReadDir_elem _ _ _ _ Hr). split; [by apply isArchiveName_nonempty|].
      split; [by apply isArchiveName_no_slash|done].
    * intros other Hao Hino.
      destruct (removeOldFiles_entry w other Hk Hd Hao Hino) as (w'' & Hrun' & Hn).
      rewrite Hrun in Hrun'. by injection Hrun' as <-.
Qed.


Lemma malformed_suffix_is_reported_and_kept_witness :
names (sys Scenario5.malformedThenExpired) !! "log/INFO.log.2019139999" = Some 1%nat
∧ names (sys Scenario5.malformedThenExpired) !! "log/WARNING.log.2019071001" = Some 2%nat
∧ ∃ w', removeOldFiles Scenario5.malformedThenExpired = Done tt w'
        ∧ DiagParseFailed "INFO.log.2019139999" ∈ stderr (sys w')
        ∧ names (sys w') !! "log/INFO.log.2019139999" = Some 1%nat
        ∧ names (sys w') !! "log/WARNING.log.2019071001" = None.
Proof.
split; [by vm_compute|]. split; [by vm_compute|].
destruct (malformed_suffix_is_reported_and_kept Scenario5.malformedThenExpired
            "INFO.log.2019139999" ltac:(by vm_compute) ltac:(by vm_compute))
  as (_ & _ & w' & Hw' & Hn & Hsweep).
destruct Hsweep as ((l & Hl & Hin) & Hother).
{ by vm_compute. }
{ apply not_elem_of_empty. }
{ by exists 1%nat. }
exists w'. split; [exact Hw'|]. split; [|split].
- rewrite Hl. apply elem_of_app. by right.
- refine (eq_trans Hn _). by vm_compute.
- refine (eq_trans (Hother "WARNING.log.2019071001" _ _) _).
  + by vm_compute.
  + by exists 2%nat.
  + by vm_compute.
Defined.

Lemma Parse_whole_seconds (value : string) (t : Time) :
  Parse_2006010215 value = Some t → nsec t = 0.
Proof.
  unfold Parse_2006010215. intros H.
  repeat case_match; simplify_eq; done.
Qed.

Lemma wrap64_small (z : Z) : - 2 ^ 63 <= z < 2 ^ 63 → wrap64 z = z.
Proof. intros H. unfold wrap64. rewrite Z.mod_small; lia. Qed.

Lemma Add_whole_hours (t : Time) (k : Z) :
  nsec t = 0 → Add t (k * Hour) = plusHours t k.
Proof.
  intros Hn. unfold Add, plusHours, Hour, Minute, Second. rewrite Hn.
  replace (k * (60 * (60 * 1000000000))) with ((k * 3600) * 1000000000) by lia.
  rewrite Z.quot_mul, Z.rem_mul by lia. simpl. done.
Qed.

(** Within the range of [Duration], the answer of [shouldDelete] is the
    retention rule of the specification. *)
Lemma shouldDelete_answer_due (keep : Z) (nowTime t : Time) (name : string) :
  isArchiveName name = true →
  Parse_2006010215 (hourBucketSuffix name) = Some t →
  valid nowTime → 0 < keep <= maxKeepHours →
  shouldDelete_answer keep nowTime name = true ↔ retention_due keep t nowTime.
Proof.
  intros Ha Hp Hv Hk. unfold shouldDelete_answer, retention_due.
  rewrite (isArchiveName_Split name Ha), Hp.
  unfold Duration_mul. rewrite wrap64_small.
  2:{ unfold maxKeepHours, Hour, Minute, Second in *.
      change ((2 ^ 63 - 1) / (60 * (60 * 1000000000))) with 2562047 in Hk.
      change (2 ^ 63) with 9223372036854775808. lia. }
  rewrite (Add_whole_hours t keep (Parse_whole_seconds _ _ Hp)).
  rewrite truncateToHour_eq by done.
  unfold After, at_or_before, plusHours. simpl.
  rewrite (Parse_whole_seconds _ _ Hp).
  rewrite negb_true_iff, orb_false_iff, andb_false_iff, Z.ltb_ge, Z.eqb_neq, Z.ltb_ge.
  lia.
Qed.

(** C6, amended: during the retention sweep (no input/output fault on
    the directory or the entry), for every directory entry whose name
    matches the archive pattern, the file is deleted if and only if
    [keepHours > 0] and the parsed hour-bucket suffix time plus [keepHours]
    hours is at or before the current hour bucket, provided [keepHours]
    hours fit a 64-bit nanosecond [Duration] ([keepHours <= maxKeepHours],
    2562047); when [keepHours <= 0] the sweep deletes nothing. *)
Theorem retention_sweep_deletes_when_due (w : World) (name : string) :
  let s := fb w in
  let path := Join (dir s) name in
  valid (now (sys w)) →
  dir s ∉ denied (sys w) → path ∉ denied (sys w) →
  is_Some (names (sys w) !! path) →
  isArchiveName name = true →
  keepHours s <= maxKeepHours →
  ∃ w', removeOldFiles w = Done tt w'
        ∧ (names (sys w') !! path = None
           ↔ ∃ t, Parse_2006010215 (hourBucketSuffix name) = Some t
                  ∧ retention_due (keepHours s) t (now (sys w)))
        ∧ (keepHours s <= 0 → w' = w).
Proof.
  intros s path Hv Hd Hp [ino Hin] Ha Hk. subst s path.
  destruct (decide (keepHours (fb w) <= 0)) as [Hle|Hgt].
  - exists w. split; [|split; [|done]].
    + unfold removeOldFiles. rewrite bind_self.
      by destruct (keepHours (fb w) <=? 0) eqn:E; [|lia].
    + rewrite Hin. split; [done|].
      intros (t & _ & Hdue & _). lia.
  - destruct (removeOldFiles_entry w name) as (w' & Hw' & Hn); [lia|done..|].
    exists w'. split; [done|]. split; [|intros; lia].
    rewrite Hn, Hin. unfold sweep_removes.
    rewrite Ha, (bool_decide_eq_true_2 _ Hp), andb_true_r. simpl.
    destruct (Parse_2006010215 (hourBucketSuffix name)) as [t|] eqn:Hparse.
    + pose proof (shouldDelete_answer_due (keepHours (fb w)) (now (sys w)) t name
                    Ha Hparse Hv ltac:(lia)) as Hiff.
      destruct (shouldDelete_answer _ _ name).
      * split; [|done]. intros _. exists t. split; [done|]. by apply Hiff.
      * split; [done|]. intros (t' & [= <-] & Hdue). by apply Hiff in Hdue.
    + rewrite (shouldDelete_answer_malformed _ _ name Ha Hparse).
      split; [done|]. by intros (t & ? & _).
Qed.

Lemma retention_sweep_deletes_when_due_witness :
  names (sys Scenario2.expired) !! "log/INFO.log.2019071001" = Some 1%nat
  ∧ ∃ w', removeOldFiles Scenario2.expired = Done tt w'
          ∧ names (sys w') !! "log/INFO.log.2019071001" = None.
Proof.
  split; [by vm_compute|].
  destruct (retention_sweep_deletes_when_due Scenario2.expired "INFO.log.2019071001")
    as (w' & Hw' & Hiff & _).
  - unfold valid. by vm_compute.
  - by vm_compute.
  - by vm_compute.
  - exists 1%nat. by vm_compute.
  - by vm_compute.
  - by vm_compute.
  - exists w'. split; [exact Hw'|]. apply Hiff.
    exists (Date 2019 7 10 1). split; [by vm_compute|].
    assert (Hnow : now (sys Scenario2.expired) = mkTime 1562728394 0 0)
      by (by vm_compute).
    assert (Hkeep : keepHours (fb Scenario2.expired) = 1) by (by vm_compute).
    rewrite Hnow, Hkeep. unfold retention_due, at_or_before.
    change (truncateToHour (mkTime 1562728394 0 0)) with (mkTime 1562727600 0 0).
    change (plusHours (Date 2019 7 10 1) 1) with (mkTime 1562724000 0 0).
    simpl. lia.
Defined.

(** C6, its counterexample: with [keepHours = 2562048] the product
    [time.Duration(keepHours) * time.Hour] exceeds [int64] and wraps to a
    negative duration, so the archive of the current hour is removed
    although its suffix time plus [keepHours] hours lies some 292 years
    after the current hour bucket. *)
Lemma retention_overflow_deletes_fresh_archive :
  let w := Scenario2.hugeKeep in
  let name := "INFO.log.2019071001" in
  keepHours (fb w) = 2562048
  ∧ Duration_mul (keepHours (fb w)) Hour = -9223371273709551616
  ∧ isArchiveName name = true
  ∧ names (sys w) !! Join (dir (fb w)) name = Some 1%nat
  ∧ (∃ w', removeOldFiles w = Done tt w'
           ∧ names (sys w') !! Join (dir (fb w)) name = None)
  ∧ ¬ (∃ t, Parse_2006010215 (hourBucketSuffix name) = Some t
            ∧ retention_due (keepHours (fb w)) t (now (sys w))).
Proof.
  split; [reflexivity|]. split; [reflexivity|]. split; [by vm_compute|].
  split; [by vm_compute|]. split.
  - eexists. split; by vm_compute.
  - intros (t & Hp & Hdue). vm_compute in Hp. injection Hp as <-.
    assert (Hnow : now (sys Scenario2.hugeKeep) = mkTime 1562721194 0 0)
      by (by vm_compute).
    assert (Hkeep : keepHours (fb Scenario2.hugeKeep) = 2562048) by (by vm_compute).
    rewrite Hnow, Hkeep in Hdue. unfold retention_due, at_or_before in Hdue.
    change (truncateToHour (mkTime 1562721194 0 0)) with (mkTime 1562720400 0 0) in Hdue.
    unfold plusHours in Hdue. simpl in Hdue. lia.
Qed.

End Retention.

(** ** Files and the buffered writer *)

Section FilesAndBuffers.

Lemma file_of_set_inodes (f : list inode → list inode) (h : nat) (o : OS) :
length (f (inodes o)) = length (inodes o) →
file_of h (set_inodes f o) = file_of h o.
Proof. intros Hl. unfold file_of. simpl. by rewrite Hl. Qed.

Lemma file_of_appended (h ino : nat) (p : list byte) (o : OS) :
file_of h (appended ino p o) = file_of h o.
Proof. apply file_of_set_inodes, length_alter. Qed.

Lemma file_of_synced (h ino : nat) (o : OS) :
file_of h (synced ino o) = file_of h o.
Proof. apply file_of_set_inodes, length_alter. Qed.

Lemma file_of_eprint (h : nat) (d : Diag) (o : OS) :
file_of h (eprint d o) = file_of h o.
Proof. reflexivity. Qed.

Lemma file_of_Some (h ino : nat) (o : OS) :
file_of h o = Some ino →
handles o !! h = Some (Some ino) ∧ (ino < length (inodes o))%nat.
Proof.
unfold file_of. destruct (handles o !! h) as [[i|]|]; [|done..].
case_decide; [|done]. by intros [= ->].
Qed.

Lemma appended_nil (ino : nat) (o : OS) : appended ino [] o = o.
Proof.
unfold appended, set_inodes. destruct o as [n i h d e t]. simpl. f_equal.
apply list_alter_id. intros [c du]. simpl. by rewrite app_nil_r.
Qed.

Lemma appended_appended (ino : nat) (p q : list byte) (o : OS) :
appended ino q (appended ino p o) = appended ino (p ++ q) o.
Proof.
unfold appended, set_inodes. simpl. f_equal.
rewrite list_alter_alter_eq. apply list_alter_ext; [|done].
intros [c du] _. simpl. by rewrite app_assoc.
Qed.

Lemma os_Write_open (h ino : nat) (p : list byte) (o : OS) :
file_of h o = Some ino →
os.Write h p o = ((Z.of_nat (length p), None), appended ino p o).
Proof. intros H. unfold os.Write. by rewrite H. Qed.

Lemma os_Sync_open (h ino : nat) (o : OS) :
file_of h o = Some ino → os.Sync h o = (None, synced ino o).
Proof. intros H. unfold os.Sync. by rewrite H. Qed.

(** [Flush] of a writer in working order: the pending bytes go to the
    file, the buffer is empty. *)
Lemma bufio_Flush_open (b : bufio.Writer) (ino : nat) (o : OS) :
bufio.err b = None → file_of (bufio.wr b) o = Some ino →
bufio.Flush b o
= (None, bufio.mkWriter [] None (bufio.wr b) (bufio.size b),
   appended ino (bufio.buf b) o).
Proof.
intros He Hf. unfold bufio.Flush. rewrite He.
destruct b as [bf e h sz]. simpl in *. subst e.
unfold bufio.Buffered. simpl.
destruct bf as [|x bf]; simpl.
- by rewrite appended_nil.
- rewrite (os_Write_open h ino _ o Hf).
rewrite Z.ltb_irrefl. simpl. done.
Qed.

(** [Write] on a writer in working order takes all of [p] without error;
    some bytes [q] go to the file and the rest stays pending, in order;
    nothing goes to the file when [p] fits the free space, and what stays
    pending fits the buffer. *)
Lemma bufio_Write_open (b : bufio.Writer) (p : list byte) (ino : nat) (o : OS) :
bufio.err b = None → file_of (bufio.wr b) o = Some ino → 0 <= bufio.size b →
∃ q b', bufio.Write b p o = ((Z.of_nat (length p), None), b', appended ino q o)
        ∧ bufio.err b' = None ∧ bufio.wr b' = bufio.wr b
        ∧ bufio.size b' = bufio.size b
        ∧ q ++ bufio.buf b' = bufio.buf b ++ p
        ∧ (Z.of_nat (length p) <= bufio.Available b → q = [])
        ∧ Z.of_nat (length (bufio.buf b')) <= bufio.size b.
Proof.
intros He Hf Hs. destruct b as [bf e h sz]. simpl in *. subst e.
unfold bufio.Write. cbn [bufio.Write_loop]. cbn [bufio.err].
rewrite bool_decide_eq_true_2 by done. rewrite andb_true_r.
destruct (bufio.Available _ <? _) eqn:Hfit.
2:{ exists [], (bufio.mkWriter (bf ++ p) None h sz).
    rewrite appended_nil. apply Z.ltb_ge in Hfit.
    unfold bufio.Available, bufio.Buffered in Hfit. simpl in *.
    repeat split; try done. rewrite length_app. lia. }
apply Z.ltb_lt in Hfit.
assert (Hnofit : ¬ Z.of_nat (length p) <= bufio.Available (bufio.mkWriter bf None h sz))
  by lia.
unfold bufio.Buffered. cbn [bufio.buf bufio.wr bufio.size].
destruct (Z.of_nat (length bf) =? 0) eqn:Hb.
- assert (bf = []) as -> by (destruct bf; [done|simpl in Hb; lia]).
rewrite (os_Write_open h ino p o Hf).
rewrite Nat2Z.id, drop_all.
unfold bufio.Available, bufio.Buffered in *. cbn [bufio.buf bufio.size length] in *.
assert (Hc : (sz - Z.of_nat 0 <? Z.of_nat 0) = false) by (apply Z.ltb_ge; simpl; lia).
rewrite Hc. cbn [andb].
exists p, (bufio.mkWriter [] None h sz). cbn [bufio.buf bufio.wr bufio.size bufio.err].
split; [do 3 f_equal; simpl; lia|].
repeat split; try done; try (by rewrite app_nil_r); intros; simpl; lia.
- set (n := Z.to_nat (bufio.Available (bufio.mkWriter bf None h sz))).
rewrite (bufio_Flush_open (bufio.mkWriter (bf ++ take n p) None h sz) ino o) by done.
cbn [bufio.buf bufio.wr bufio.size bufio.err].
assert (Hn : (n <= length p)%nat) by (unfold n; lia).
assert (Hlen : Z.of_nat n + Z.of_nat (length (drop n p)) = Z.of_nat (length p))
  by (rewrite length_drop; lia).
unfold bufio.Available at 1, bufio.Buffered. cbn [bufio.buf bufio.size length].
rewrite bool_decide_eq_true_2 by done. rewrite andb_true_r.
destruct (sz - Z.of_nat 0 <? Z.of_nat (length (drop n p))) eqn:Hfit2.
+ change (Z.of_nat 0 =? 0) with true. cbv iota.
  rewrite (os_Write_open h ino (drop n p) _) by (by rewrite file_of_appended).
  rewrite Nat2Z.id, drop_all, appended_appended. cbn [bufio.err].
  exists ((bf ++ take n p) ++ drop n p), (bufio.mkWriter [] None h sz).
  cbn [bufio.buf bufio.wr bufio.size bufio.err].
  split; [do 3 f_equal; simpl; lia|].
  repeat split; try done;
    try (by rewrite app_nil_r, <- app_assoc, take_drop); intros; simpl; lia.
+ exists (bf ++ take n p), (bufio.mkWriter (drop n p) None h sz).
  cbn [bufio.buf bufio.wr bufio.size bufio.err].
  split; [do 3 f_equal; simpl; lia|].
  apply Z.ltb_ge in Hfit2.
  repeat split; try done;
    try (by rewrite <- app_assoc, take_drop); intros; simpl in *; lia.
Qed.

End FilesAndBuffers.

(** ** Open backends, slot by slot *)

Section OpenBackends.

Lemma all_Some_live (l : list (option syncBufio)) :
Forall is_Some l → l = Some <$> omap id l.
Proof.
induction 1 as [|x l [sb ->] _ IH]; [done|].
change (Some sb :: l = Some sb :: (Some <$> omap id l)). by f_equal.
Qed.

Lemma opened_live (w : World) (i : nat) (sb : syncBufio) :
opened w → writers (fb w) !! i = Some (Some sb) ↔ live (fb w) !! i = Some sb.
Proof.
intros (_ & _ & Hall & _). unfold live.
rewrite (all_Some_live _ Hall) at 1. rewrite list_lookup_fmap.
destruct (omap id (writers (fb w)) !! i); simpl; naive_solver.
Qed.

Lemma opened_slot (w : World) (i : nat) :
opened w → (i < Z.to_nat levelCount)%nat →
∃ sb, writers (fb w) !! i = Some (Some sb) ∧ writer_ok (sys w) sb.
Proof.
intros Hop Hi. pose proof Hop as (_ & Hlen & Hall & Hok & _).
destruct (lookup_lt_is_Some_2 (writers (fb w)) i) as [slot Hs]; [lia|].
pose proof (Forall_lookup_1 _ _ _ _ Hall Hs) as [sb ->].
exists sb. split; [done|].
apply (opened_live w i sb Hop) in Hs.
by apply (Forall_lookup_1 _ _ _ _ Hok Hs).
Qed.

Lemma opened_healthy (w : World) : opened w → healthy w.
Proof.
intros Hop. pose proof Hop as (_ & _ & _ & Hok & _ & Hnd). split.
- intros i sb Hs%(opened_live w i sb Hop). by apply (Forall_lookup_1 _ _ _ _ Hok Hs).
- intros i j sbi sbj Hi%(opened_live w i sbi Hop) Hj%(opened_live w j sbj Hop) Hne Heq.
apply Hne. eapply (NoDup_lookup _ i j); [exact Hnd|..];
  rewrite list_lookup_fmap; [by rewrite Hi|rewrite Hj; simpl; by rewrite Heq].
Qed.

Lemma opened_distinct_paths (w : World) (i j : nat) (sbi sbj : syncBufio) :
opened w →
writers (fb w) !! i = Some (Some sbi) → writers (fb w) !! j = Some (Some sbj) →
i ≠ j → filePath sbi ≠ filePath sbj.
Proof.
intros Hop Hi%(opened_live w i sbi Hop) Hj%(opened_live w j sbj Hop) Hne Heq.
pose proof Hop as (_ & _ & _ & _ & Hnd & _).
apply Hne. eapply (NoDup_lookup _ i j); [exact Hnd|..];
  rewrite list_lookup_fmap; [by rewrite Hi|rewrite Hj; simpl; by rewrite Heq].
Qed.

Lemma same_but_files_refl (o : OS) : same_but_files o o.
Proof. by repeat split. Qed.

Lemma same_but_files_trans (o1 o2 o3 : OS) :
same_but_files o1 o2 → same_but_files o2 o3 → same_but_files o1 o3.
Proof. unfold same_but_files. intros ? ?. destruct_and!. repeat split; congruence. Qed.

Lemma same_but_files_file_of (o o' : OS) (h : nat) :
same_but_files o o' → file_of h o' = file_of h o.
Proof. intros (_ & Hh & _ & _ & _ & Hl). unfold file_of. by rewrite Hh, Hl. Qed.

Lemma same_but_files_appended (ino : nat) (p : list byte) (o : OS) :
same_but_files o (appended ino p o).
Proof. repeat split. simpl. apply length_alter. Qed.

Lemma same_but_files_synced (ino : nat) (o : OS) : same_but_files o (synced ino o).
Proof. repeat split. simpl. apply length_alter. Qed.

Lemma same_but_writers_refl (s : FileBackend) : same_but_writers s s.
Proof. by repeat split. Qed.

Lemma same_but_writers_trans (s1 s2 s3 : FileBackend) :
same_but_writers s1 s2 → same_but_writers s2 s3 → same_but_writers s1 s3.
Proof. unfold same_but_writers. intros ? ?. destruct_and!. repeat split; congruence. Qed.

Lemma same_but_writers_insert (s : FileBackend) (i : nat) (v : option syncBufio) :
same_but_writers s (set_writers (<[i := v]>) s).
Proof. repeat split. simpl. apply length_insert. Qed.

Lemma SyncBufio_flush_open (sb : syncBufio) (ino : nat) (o : OS) :
writer_ok o sb → file_of (file sb) o = Some ino →
SyncBufio.flush sb o = (None, emptied sb, appended ino (bufio.buf (writer sb)) o).
Proof.
intros (He & Hw & _ & _) Hf. unfold SyncBufio.flush.
rewrite (bufio_Flush_open (writer sb) ino o He) by (by rewrite Hw).
unfold emptied. by rewrite He.
Qed.

Lemma SyncBufio_write_open (sb : syncBufio) (p : list byte) (ino : nat) (o : OS) :
writer_ok o sb → file_of (file sb) o = Some ino →
∃ q sb', SyncBufio.write sb p o = (sb', appended ino q o)
         ∧ writer_ok o sb' ∧ file sb' = file sb ∧ filePath sb' = filePath sb
         ∧ writeSize sb' = wrapU64 (writeSize sb + Z.of_nat (length p))
         ∧ q ++ bufio.buf (writer sb') = bufio.buf (writer sb) ++ p
         ∧ (Z.of_nat (length p) <= bufio.Available (writer sb) → q = [])
         ∧ Z.of_nat (length (bufio.buf (writer sb'))) <= defaultBufferSize.
Proof.
intros (He & Hw & Hopen & Hsz) Hf.
destruct (bufio_Write_open (writer sb) p ino o He)
  as (q & b' & HW & He' & Hw' & Hs' & Hq & Hfit & Hbound).
{ by rewrite Hw. }
{ rewrite Hsz. by vm_compute. }
unfold SyncBufio.write. rewrite HW.
exists q, (mkSyncBufio b' (file sb) (wrapU64 (writeSize sb + Z.of_nat (length p))) (filePath sb)).
simpl. repeat split; try done; simpl; congruence.
Qed.

(** One round of the flush loop on a writer in working order: its pending
    bytes are appended to its file and the file is made durable. *)
Lemma flushLevel_open (i : Z) (w : World) (sb : syncBufio) (ino : nat) :
0 <= i → writers (fb w) !! Z.to_nat i = Some (Some sb) →
writer_ok (sys w) sb → file_of (file sb) (sys w) = Some ino →
flushLevel i w
= Done tt (mkWorld (set_writers (<[Z.to_nat i := Some (emptied sb)]>) (fb w))
             (synced ino (appended ino (bufio.buf (writer sb)) (sys w)))).
Proof.
intros Hi Hs Hok Hf. unfold flushLevel.
rewrite (bind_Done _ _ _ _ _ (getWriter_lookup i w _ Hi Hs)).
rewrite bind_run, syscall_run, (SyncBufio_flush_open sb ino _ Hok Hf). simpl.
rewrite bind_run, setWriter_in_range; [|done|by eapply lookup_lt_Some].
simpl. rewrite bind_run, syscall_run. unfold SyncBufio.sync. simpl.
by rewrite (os_Sync_open _ ino) by (by rewrite file_of_appended).
Qed.

End OpenBackends.

(** ** The flush loop *)

Section FlushLoop.

Lemma writer_ok_same_files (o o' : OS) (sb : syncBufio) :
same_but_files o o' → writer_ok o sb → writer_ok o' sb.
Proof.
intros Hs (? & ? & ? & ?). repeat split; try done.
by rewrite (same_but_files_file_of o o' _ Hs).
Qed.

Lemma writer_ok_emptied (o : OS) (sb : syncBufio) :
writer_ok o sb → writer_ok o (emptied sb).
Proof. intros (? & ? & ? & ?). by repeat split. Qed.

Lemma committed_lookup (ino : nat) (p : list byte) (o : OS) (nd : inode) :
inodes o !! ino = Some nd →
inodes (synced ino (appended ino p o)) !! ino
= Some (mkInode (content nd ++ p) (content nd ++ p)).
Proof.
intros H. simpl. by rewrite !list_lookup_alter_eq, H.
Qed.

Lemma committed_lookup_ne (ino j : nat) (p : list byte) (o : OS) :
ino ≠ j → inodes (synced ino (appended ino p o)) !! j = inodes o !! j.
Proof. intros H. simpl. by rewrite !list_lookup_alter_ne. Qed.

Lemma same_but_files_committed (ino : nat) (p : list byte) (o : OS) :
same_but_files o (synced ino (appended ino p o)).
Proof.
eapply same_but_files_trans;
  [apply same_but_files_appended|apply same_but_files_synced].
Qed.

(** A writer replaced by one on the same handle keeps the slots healthy. *)
Lemma healthy_update (w : World) (i : nat) (sb sb' : syncBufio) (o' : OS) :
healthy w → writers (fb w) !! i = Some (Some sb) →
same_but_files (sys w) o' → writer_ok (sys w) sb' → file sb' = file sb →
healthy (mkWorld (set_writers (<[i := Some sb']>) (fb w)) o').
Proof.
intros [Hok Hdist] Hs Hsame Hok' Hfile.
assert (Hlook : ∀ k x, <[i := Some sb']> (writers (fb w)) !! k = Some (Some x) →
          (k = i ∧ x = sb') ∨ (k ≠ i ∧ writers (fb w) !! k = Some (Some x))).
{ intros k x Hk. destruct (decide (i = k)) as [<-|Hne].
  - rewrite list_lookup_insert_eq in Hk by (by eapply lookup_lt_Some).
    left. by injection Hk as ->.
  - rewrite list_lookup_insert_ne in Hk by done. right. by split. }
assert (Hfile_of : ∀ k x, <[i := Some sb']> (writers (fb w)) !! k = Some (Some x) →
          ∃ y, writers (fb w) !! k = Some (Some y) ∧ file x = file y).
{ intros k x [[-> ->]|[_ Hk]]%Hlook; eauto. }
split; simpl.
- intros k x [[-> ->]|[_ Hk]]%Hlook; eapply writer_ok_same_files; eauto.
- intros k j x y Hk Hj Hne.
  rewrite !(same_but_files_file_of _ _ _ Hsame).
  destruct (Hfile_of _ _ Hk) as (x' & Hk' & ->).
  destruct (Hfile_of _ _ Hj) as (y' & Hj' & ->).
  by eapply Hdist.
Qed.

(** The flush loop over the levels [ls]: each of their writers is emptied
    into its file and the file made durable; the other slots and files are
    as before. *)
Lemma flush_loop (ls : list Z) (w : World) :
healthy w → NoDup ls →
(∀ i, i ∈ ls → 0 <= i ∧ ∃ sb, writers (fb w) !! Z.to_nat i = Some (Some sb)) →
∃ w', forEach ls flushLevel w = Done tt w'
      ∧ same_but_writers (fb w) (fb w') ∧ same_but_files (sys w) (sys w')
      ∧ healthy w'
      ∧ ∀ (k : nat) sb ino nd,
          writers (fb w) !! k = Some (Some sb) →
          file_of (file sb) (sys w) = Some ino → inodes (sys w) !! ino = Some nd →
          if decide (Z.of_nat k ∈ ls)
          then writers (fb w') !! k = Some (Some (emptied sb))
               ∧ inodes (sys w') !! ino
                 = Some (mkInode (content nd ++ bufio.buf (writer sb))
                           (content nd ++ bufio.buf (writer sb)))
          else writers (fb w') !! k = Some (Some sb)
               ∧ inodes (sys w') !! ino = Some nd.
Proof.
revert w. induction ls as [|i ls IH]; intros w Hh Hnd Hls.
- exists w. cbn [forEach]. split; [done|]. split; [apply same_but_writers_refl|].
  split; [apply same_but_files_refl|]. split; [done|].
  intros k sb ino nd Hk Hf Hn. case_decide; [set_solver|done].
- apply NoDup_cons in Hnd as [Hi Hnd].
  destruct (Hls i) as (Hi0 & sb & Hsb); [by left|].
  pose proof (proj1 Hh _ _ Hsb) as Hok.
  pose proof Hok as (_ & _ & [ino Hino] & _).
  pose proof (file_of_Some _ _ _ Hino) as [_ Hlt].
  destruct (lookup_lt_is_Some_2 (inodes (sys w)) ino Hlt) as [nd Hnd0].
  set (w1 := mkWorld (set_writers (<[Z.to_nat i := Some (emptied sb)]>) (fb w))
               (synced ino (appended ino (bufio.buf (writer sb)) (sys w)))).
  assert (Hsame1 : same_but_files (sys w) (sys w1)) by apply same_but_files_committed.
  assert (Hh1 : healthy w1).
  { apply (healthy_update w _ sb); done || by apply writer_ok_emptied. }
  assert (Hin1 : ∀ j, ino ≠ j → inodes (sys w1) !! j = inodes (sys w) !! j)
    by (intros; by apply committed_lookup_ne).
  assert (Hslot1 : ∀ k : nat, k ≠ Z.to_nat i →
            writers (fb w1) !! k = writers (fb w) !! k).
  { intros k Hk. simpl. by rewrite list_lookup_insert_ne. }
  destruct (IH w1 Hh1 Hnd) as (w' & Hrun & Hsw & Hsf & Hh' & Hspec).
  { intros j Hj. destruct (Hls j) as (Hj0 & sbj & Hsbj); [by right|].
    split; [done|]. exists sbj. rewrite Hslot1; [done|].
    intros Heq. apply Hi. replace i with j by lia. done. }
  exists w'. cbn [forEach].
  rewrite (bind_Done _ _ _ _ _ (flushLevel_open i w sb ino Hi0 Hsb Hok Hino)).
  split; [exact Hrun|].
  split; [eapply same_but_writers_trans; [apply same_but_writers_insert|exact Hsw]|].
  split; [by eapply same_but_files_trans|]. split; [done|].
  intros k sbk inok ndk Hk Hfk Hnk.
  destruct (decide (k = Z.to_nat i)) as [->|Hne].
  + assert (sbk = sb) as -> by congruence.
    assert (inok = ino) as -> by congruence.
    assert (ndk = nd) as -> by congruence.
    rewrite decide_True by (rewrite Z2Nat.id by done; by left).
    specialize (Hspec (Z.to_nat i) (emptied sb) ino
                  (mkInode (content nd ++ bufio.buf (writer sb))
                     (content nd ++ bufio.buf (writer sb)))).
    rewrite decide_False in Hspec by (rewrite Z2Nat.id by done; done).
    apply Hspec.
    * simpl. apply list_lookup_insert_eq. by eapply lookup_lt_Some.
    * by rewrite (same_but_files_file_of _ _ _ Hsame1).
    * by apply committed_lookup.
  + assert (Hino_ne : ino ≠ inok).
    { intros ->. apply (proj2 Hh _ _ _ _ Hsb Hk); [done|congruence]. }
    specialize (Hspec k sbk inok ndk).
    assert (Hmem : Z.of_nat k ∈ i :: ls ↔ Z.of_nat k ∈ ls).
    { rewrite elem_of_cons. split; [|by right]. intros [Heq|?]; [|done]. lia. }
    destruct (decide (Z.of_nat k ∈ ls)) as [Hin|Hnin].
    * rewrite decide_True by (by apply Hmem). apply Hspec.
      -- by rewrite Hslot1.
      -- by rewrite (same_but_files_file_of _ _ _ Hsame1).
      -- by rewrite Hin1.
    * rewrite decide_False by (by rewrite Hmem). apply Hspec.
      -- by rewrite Hslot1.
      -- by rewrite (same_but_files_file_of _ _ _ Hsame1).
      -- by rewrite Hin1.
Qed.

End FlushLoop.

(** ** [Log]: what is flushed, and when *)

Section LogFlush.

Lemma healthy_held (w : World) : healthy w → healthy (Scenario.held w).
Proof. done. Qed.

Lemma unlock_set_writers (f : list (option syncBufio) → list (option syncBufio))
  (s : FileBackend) :
mutex s = false → set_mutex false (set_writers f (set_mutex true s)) = set_writers f s.
Proof. destruct s. simpl. by intros ->. Qed.

Lemma NoDup_levels : NoDup levels.
Proof. by apply (bool_decide_unpack _). Qed.

Lemma logWrite_open (level : Level) (message : list byte) (v : World)
  (sb : syncBufio) (ino : nat) :
0 <= level <= 4 →
writers (fb v) !! Z.to_nat level = Some (Some sb) →
writer_ok (sys v) sb → file_of (file sb) (sys v) = Some ino →
∃ q sb', logWrite level message v
         = Done tt (mkWorld (set_writers (<[Z.to_nat level := Some sb']>) (fb v))
                      (appended ino q (sys v)))
         ∧ writer_ok (sys v) sb' ∧ file sb' = file sb ∧ filePath sb' = filePath sb
         ∧ q ++ bufio.buf (writer sb') = bufio.buf (writer sb) ++ message
         ∧ (Z.of_nat (length message) <= bufio.Available (writer sb) → q = [])
         ∧ Z.of_nat (length (bufio.buf (writer sb'))) <= defaultBufferSize.
Proof.
intros Hl Hs Hok Hf.
destruct (SyncBufio_write_open sb message ino (sys v) Hok Hf)
  as (q & sb' & HW & Hok' & Hfile & Hpath & _ & Hq & Hfit & Hb).
exists q, sb'. split; [|done].
unfold logWrite.
replace ((levelMin <=? level) && (level <=? levelMax)) with true
  by (unfold levelMin, levelMax, Debug, Fatal; symmetry; apply andb_true_iff; lia).
rewrite (bind_Done _ _ _ _ _ (getWriter_lookup level v _ ltac:(lia) Hs)).
rewrite bind_run, syscall_run, HW. simpl.
rewrite setWriter_in_range; [done|lia|by eapply lookup_lt_Some].
Qed.

Lemma Log_run (level : Level) (message : list byte) (w w1 : World) :
mutex (fb w) = false →
(logWrite level message;; if level =? Fatal then flush else mret tt) (Scenario.held w)
= Done tt w1 →
mutex (fb w1) = true →
Log level message w = Done tt (mkWorld (set_mutex false (fb w1)) (sys w1)).
Proof.
intros Hm Hbody Hm1. unfold Log.
rewrite (bind_Done _ _ _ _ _ (Lock_free _ Hm)).
unfold defer. rewrite Hbody. unfold Unlock. by rewrite Hm1.
Qed.

Lemma opened_slot_index (w : World) (k : nat) (sb : syncBufio) :
opened w → writers (fb w) !! k = Some (Some sb) → Z.of_nat k ∈ levels.
Proof.
intros (_ & Hlen & _) Hk%lookup_lt_Some. apply elem_of_levels.
unfold levelCount in Hlen. lia.
Qed.

(** [Log] at [Fatal] on an open backend: every slot's pending bytes (the
    message included) are in its file and durable when [Log] returns. *)
Lemma Log_Fatal_flushes_all (w : World) (message : list byte) :
opened w →
∃ w', Log Fatal message w = Done tt w'
      ∧ ∀ (k : nat) sb ino nd,
          writers (fb w) !! k = Some (Some sb) →
          file_of (file sb) (sys w) = Some ino → inodes (sys w) !! ino = Some nd →
          let data := content nd ++ bufio.buf (writer sb)
                      ++ (if decide (k = Z.to_nat Fatal) then message else []) in
          (∃ sb', writers (fb w') !! k = Some (Some sb')
                  ∧ bufio.buf (writer sb') = []
                  ∧ file sb' = file sb ∧ filePath sb' = filePath sb)
          ∧ file_of (file sb) (sys w') = Some ino
          ∧ inodes (sys w') !! ino = Some (mkInode data data).
Proof.
intros Hop. pose proof Hop as (Hm & Hlen & _).
pose proof (opened_healthy w Hop) as Hh.
destruct (opened_slot w (Z.to_nat Fatal) Hop ltac:(by vm_compute)) as (sb4 & Hs4 & Hok4).
pose proof Hok4 as (_ & _ & [ino4 Hf4] & _).
pose proof (file_of_Some _ _ _ Hf4) as [_ Hlt4].
destruct (lookup_lt_is_Some_2 (inodes (sys w)) ino4 Hlt4) as [nd4 Hn4].
destruct (logWrite_open Fatal message (Scenario.held w) sb4 ino4)
  as (q & sb4' & Hwrite & Hok4' & Hfile4 & Hpath4 & Hq & _ & _); [by vm_compute|done..|].
set (w2 := mkWorld (set_writers (<[Z.to_nat Fatal := Some sb4']>) (fb (Scenario.held w)))
             (appended ino4 q (sys (Scenario.held w)))) in *.
assert (Hsame2 : same_but_files (sys w) (sys w2)) by apply same_but_files_appended.
assert (Hh2 : healthy w2).
{ apply (healthy_update (Scenario.held w) _ sb4);
    done || apply same_but_files_appended. }
assert (Hslot2 : ∀ k : nat, k ≠ Z.to_nat Fatal →
          writers (fb w2) !! k = writers (fb w) !! k).
{ intros k Hk. simpl. by rewrite list_lookup_insert_ne. }
assert (Hslot24 : writers (fb w2) !! Z.to_nat Fatal = Some (Some sb4')).
{ simpl. apply list_lookup_insert_eq. by eapply lookup_lt_Some. }
destruct (flush_loop levels w2 Hh2 NoDup_levels) as (w3 & Hflush & Hsw & Hsf & _ & Hspec).
{ intros i Hi%elem_of_levels. split; [lia|].
  destruct (decide (Z.to_nat i = Z.to_nat Fatal)) as [->|Hne]; [by eexists|].
  rewrite Hslot2 by done.
  destruct (opened_slot w (Z.to_nat i) Hop) as (sb & Hsb & _); [unfold levelCount; lia|].
  by eexists. }
exists (mkWorld (set_mutex false (fb w3)) (sys w3)). split.
{ apply Log_run; [done| |].
  - rewrite (bind_Done _ _ _ _ _ Hwrite). exact Hflush.
  - destruct Hsw as (-> & _). done. }
intros k sb ino nd Hk Hf Hn data. cbn [sys fb set_mutex writers].
pose proof (opened_slot_index w k sb Hop Hk) as Hin.
assert (Hfile_of : file_of (file sb) (sys w3) = Some ino).
{ by rewrite (same_but_files_file_of _ _ _ Hsf), (same_but_files_file_of _ _ _ Hsame2). }
destruct (decide (k = Z.to_nat Fatal)) as [->|Hne].
- assert (sb = sb4) as -> by congruence.
  assert (ino = ino4) as -> by congruence.
  assert (nd = nd4) as -> by congruence.
  specialize (Hspec (Z.to_nat Fatal) sb4' ino4 (mkInode (content nd4 ++ q) (durable nd4))).
  rewrite decide_True in Hspec by done.
  destruct Hspec as [Hslot Hino].
  + done.
  + rewrite Hfile4. by rewrite (same_but_files_file_of _ _ _ Hsame2).
  + simpl. by rewrite list_lookup_alter_eq, Hn4.
  + split; [|split; [done|]].
    * exists (emptied sb4'). by repeat split.
    * simpl in Hino. rewrite Hino. unfold data. simpl.
      by rewrite <- app_assoc, Hq.
- specialize (Hspec k sb ino nd). rewrite decide_True in Hspec by done.
  destruct Hspec as [Hslot Hino].
  + by rewrite Hslot2.
  + by rewrite (same_but_files_file_of _ _ _ Hsame2).
  + simpl. rewrite list_lookup_alter_ne; [done|].
    intros ->. apply (proj2 Hh _ _ _ _ Hs4 Hk); [done|congruence].
  + split; [|split; [done|]].
    * exists (emptied sb). by repeat split.
    * simpl in Hino. rewrite Hino. unfold data. by rewrite app_nil_r.
Qed.

(** [Log] below [Fatal] on an open backend: the message joins the bytes
    of its level (some [q] of them possibly written through to the file,
    none when the message fits the free space of the buffer); no file is
    made durable, the other slots and files are as before. *)
Lemma Log_below_Fatal_buffers (w : World) (level : Level) (message : list byte) :
opened w → levelMin <= level < Fatal →
∃ sb ino q sb',
  writers (fb w) !! Z.to_nat level = Some (Some sb)
  ∧ file_of (file sb) (sys w) = Some ino
  ∧ Log level message w
    = Done tt (mkWorld (set_writers (<[Z.to_nat level := Some sb']>) (fb w))
                 (appended ino q (sys w)))
  ∧ file sb' = file sb ∧ filePath sb' = filePath sb
  ∧ q ++ bufio.buf (writer sb') = bufio.buf (writer sb) ++ message
  ∧ (Z.of_nat (length message) <= bufio.Available (writer sb) → q = [])
  ∧ Z.of_nat (length (bufio.buf (writer sb'))) <= defaultBufferSize.
Proof.
intros Hop Hl. pose proof Hop as (Hm & Hlen & _).
unfold levelMin, Debug, Fatal in Hl.
destruct (opened_slot w (Z.to_nat level) Hop) as (sb & Hs & Hok); [unfold levelCount; lia|].
pose proof Hok as (_ & _ & [ino Hf] & _).
destruct (logWrite_open level message (Scenario.held w) sb ino)
  as (q & sb' & Hwrite & _ & Hfile & Hpath & Hq & Hfit & Hb); [lia|done..|].
exists sb, ino, q, sb'. repeat split; try done.
rewrite (Log_run level message w
           (mkWorld (set_writers (<[Z.to_nat level := Some sb']>) (fb (Scenario.held w)))
              (appended ino q (sys (Scenario.held w)))) Hm).
- f_equal. cbn [fb sys Scenario.held]. f_equal. by apply unlock_set_writers.
- rewrite (bind_Done _ _ _ _ _ Hwrite).
  replace (level =? Fatal) with false by (symmetry; apply Z.eqb_neq; unfold Fatal; lia).
  done.
- done.
Qed.

End LogFlush.

Section LogFlushPolicy.

Lemma file_durable_appended (ino j : nat) (q : list byte) (o : OS) :
file_durable j (appended ino q o) = file_durable j o.
Proof.
unfold file_durable. simpl.
destruct (decide (ino = j)) as [->|Hne].
- rewrite list_lookup_alter_eq. by destruct (inodes o !! j).
- by rewrite list_lookup_alter_ne.
Qed.

Lemma file_content_appended (ino : nat) (q : list byte) (o : OS) :
file_content ino (appended ino q o) = (λ data, data ++ q) <$> file_content ino o.
Proof.
unfold file_content. simpl. rewrite list_lookup_alter_eq.
by destruct (inodes o !! ino).
Qed.

Lemma file_content_appended_ne (ino j : nat) (q : list byte) (o : OS) :
ino ≠ j → file_content j (appended ino q o) = file_content j o.
Proof. intros H. unfold file_content. simpl. by rewrite list_lookup_alter_ne. Qed.

(** C5, amended: on an open backend, for every message logged at [Fatal],
    when [Log] returns the buffer of every level slot is empty and its
    pending bytes (for [Fatal], the message included) are in the slot's
    file and durable; for every message logged at a level below [Fatal],
    [Log] syncs nothing (no file's durable bytes change), leaves the other
    slots and files alone, and hands bytes of its own level to the file only
    as far as the message does not fit the free space of the 256 KiB buffer:
    a message that fits stays in the buffer, nothing reaches the file. *)
Theorem Log_flush_policy (w : World) (level : Level) (message : list byte) :
opened w →
(∃ w', Log Fatal message w = Done tt w'
       ∧ ∀ (k : nat) sb ino data,
           writers (fb w) !! k = Some (Some sb) →
           file_of (file sb) (sys w) = Some ino →
           file_content ino (sys w) = Some data →
           let data' := data ++ bufio.buf (writer sb)
                        ++ (if decide (k = Z.to_nat Fatal) then message else []) in
           (∃ sb', writers (fb w') !! k = Some (Some sb')
                   ∧ bufio.buf (writer sb') = []
                   ∧ file sb' = file sb ∧ filePath sb' = filePath sb)
           ∧ file_of (file sb) (sys w') = Some ino
           ∧ file_content ino (sys w') = Some data'
           ∧ file_durable ino (sys w') = Some data')
∧ (levelMin <= level < Fatal →
   ∃ w' sb sb' ino q,
     Log level message w = Done tt w'
     ∧ (∀ j, file_durable j (sys w') = file_durable j (sys w))
     ∧ (∀ k : nat, k ≠ Z.to_nat level → writers (fb w') !! k = writers (fb w) !! k)
     ∧ writers (fb w) !! Z.to_nat level = Some (Some sb)
     ∧ writers (fb w') !! Z.to_nat level = Some (Some sb')
     ∧ file_of (file sb) (sys w) = Some ino
     ∧ (∀ j, j ≠ ino → file_content j (sys w') = file_content j (sys w))
     ∧ file_content ino (sys w') = (λ data, data ++ q) <$> file_content ino (sys w)
     ∧ q ++ bufio.buf (writer sb') = bufio.buf (writer sb) ++ message
     ∧ (Z.of_nat (length message) <= bufio.Available (writer sb) →
        q = [] ∧ sys w' = sys w)).
Proof.
intros Hop. split.
- destruct (Log_Fatal_flushes_all w message Hop) as (w' & Hrun & Hspec).
  exists w'. split; [done|].
  intros k sb ino data Hk Hf Hc data'.
  unfold file_content in Hc.
  destruct (inodes (sys w) !! ino) as [nd|] eqn:Hn; [|done].
  injection Hc as <-.
  destruct (Hspec k sb ino nd Hk Hf Hn) as (Hslot & Hfo & Hino).
  split; [done|]. split; [done|].
  unfold file_content, file_durable. rewrite Hino. done.
- intros Hl.
  destruct (Log_below_Fatal_buffers w level message Hop Hl)
    as (sb & ino & q & sb' & Hs & Hf & Hrun & _ & _ & Hq & Hfit & _).
  eexists _, sb, sb', ino, q. split; [exact Hrun|]. cbn [sys fb set_writers writers].
  split; [intros j; apply file_durable_appended|].
  split; [intros k Hk; by rewrite list_lookup_insert_ne|].
  split; [done|].
  split; [apply list_lookup_insert_eq; by eapply lookup_lt_Some|].
  split; [done|].
  split; [intros j Hj; by apply file_content_appended_ne|].
  split; [apply file_content_appended|]. split; [done|].
  intros Hfits. rewrite (Hfit Hfits). split; [done|apply appended_nil].
Qed.

Lemma Log_flush_policy_witness :
opened Scenario.logged0
∧ ∃ w', Log Fatal Scenario.msg Scenario.logged0 = Done tt w'
        ∧ file_durable 1 (sys w') = Some Scenario.msg
        ∧ file_durable 4 (sys w') = Some Scenario.msg.
Proof.
assert (Hop : opened Scenario.logged0) by (apply (bool_decide_unpack _); by vm_compute).
split; [exact Hop|].
destruct (Log_flush_policy Scenario.logged0 Info Scenario.msg Hop)
  as [(w' & Hrun & Hspec) _].
exists w'. split; [exact Hrun|]. split.
- refine (proj2 (proj2 (proj2 (Hspec 1%nat
    (mkSyncBufio (bufio.mkWriter Scenario.msg None 1 defaultBufferSize) 1 19
       "log/INFO.log") 1%nat [] _ _ _)))); by vm_compute.
- refine (proj2 (proj2 (proj2 (Hspec 4%nat
    (newSyncBufio 4 "log/FATAL.log" defaultBufferSize) 4%nat [] _ _ _))));
    by vm_compute.
Defined.

(** C5, its counterexample: [INFO.log] is empty and 19 bytes of the level
    are pending; a message of 256 KiB logged at [Info] does not fit the free
    space, the buffered writer fills up and flushes, and when [Log] returns
    the file is no longer empty, though the level is not [Fatal]. *)
Lemma Log_Info_oversize_reaches_file :
opened Scenario.logged0
∧ names (sys Scenario.logged0) !! "log/INFO.log" = Some 1%nat
∧ file_content 1 (sys Scenario.logged0) = Some []
∧ ∃ w', Log Info Scenario3.oversize Scenario.logged0 = Done tt w'
        ∧ file_content 1 (sys w') ≠ Some [].
Proof.
assert (Hop : opened Scenario.logged0) by (apply (bool_decide_unpack _); by vm_compute).
split; [exact Hop|]. split; [by vm_compute|]. split; [by vm_compute|].
destruct (Log_below_Fatal_buffers Scenario.logged0 Info Scenario3.oversize Hop)
  as (sb & ino & q & sb' & Hs & Hf & Hrun & _ & _ & Hq & _ & Hb).
{ unfold levelMin, Debug, Info, Fatal. lia. }
eexists. split; [exact Hrun|].
vm_compute in Hs. injection Hs as <-.
vm_compute in Hf. injection Hf as <-.
cbn [sys]. rewrite file_content_appended.
replace (file_content 1 (sys Scenario.logged0)) with (Some (@nil byte)) by (by vm_compute).
cbn [fmap option_fmap option_map app]. intros [= ->].
assert (Hbig : length Scenario3.oversize = Z.to_nat defaultBufferSize)
  by apply length_replicate.
clear Hrun. revert Hq Hbig. generalize Scenario3.oversize. intros big Hq Hbig.
apply (f_equal length) in Hq. rewrite length_app in Hq.
cbn [app length writer bufio.buf Scenario.msg] in Hq.
unfold defaultBufferSize in *. lia.
Qed.

End LogFlushPolicy.

(** * Further properties of the backend *)

(** ** A level out of range *)

Section InvalidLevel.

Lemma set_mutex_false_held (s : FileBackend) :
mutex s = false → set_mutex false (set_mutex true s) = s.
Proof. destruct s. simpl. by intros ->. Qed.

(** X1: [Log] with a level outside [levelMin..levelMax] writes to no
    slot and flushes nothing: it prints the "invalid level" diagnostic and
    returns, the backend and every file as before; it touches no slot, so
    this holds on a closed backend too. *)
Theorem Log_invalid_level (w : World) (level : Level) (message : list byte) :
mutex (fb w) = false →
level < levelMin ∨ levelMax < level →
Log level message w
= Done tt (mkWorld (fb w) (eprint (DiagInvalidLevel level message) (sys w))).
Proof.
intros Hm Hl. unfold levelMin, levelMax, Debug, Fatal in Hl.
rewrite (Log_run level message w
           (mkWorld (fb (Scenario.held w))
              (eprint (DiagInvalidLevel level message) (sys w))) Hm).
- cbn [fb sys Scenario.held]. by rewrite set_mutex_false_held.
- unfold logWrite.
  replace ((levelMin <=? level) && (level <=? levelMax)) with false.
  2:{ symmetry. apply andb_false_iff. unfold levelMin, levelMax, Debug, Fatal.
      rewrite !Z.leb_gt. lia. }
  rewrite bind_run, fprintf_run.
  by replace (level =? Fatal) with false
    by (symmetry; apply Z.eqb_neq; unfold Fatal; lia).
- done.
Qed.

Lemma Log_invalid_level_witness :
slots_nil (fb Scenario.closed0)
∧ Log 5 Scenario.msg Scenario.closed0
  = Done tt (mkWorld (fb Scenario.closed0)
               (eprint (DiagInvalidLevel 5 Scenario.msg) (sys Scenario.closed0))).
Proof.
split.
- intros i Hi. unfold levelCount in Hi.
  do 5 (destruct i as [|i]; [reflexivity|]). simpl in Hi. lia.
- apply (Log_invalid_level Scenario.closed0 5 Scenario.msg); [reflexivity|].
  unfold levelMax, Fatal. lia.
Defined.

End InvalidLevel.

(** ** The periodic tasks after [Close] *)

Section TasksAfterClose.

Lemma monitorLevel_nil (i : Level) (w : World) :
slots_nil (fb w) → i ∈ levels → monitorLevel i w = Done false w.
Proof.
intros Hn Hi%elem_of_levels. unfold monitorLevel.
rewrite (bind_Done _ _ w w None); [done|].
apply getWriter_lookup; [lia|]. apply Hn. unfold levelCount. lia.
Qed.

(** X2: [Close] does not stop the periodic tasks; a monitor tick that
    fires after [Close] has returned skips every (nil) slot: it stats
    nothing, reopens nothing and leaves the world as it is. *)
Theorem doMonitorFiles_after_Close (w w' : World) :
Close w = Done tt w' → doMonitorFiles w' = Done tt w'.
Proof.
intros [_ Hn]%Close_Done_inv. unfold doMonitorFiles.
assert (H : ∀ l, l ⊆ levels → forReturn l monitorLevel w' = Done tt w').
{ induction l as [|i l IH]; intros Hl; simpl; [done|].
  rewrite (bind_Done _ _ w' w' false).
  - apply IH. set_solver.
  - apply monitorLevel_nil; [done|]. set_solver. }
by apply H.
Qed.

Lemma doMonitorFiles_after_Close_witness :
Close Scenario.logged0 = Done tt Scenario.closed0
∧ doMonitorFiles Scenario.closed0 = Done tt Scenario.closed0.
Proof.
assert (H : Close Scenario.logged0 = Done tt Scenario.closed0) by (by vm_compute).
split; [exact H|].
exact (doMonitorFiles_after_Close Scenario.logged0 Scenario.closed0 H).
Defined.

(** X3: a rotation tick that fires after [Close] has returned, with
    rotation on and the hour bucket after [lastRotateTime], reads
    [s.writer[levelMin].filePath] through the nil slot and panics: nothing
    is renamed or removed. *)
Theorem doRotateByHour_after_Close_panics (w w' : World) :
Close w = Done tt w' →
rotateByHour (fb w') = true →
lastRotateTime (fb w') < Unix (truncateToHour (now (sys w'))) →
doRotateByHour w' = Panic NilDereference w'.
Proof.
intros [_ Hn]%Close_Done_inv Hr Hlt.
unfold doRotateByHour. rewrite bind_self, Hr. cbn [negb].
rewrite bind_getNowTime, bind_run.
replace (lastRotateTime (fb w') <? Unix (truncateToHour (now (sys w')))) with true
  by (symmetry; by apply Z.ltb_lt).
unfold levels. cbn [forEach]. rewrite bind_run.
unfold rotateLevel. rewrite bind_run.
rewrite (getWriter_lookup Debug w' None);
  [|done|apply Hn; unfold Debug, levelCount; lia].
done.
Qed.

Lemma doRotateByHour_after_Close_panics_witness :
Close Scenario.rotating0 = Done tt Scenario4.rotatingClosed
∧ doRotateByHour Scenario4.rotatingClosed
  = Panic NilDereference Scenario4.rotatingClosed.
Proof.
assert (H : Close Scenario.rotating0 = Done tt Scenario4.rotatingClosed)
  by (by vm_compute).
split; [exact H|].
apply (doRotateByHour_after_Close_panics Scenario.rotating0 Scenario4.rotatingClosed H).
- reflexivity.
- assert (Hl : lastRotateTime (fb Scenario4.rotatingClosed) = 1562720400)
    by (by vm_compute).
  assert (Ht : Unix (truncateToHour (now (sys Scenario4.rotatingClosed))) = 1562724000)
    by (by vm_compute).
  rewrite Hl, Ht. lia.
Defined.

(** X4: [Close] is not idempotent: a second [Close] calls
    [s.writer[0].close()] on the nil slot and panics; the deferred unlock
    runs, so the lock is free and nothing else has changed. *)
Theorem Close_twice_panics (w w' : World) :
Close w = Done tt w' → Close w' = Panic NilDereference w'.
Proof.
intros [Hm Hn]%Close_Done_inv. unfold Close.
rewrite (bind_Done _ _ _ _ _ (Lock_free _ Hm)).
unfold defer, close, levels. cbn [forEach]. rewrite bind_run.
unfold closeLevel. rewrite bind_run.
rewrite (getWriter_lookup Debug _ None);
  [|done|apply Hn; unfold Debug, levelCount; lia].
unfold panic. by rewrite Unlock_held.
Qed.

Lemma Close_twice_panics_witness :
Close Scenario.logged0 = Done tt Scenario.closed0
∧ Close Scenario.closed0 = Panic NilDereference Scenario.closed0.
Proof.
assert (H : Close Scenario.logged0 = Done tt Scenario.closed0) by (by vm_compute).
split; [exact H|].
exact (Close_twice_panics Scenario.logged0 Scenario.closed0 H).
Defined.

End TasksAfterClose.

(** ** Switching rotation on and off *)

Section SwitchingRotation.

(** X5: [SetRotateFile(true, keep)] stores [keep] and seeds
    [lastRotateTime] with the current hour bucket: as long as the clock
    stays in that hour, a rotation tick skips the rename loop and only runs
    the retention sweep. *)
Theorem SetRotateFile_on_seeds_hour (w w1 v : World) (keep : Z) :
SetRotateFile true keep w = Done tt w1 →
fb v = fb w1 →
truncateToHour (now (sys v)) = truncateToHour (now (sys w)) →
rotateByHour (fb w1) = true ∧ keepHours (fb w1) = keep
∧ lastRotateTime (fb w1) = Unix (truncateToHour (now (sys w)))
∧ doRotateByHour v = removeOldFiles v.
Proof.
unfold SetRotateFile. rewrite bind_getNowTime. unfold modify_fb.
intros [= <-] Hv Ht. cbn [fb] in *. repeat split.
unfold doRotateByHour. rewrite bind_self, Hv. cbn [rotateByHour negb].
rewrite bind_getNowTime, bind_run, Ht. cbn [lastRotateTime].
by rewrite Z.ltb_irrefl.
Qed.

Lemma SetRotateFile_on_seeds_hour_witness :
now (sys Scenario4.sameHour) = mkTime 1562723999 0 0
∧ doRotateByHour Scenario4.sameHour = removeOldFiles Scenario4.sameHour.
Proof.
split; [by vm_compute|].
refine (proj2 (proj2 (proj2 (SetRotateFile_on_seeds_hour Scenario.opened0
  (Scenario.final (SetRotateFile true 1 Scenario.opened0)) Scenario4.sameHour 1 _ _ _))));
  by vm_compute.
Defined.

(** X6: [SetRotateFile(false, keep)] switches rotation off, resets
    [lastRotateTime] to 0 and ignores [keep] ([keepHours] stays as it was);
    from then on a rotation tick does nothing at all: no rename and no
    retention sweep either, however old the archives are. *)
Theorem SetRotateFile_off_stops_ticks (w w1 : World) (keep : Z) :
SetRotateFile false keep w = Done tt w1 →
rotateByHour (fb w1) = false ∧ lastRotateTime (fb w1) = 0
∧ keepHours (fb w1) = keepHours (fb w)
∧ sys w1 = sys w
∧ ∀ v, fb v = fb w1 → doRotateByHour v = Done tt v.
Proof.
unfold SetRotateFile, modify_fb. intros [= <-]. cbn [fb sys]. repeat split.
intros v Hv. unfold doRotateByHour. rewrite bind_self, Hv. done.
Qed.

Lemma SetRotateFile_off_stops_ticks_witness :
rotateByHour (fb Scenario.rotating0) = true
∧ keepHours (fb Scenario4.rotationOff) = 1
∧ doRotateByHour Scenario4.rotationOff = Done tt Scenario4.rotationOff.
Proof.
split; [by vm_compute|]. split; [by vm_compute|].
refine (proj2 (proj2 (proj2 (proj2 (SetRotateFile_off_stops_ticks Scenario.rotating0
  Scenario4.rotationOff 24 _)))) Scenario4.rotationOff eq_refl).
by vm_compute.
Defined.

End SwitchingRotation.

(** ** What the retention sweep may touch *)

Section SweepSafety.

Import strings regexp.

Lemma removeOldFile_keeps_files (s : FileBackend) (name : string) (w w' : World) :
removeOldFile s name w = Done tt w' →
inodes (sys w') = inodes (sys w) ∧ handles (sys w') = handles (sys w).
Proof.
unfold removeOldFile.
destruct (String.eqb _ _); [|by intros [= <-]].
intros H. apply bind_Done_inv in H as (del & w1 & Hd & H).
assert (H1 : inodes (sys w1) = inodes (sys w) ∧ handles (sys w1) = handles (sys w)).
{ revert Hd. unfold shouldDelete.
  destruct (Split name "." !! 2%nat) as [suffix|]; [|done].
  destruct (Parse_2006010215 suffix) as [t|].
  - rewrite bind_getNowTime. by destruct (negb _); intros [= _ <-].
  - rewrite bind_run, fprintf_run. by intros [= _ <-]. }
destruct H1 as [<- <-].
destruct del; [|by injection H as <-].
apply bind_Done_inv in H as (e & w2 & H2 & H).
rewrite syscall_run in H2. injection H2 as _ <-.
assert (H2 : inodes (Remove (Join (dir s) name) (sys w1)).2 = inodes (sys w1)
             ∧ handles (Remove (Join (dir s) name) (sys w1)).2 = handles (sys w1)).
{ unfold Remove. case_decide; [done|]. by destruct (names (sys w1) !! _). }
destruct H2 as [<- <-].
by destruct e; [rewrite fprintf_run in H|]; injection H as <-.
Qed.

Lemma active_name_not_archive (l : Level) :
l ∈ levels → isArchiveName (levelName l +:+ logFileSuffix) = false.
Proof.
unfold levels. rewrite !elem_of_cons, elem_of_nil.
intros [-> | [-> | [-> | [-> | [-> | []]]]]]; by vm_compute.
Qed.

(** X7: the retention sweep never panics, whatever the directory holds;
    it changes no field of the backend, no file's bytes and no handle; and
    the only names it can remove are entries of the log directory whose name
    matches the archive pattern: every other path, the five active files
    [<LEVEL>.log] among them, names the same file afterwards. *)
Theorem removeOldFiles_only_removes_archives (w : World) :
∃ w', removeOldFiles w = Done tt w'
      ∧ fb w' = fb w
      ∧ inodes (sys w') = inodes (sys w) ∧ handles (sys w') = handles (sys w)
      ∧ (∀ p, (∀ name, isArchiveName name = true → p ≠ Join (dir (fb w)) name) →
              names (sys w') !! p = names (sys w) !! p)
      ∧ (∀ l, l ∈ levels →
              names (sys w') !! Join (dir (fb w)) (levelName l +:+ logFileSuffix)
              = names (sys w) !! Join (dir (fb w)) (levelName l +:+ logFileSuffix)).
Proof.
assert (Hmain : ∃ w', removeOldFiles w = Done tt w'
      ∧ fb w' = fb w
      ∧ inodes (sys w') = inodes (sys w) ∧ handles (sys w') = handles (sys w)
      ∧ (∀ p, (∀ name, isArchiveName name = true → p ≠ Join (dir (fb w)) name) →
              names (sys w') !! p = names (sys w) !! p)).
{ unfold removeOldFiles. rewrite bind_self.
  destruct (_ <=? _); [by exists w|].
  rewrite bind_run, syscall_run. cbn [fst snd].
  destruct (ReadDir _ _) as [files|] eqn:Hr; [|rewrite fprintf_run; by eexists].
  destruct (sweep_loop_spec (fb w) files (sys w) (mkWorld (fb w) (sys w)))
    as (w' & H & [Hfb _] & _ & Hn); [|done|done|].
  { apply Forall_forall. intros n Hn. by apply (ReadDir_elem _ _ _ _ Hr) in Hn as [? _]. }
  assert (Hfiles : inodes (sys w') = inodes (sys w) ∧ handles (sys w') = handles (sys w)).
  { revert H. apply (forEach_invariant
      (λ v, inodes (sys v) = inodes (sys w) ∧ handles (sys v) = handles (sys w)));
      [|done].
    intros n v v' _ [<- <-] Hstep. by apply removeOldFile_keeps_files in Hstep. }
  destruct Hfiles as [Hfi Hfh].
  exists w'. split; [done|]. split; [done|]. split; [done|]. split; [done|].
  intros p Hp. rewrite Hn. cbn [sys].
  replace (existsb _ files) with false; [done|]. symmetry.
  apply not_true_is_false. intros (n & _ & Hn')%existsb_exists.
  apply andb_true_iff in Hn' as [Hrem Heq].
  apply bool_decide_eq_true_1 in Heq.
  unfold sweep_removes in Hrem.
  apply andb_true_iff in Hrem as [[Ha _]%andb_true_iff _].
  by apply (Hp n Ha). }
destruct Hmain as (w' & Hrun & Hfb & Hi & Hh & Hn).
exists w'. repeat split; try done.
intros l Hl. apply Hn. intros name Ha Heq%Join_inj.
rewrite <- Heq, active_name_not_archive in Ha; done.
Qed.

End SweepSafety.

(** ** The grammar of archive names *)

Section ArchiveGrammar.

Import strings regexp.

Lemma rep_match_Digit_complete (cs : list ascii) (rest : string) :
Forall (λ c, isDigit c = true) cs →
In rest (rep_match (length cs) (match_at Digit) (string_of_list_ascii cs +:+ rest)).
Proof.
induction 1 as [|c cs Hc _ IH]; simpl; [by left|].
rewrite Hc. simpl. rewrite app_nil_r. exact IH.
Qed.

Lemma prefix_n_all (s : string) : prefix_n (String.length s) s = s.
Proof. induction s as [|c s IH]; simpl; [done|by rewrite IH]. Qed.

Lemma level_names_prefix_free (l l' : Level) (a b : string) :
l ∈ levels → l' ∈ levels →
levelName l +:+ ".log.20" +:+ a = levelName l' +:+ ".log.20" +:+ b →
a = b.
Proof.
intros Hl Hl' H.
destruct (archive_name_cases l Hl) as [E | [E | [E | [E | E]]]];
destruct (archive_name_cases l' Hl') as [E' | [E' | [E' | [E' | E']]]];
  rewrite E, E' in H; simpl in H; congruence.
Qed.

Lemma string_of_list_ascii_app_inv (cs cs' : list ascii) (rest : string) :
length cs = length cs' →
string_of_list_ascii cs' +:+ rest = string_of_list_ascii cs → rest = "".
Proof.
intros Hlen H. apply (f_equal String.length) in H.
rewrite append_length, !string_of_list_ascii_length in H.
apply length_zero_empty. lia.
Qed.

(** Every name of the shape [<LEVEL>.log.20dddddddd] passes the test of
    the removal loop. *)
Lemma isArchiveName_of_shape (l : Level) (cs : list ascii) :
l ∈ levels → length cs = 8%nat → Forall (λ c, isDigit c = true) cs →
isArchiveName (levelName l +:+ ".log.20" +:+ string_of_list_ascii cs) = true.
Proof.
intros Hl Hlen Hd.
set (name := levelName l +:+ ".log.20" +:+ string_of_list_ascii cs).
assert (Hne : name ≠ "").
{ unfold name. destruct (archive_name_cases l Hl) as [E | [E | [E | [E | E]]]];
    by rewrite E. }
assert (Hin : In "" (match_at rotatedFilenamePattern name)).
{ unfold rotatedFilenamePattern.
  change (match_at (Seq ?a ?b) name) with (flat_map (match_at b) (match_at a name)).
  apply in_flat_map. exists (".log.20" +:+ string_of_list_ascii cs). split.
  - change (levelName <$> levels) with ["DEBUG"; "INFO"; "WARNING"; "ERROR"; "FATAL"].
    unfold alternation. cbn [foldr].
    rewrite !match_at_Alt, !in_app_iff, !match_at_Lit. unfold name.
    destruct (archive_name_cases l Hl) as [E | [E | [E | [E | E]]]]; rewrite E; tauto.
  - change (match_at (Seq ?a ?b) ?s) with (flat_map (match_at b) (match_at a s)).
    apply in_flat_map. exists (string_of_list_ascii cs). split.
    + by apply match_at_Lit.
    + change (match_at (Rep 8 Digit) ?s) with (rep_match 8 (match_at Digit) s).
      rewrite <- Hlen, <- (append_nil_r (string_of_list_ascii cs)).
      by apply rep_match_Digit_complete. }
unfold isArchiveName. apply andb_true_iff. split.
- by apply negb_true_iff, String.eqb_neq.
- apply String.eqb_eq. unfold FindString.
  destruct name as [|c0 name0] eqn:Ename; [done|]. rewrite <- Ename in *.
  assert (Hfind : find_at rotatedFilenamePattern name = Some name).
  { rewrite Ename. cbn [find_at]. rewrite <- Ename.
    destruct (match_at rotatedFilenamePattern name) as [|r0 rs] eqn:Em; [done|].
    assert (Hr0 : In r0 (match_at rotatedFilenamePattern name))
      by (rewrite Em; by left).
    apply pattern_match_at in Hr0 as (l' & cs' & Hl' & Hlen' & Hd' & Heq).
    unfold name in Heq at 1.
    apply level_names_prefix_free in Heq; [|done..].
    symmetry in Heq. apply string_of_list_ascii_app_inv in Heq; [|congruence].
    subst r0. cbn [String.length]. rewrite Nat.sub_0_r.
    by rewrite prefix_n_all. }
  by rewrite Hfind.
Qed.


(** X8: the test the removal loop applies to a directory entry,
    [file.Name() == pattern.FindString(file.Name())], holds exactly for the
    names [<LEVEL>.log.20dddddddd]: one of the five level names, [".log."],
    and ten digits that start with [20].  A longer or shorter suffix, a
    prefix before the level or a year outside 2000-2099 fails it, and the
    sweep leaves such an entry alone. *)
Theorem isArchiveName_iff (name : string) :
isArchiveName name = true
↔ ∃ l cs, l ∈ levels ∧ length cs = 8%nat ∧ Forall (λ c, isDigit c = true) cs
          ∧ name = levelName l +:+ ".log.20" +:+ string_of_list_ascii cs.
Proof.
split; [apply isArchiveName_shape|].
intros (l & cs & Hl & Hlen & Hd & ->). by apply isArchiveName_of_shape.
Qed.

End ArchiveGrammar.

(** ** The open backend is kept *)

Section OpenedKept.

Lemma live_lookup (l : list (option syncBufio)) (i : nat) (sb : syncBufio) :
Forall is_Some l → l !! i = Some (Some sb) ↔ omap id l !! i = Some sb.
Proof.
intros Hall. rewrite (all_Some_live _ Hall) at 1. rewrite list_lookup_fmap.
destruct (omap id l !! i); simpl; naive_solver.
Qed.

Lemma live_length (l : list (option syncBufio)) :
Forall is_Some l → length (omap id l) = length l.
Proof. intros Hall. rewrite (all_Some_live _ Hall) at 2. by rewrite length_fmap. Qed.

(** Writers replaced slot by slot, each by one on the same handle and path
    and in working order, keep the backend open. *)
Lemma opened_preserved (w w' : World) :
opened w → mutex (fb w') = false →
length (writers (fb w')) = length (writers (fb w)) →
(∀ (k : nat) sb, writers (fb w) !! k = Some (Some sb) →
   ∃ sb', writers (fb w') !! k = Some (Some sb')
          ∧ file sb' = file sb ∧ filePath sb' = filePath sb
          ∧ writer_ok (sys w') sb') →
(∀ h, file_of h (sys w') = file_of h (sys w)) →
opened w'.
Proof.
intros Hop Hm Hlen Hslots Hfiles.
pose proof Hop as (_ & Hlen0 & Hall & Hok & Hpaths & Hinos).
assert (Hall' : Forall is_Some (writers (fb w'))).
{ apply Forall_lookup. intros k x Hk.
  destruct (opened_slot w k Hop) as (sb & Hsb & _).
  { apply lookup_lt_Some in Hk. lia. }
  destruct (Hslots k sb Hsb) as (sb' & Hsb' & _). rewrite Hsb' in Hk.
  injection Hk as <-. by eexists. }
assert (HR : Forall2 (λ sb sb', file sb' = file sb ∧ filePath sb' = filePath sb
                                ∧ writer_ok (sys w') sb')
               (live (fb w)) (live (fb w'))).
{ apply Forall2_same_length_lookup_2.
  - unfold live. rewrite !live_length by done. done.
  - intros k x y Hx%(live_lookup _ _ _ Hall) Hy%(live_lookup _ _ _ Hall').
    destruct (Hslots k x Hx) as (sb' & Hsb' & ?). congruence. }
split; [done|]. split; [congruence|]. split; [done|]. split; [|split].
- apply Forall_lookup. intros k y Hy.
  destruct (Forall2_lookup_r _ _ _ _ _ HR Hy) as (x & _ & _ & _ & ?). done.
- replace (filePath <$> live (fb w')) with (filePath <$> live (fb w)); [done|].
  apply list_eq_Forall2, Forall2_fmap.
  eapply Forall2_impl; [exact HR|]. by intros x y (_ & -> & _).
- replace ((λ sb, file_of (file sb) (sys w')) <$> live (fb w'))
    with ((λ sb, file_of (file sb) (sys w)) <$> live (fb w)); [done|].
  apply list_eq_Forall2, Forall2_fmap.
  eapply Forall2_impl; [exact HR|]. intros x y (-> & _ & _). by rewrite Hfiles.
Qed.

Lemma Flush_open (w : World) :
opened w →
∃ w', Flush w = Done tt w'
      ∧ same_but_writers (fb w) (fb w') ∧ same_but_files (sys w) (sys w')
      ∧ healthy w'
      ∧ ∀ (k : nat) sb ino nd,
          writers (fb w) !! k = Some (Some sb) →
          file_of (file sb) (sys w) = Some ino → inodes (sys w) !! ino = Some nd →
          writers (fb w') !! k = Some (Some (emptied sb))
          ∧ inodes (sys w') !! ino
            = Some (mkInode (content nd ++ bufio.buf (writer sb))
                      (content nd ++ bufio.buf (writer sb))).
Proof.
intros Hop. pose proof Hop as (Hm & Hlen & _).
pose proof (opened_healthy w Hop) as Hh.
destruct (flush_loop levels (Scenario.held w) (healthy_held w Hh) NoDup_levels)
  as (w3 & Hflush & Hsw & Hsf & Hh3 & Hspec).
{ intros i Hi%elem_of_levels. split; [lia|].
  destruct (opened_slot w (Z.to_nat i) Hop) as (sb & Hsb & _); [unfold levelCount; lia|].
  by eexists. }
exists (mkWorld (set_mutex false (fb w3)) (sys w3)). split.
{ unfold Flush. rewrite (bind_Done _ _ _ _ _ (Lock_free _ Hm)).
  assert (Hf : flush (Scenario.held w) = Done tt w3) by exact Hflush.
  unfold defer.
  change (mkWorld (set_mutex true (fb w)) (sys w)) with (Scenario.held w).
  rewrite Hf. unfold Unlock.
  destruct Hsw as (-> & _). done. }
split.
{ destruct Hsw as (_ & ? & ? & ? & ? & ? & ?). by repeat split. }
split; [done|]. split; [done|].
intros k sb ino nd Hk Hf Hn. cbn [fb sys set_mutex writers].
specialize (Hspec k sb ino nd Hk Hf Hn).
rewrite decide_True in Hspec by (by eapply opened_slot_index). done.
Qed.

(** X9: [Flush] on an open backend returns with every slot's buffer
    empty and its pending bytes appended to the slot's file and durable;
    no name, handle or diagnostic changes, and the backend is still open. *)
Theorem Flush_makes_pending_durable (w : World) :
opened w →
∃ w', Flush w = Done tt w' ∧ opened w'
      ∧ names (sys w') = names (sys w) ∧ handles (sys w') = handles (sys w)
      ∧ stderr (sys w') = stderr (sys w)
      ∧ ∀ (k : nat) sb ino data,
          writers (fb w) !! k = Some (Some sb) →
          file_of (file sb) (sys w) = Some ino →
          file_content ino (sys w) = Some data →
          writers (fb w') !! k = Some (Some (emptied sb))
          ∧ file_content ino (sys w') = Some (data ++ bufio.buf (writer sb))
          ∧ file_durable ino (sys w') = Some (data ++ bufio.buf (writer sb)).
Proof.
intros Hop.
destruct (Flush_open w Hop) as (w' & Hrun & Hsw & Hsf & Hh' & Hspec).
pose proof (opened_healthy w Hop) as Hh.
exists w'. split; [done|]. split; [|split; [apply Hsf|split; [apply Hsf|split; [apply Hsf|]]]].
- apply (opened_preserved w w' Hop).
  + destruct Hsw as (-> & _). apply Hop.
  + apply Hsw.
  + intros k sb Hk.
    pose proof (proj1 Hh _ _ Hk) as (_ & _ & [ino Hf] & _).
    pose proof (file_of_Some _ _ _ Hf) as [_ Hlt].
    destruct (lookup_lt_is_Some_2 (inodes (sys w)) ino Hlt) as [nd Hn].
    destruct (Hspec k sb ino nd Hk Hf Hn) as [Hk' _].
    exists (emptied sb). split; [done|]. split; [done|]. split; [done|].
    by apply (proj1 Hh' _ _ Hk').
  + intros h. by apply same_but_files_file_of.
- intros k sb ino data Hk Hf Hc. unfold file_content in Hc.
  destruct (inodes (sys w) !! ino) as [nd|] eqn:Hn; [|done]. injection Hc as <-.
  destruct (Hspec k sb ino nd Hk Hf Hn) as [Hk' Hino].
  split; [done|]. unfold file_content, file_durable. by rewrite Hino.
Qed.

Lemma Flush_makes_pending_durable_witness :
opened Scenario.logged0
∧ ∃ w', Flush Scenario.logged0 = Done tt w' ∧ opened w'
        ∧ file_durable 1 (sys w') = Some Scenario.msg.
Proof.
assert (Hop : opened Scenario.logged0) by (apply (bool_decide_unpack _); by vm_compute).
split; [exact Hop|].
destruct (Flush_makes_pending_durable Scenario.logged0 Hop)
  as (w' & Hrun & Hop' & _ & _ & _ & Hspec).
exists w'. split; [exact Hrun|]. split; [exact Hop'|].
refine (proj2 (proj2 (Hspec 1%nat
  (mkSyncBufio (bufio.mkWriter Scenario.msg None 1 defaultBufferSize) 1 19
     "log/INFO.log") 1%nat [] _ _ _))); by vm_compute.
Defined.


End OpenedKept.
(** ** [Log] on an open backend *)

Section LogOpen.

Lemma writer_at_Some (k : nat) (w : World) (sb : syncBufio) :
writer_at k w = Some sb ↔ writers (fb w) !! k = Some (Some sb).
Proof. unfold writer_at. destruct (writers (fb w) !! k) as [[x|]|]; simpl; naive_solver. Qed.

Lemma logged_Some (k : nat) (w : World) (sb : syncBufio) (ino : nat) (nd : inode) :
writers (fb w) !! k = Some (Some sb) → file_of (file sb) (sys w) = Some ino →
inodes (sys w) !! ino = Some nd →
logged k w = Some (content nd ++ bufio.buf (writer sb)).
Proof.
intros Hk Hf Hn. unfold logged. rewrite (proj2 (writer_at_Some k w sb) Hk). simpl.
rewrite Hf. simpl. unfold file_content. by rewrite Hn.
Qed.

Lemma healthy_file (w : World) (k : nat) (sb : syncBufio) :
healthy w → writers (fb w) !! k = Some (Some sb) →
∃ ino nd, file_of (file sb) (sys w) = Some ino ∧ inodes (sys w) !! ino = Some nd.
Proof.
intros Hh Hk. pose proof (proj1 Hh _ _ Hk) as (_ & _ & [ino Hf] & _).
pose proof (file_of_Some _ _ _ Hf) as [_ Hlt].
destruct (lookup_lt_is_Some_2 (inodes (sys w)) ino Hlt) as [nd Hn]. eauto.
Qed.

(** [Log] at a valid level on an open backend, slot by slot: the writer
    stays on its handle and path, and the bytes of its file followed by
    those of its buffer are the ones before, followed by the message for the
    slot of the level. *)
Lemma Log_open (w : World) (level : Level) (message : list byte) :
opened w → 0 <= level <= 4 →
∃ w', Log level message w = Done tt w'
      ∧ same_but_writers (fb w) (fb w') ∧ same_but_files (sys w) (sys w')
      ∧ healthy w'
      ∧ ∀ (k : nat) sb ino nd,
          writers (fb w) !! k = Some (Some sb) →
          file_of (file sb) (sys w) = Some ino → inodes (sys w) !! ino = Some nd →
          ∃ sb' nd', writers (fb w') !! k = Some (Some sb')
                     ∧ file sb' = file sb ∧ filePath sb' = filePath sb
                     ∧ inodes (sys w') !! ino = Some nd'
                     ∧ content nd' ++ bufio.buf (writer sb')
                       = content nd ++ bufio.buf (writer sb)
                         ++ (if decide (k = Z.to_nat level) then message else []).
Proof.
intros Hop Hl. pose proof Hop as (Hm & Hlen & _).
pose proof (opened_healthy w Hop) as Hh.
destruct (opened_slot w (Z.to_nat level) Hop) as (sb0 & Hs0 & Hok0);
  [unfold levelCount; lia|].
destruct (healthy_file w _ sb0 Hh Hs0) as (ino0 & nd0 & Hf0 & Hn0).
destruct (logWrite_open level message (Scenario.held w) sb0 ino0)
  as (q & sb0' & Hwrite & Hok0' & Hfile0 & Hpath0 & Hq & _ & _); [done..|].
set (w2 := mkWorld (set_writers (<[Z.to_nat level := Some sb0']>) (fb (Scenario.held w)))
             (appended ino0 q (sys (Scenario.held w)))) in *.
assert (Hsame2 : same_but_files (sys w) (sys w2)) by apply same_but_files_appended.
assert (Hh2 : healthy w2).
{ apply (healthy_update (Scenario.held w) _ sb0);
    done || apply same_but_files_appended. }
assert (Hm2 : mutex (fb w2) = true) by done.
assert (Hsw2 : same_but_writers (fb (Scenario.held w)) (fb w2))
  by apply same_but_writers_insert.
assert (Hspec2 : ∀ (k : nat) sb ino nd,
          writers (fb w) !! k = Some (Some sb) →
          file_of (file sb) (sys w) = Some ino → inodes (sys w) !! ino = Some nd →
          ∃ sb' nd', writers (fb w2) !! k = Some (Some sb')
                     ∧ file sb' = file sb ∧ filePath sb' = filePath sb
                     ∧ inodes (sys w2) !! ino = Some nd'
                     ∧ content nd' ++ bufio.buf (writer sb')
                       = content nd ++ bufio.buf (writer sb)
                         ++ (if decide (k = Z.to_nat level) then message else [])).
{ intros k sb ino nd Hk Hf Hn. cbn [w2 fb sys set_writers writers].
  destruct (decide (k = Z.to_nat level)) as [->|Hne].
  - assert (sb = sb0) as -> by congruence.
    assert (ino = ino0) as -> by congruence.
    assert (nd = nd0) as -> by congruence.
    exists sb0', (mkInode (content nd0 ++ q) (durable nd0)).
    split; [apply list_lookup_insert_eq; by eapply lookup_lt_Some|].
    split; [done|]. split; [done|]. split.
    + simpl. by rewrite list_lookup_alter_eq, Hn0.
    + simpl. by rewrite <- app_assoc, Hq.
  - exists sb, nd. split; [by rewrite list_lookup_insert_ne|].
    split; [done|]. split; [done|]. split; [|by rewrite app_nil_r].
    simpl. rewrite list_lookup_alter_ne; [done|].
    intros ->. apply (proj2 Hh _ _ _ _ Hs0 Hk); [done|congruence]. }
assert (Hbody : ∃ w3,
          (logWrite level message;; if level =? Fatal then flush else mret tt)
            (Scenario.held w) = Done tt w3
          ∧ same_but_writers (fb w2) (fb w3) ∧ same_but_files (sys w2) (sys w3)
          ∧ healthy w3
          ∧ ∀ (k : nat) sb ino nd,
              writers (fb w2) !! k = Some (Some sb) →
              file_of (file sb) (sys w2) = Some ino → inodes (sys w2) !! ino = Some nd →
              ∃ sb' nd', writers (fb w3) !! k = Some (Some sb')
                         ∧ file sb' = file sb ∧ filePath sb' = filePath sb
                         ∧ inodes (sys w3) !! ino = Some nd'
                         ∧ content nd' ++ bufio.buf (writer sb')
                           = content nd ++ bufio.buf (writer sb)).
{ rewrite (bind_Done _ _ _ _ _ Hwrite). fold w2.
  destruct (decide (level = Fatal)) as [->|Hne].
  - change (Fatal =? Fatal) with true. cbv iota.
    destruct (flush_loop levels w2 Hh2 NoDup_levels)
      as (w3 & Hflush & Hsw & Hsf & Hh3 & Hspec).
    { intros i Hi%elem_of_levels. split; [lia|].
      destruct (opened_slot w (Z.to_nat i) Hop) as (sb & Hsb & _);
        [unfold levelCount; lia|].
      destruct (healthy_file w _ sb Hh Hsb) as (ino & nd & Hf & Hn).
      destruct (Hspec2 _ sb ino nd Hsb Hf Hn) as (sb' & _ & Hsb' & _). by eexists. }
    exists w3. split; [exact Hflush|]. split; [done|]. split; [done|]. split; [done|].
    intros k sb ino nd Hk Hf Hn.
    specialize (Hspec k sb ino nd Hk Hf Hn).
    rewrite decide_True in Hspec.
    + destruct Hspec as [Hk' Hn']. eexists (emptied sb), _.
      split; [done|]. split; [done|]. split; [done|]. split; [exact Hn'|].
      simpl. by rewrite app_nil_r.
    + apply elem_of_levels. apply lookup_lt_Some in Hk.
      destruct Hsw2 as (_ & _ & _ & _ & _ & _ & Hl2). rewrite Hl2 in Hk.
      cbn [Scenario.held fb set_mutex writers] in Hk. unfold levelCount in Hlen. lia.
  - replace (level =? Fatal) with false by (symmetry; by apply Z.eqb_neq).
    exists w2. split; [done|]. split; [apply same_but_writers_refl|].
    split; [apply same_but_files_refl|]. split; [done|].
    intros k sb ino nd Hk Hf Hn. exists sb, nd. by repeat split. }
destruct Hbody as (w3 & Hbody & Hsw3 & Hsf3 & Hh3 & Hspec3).
assert (Hm3 : mutex (fb w3) = true) by (by destruct Hsw3 as (-> & _)).
exists (mkWorld (set_mutex false (fb w3)) (sys w3)).
split; [by apply Log_run|].
split.
{ destruct Hsw3 as (_ & ? & ? & ? & ? & ? & ?).
  destruct Hsw2 as (_ & ? & ? & ? & ? & ? & ?).
  unfold same_but_writers. cbn [set_mutex mutex dir flushInterval rotateByHour
    lastRotateTime keepHours writers fb].
  cbn [Scenario.held fb set_mutex mutex dir flushInterval rotateByHour
    lastRotateTime keepHours writers] in *.
  repeat split; congruence. }
split; [by eapply same_but_files_trans|]. split; [done|].
intros k sb ino nd Hk Hf Hn.
destruct (Hspec2 k sb ino nd Hk Hf Hn) as (sb2 & nd2 & Hk2 & Hfile2 & Hpath2 & Hn2 & Hb2).
destruct (Hspec3 k sb2 ino nd2 Hk2) as (sb3 & nd3 & Hk3 & Hfile3 & Hpath3 & Hn3 & Hb3);
  [by rewrite Hfile2, (same_but_files_file_of _ _ _ Hsame2)|done|].
exists sb3, nd3. cbn [fb sys set_mutex writers].
split; [done|]. split; [congruence|]. split; [congruence|]. split; [done|]. congruence.
Qed.

(** X10: [Log] at a valid level on an open backend, whatever the size
    of the message, returns and leaves the backend open; no name, handle or
    diagnostic changes; the bytes of the level (its file followed by its
    buffer) are the ones before followed by the message, and the bytes of
    every other level are the ones before. *)
Theorem Log_appends_to_its_level (w : World) (level : Level) (message : list byte) :
opened w → levelMin <= level <= levelMax →
∃ w', Log level message w = Done tt w' ∧ opened w'
      ∧ names (sys w') = names (sys w) ∧ handles (sys w') = handles (sys w)
      ∧ stderr (sys w') = stderr (sys w)
      ∧ ∀ k : nat,
          logged k w' = if decide (k = Z.to_nat level)
                        then (λ data, data ++ message) <$> logged k w
                        else logged k w.
Proof.
intros Hop Hl. unfold levelMin, levelMax, Debug, Fatal in Hl.
pose proof (opened_healthy w Hop) as Hh.
destruct (Log_open w level message Hop Hl) as (w' & Hrun & Hsw & Hsf & Hh' & Hspec).
exists w'. split; [done|].
split; [|split; [apply Hsf|split; [apply Hsf|split; [apply Hsf|]]]].
- apply (opened_preserved w w' Hop).
  + destruct Hsw as (-> & _). apply Hop.
  + apply Hsw.
  + intros k sb Hk.
    destruct (healthy_file w k sb Hh Hk) as (ino & nd & Hf & Hn).
    destruct (Hspec k sb ino nd Hk Hf Hn) as (sb' & nd' & Hk' & Hfile & Hpath & _).
    exists sb'. split; [done|]. split; [done|]. split; [done|].
    by apply (proj1 Hh' _ _ Hk').
  + intros h. by apply same_but_files_file_of.
- intros k. destruct (writers (fb w) !! k) as [[sb|]|] eqn:Hk.
  + destruct (healthy_file w k sb Hh Hk) as (ino & nd & Hf & Hn).
    destruct (Hspec k sb ino nd Hk Hf Hn) as (sb' & nd' & Hk' & Hfile & Hpath & Hn' & Hb).
    rewrite (logged_Some k w sb ino nd Hk Hf Hn).
    rewrite (logged_Some k w' sb' ino nd' Hk');
      [|by rewrite Hfile, (same_but_files_file_of _ _ _ Hsf)|done].
    rewrite Hb. destruct (decide (k = Z.to_nat level)); simpl.
    * by rewrite app_assoc.
    * by rewrite app_nil_r.
  + pose proof Hop as (_ & _ & Hall & _).
    by pose proof (Forall_lookup_1 _ _ _ _ Hall Hk) as [? ?].
  + assert (Hk' : writers (fb w') !! k = None).
    { apply lookup_ge_None. apply lookup_ge_None in Hk.
      destruct Hsw as (_ & _ & _ & _ & _ & _ & ->). done. }
    unfold logged, writer_at. rewrite Hk, Hk'. simpl. by destruct (decide _).
Qed.

Lemma Log_appends_to_its_level_witness :
opened Scenario.opened0 ∧ levelMin <= Info <= levelMax
∧ ∃ w', Log Info Scenario3.oversize Scenario.opened0 = Done tt w' ∧ opened w'
        ∧ logged 1 w' = (λ data, data ++ Scenario3.oversize) <$> logged 1 Scenario.opened0
        ∧ logged 4 w' = logged 4 Scenario.opened0.
Proof.
assert (Hop : opened Scenario.opened0) by (apply (bool_decide_unpack _); by vm_compute).
assert (Hl : levelMin <= Info <= levelMax) by (unfold levelMin, levelMax, Debug, Info, Fatal; lia).
split; [exact Hop|]. split; [exact Hl|].
destruct (Log_appends_to_its_level Scenario.opened0 Info Scenario3.oversize Hop Hl)
  as (w' & Hrun & Hop' & _ & _ & _ & Hspec).
exists w'. split; [exact Hrun|]. split; [exact Hop'|].
split; [exact (Hspec 1%nat)|exact (Hspec 4%nat)].
Defined.

End LogOpen.
(** ** [Close] on an open backend *)

Section CloseOpen.

Lemma same_names_refl (o : OS) : same_names o o.
Proof. by repeat split. Qed.

Lemma same_names_trans (o1 o2 o3 : OS) :
same_names o1 o2 → same_names o2 o3 → same_names o1 o3.
Proof. unfold same_names. intros ? ?. destruct_and!. repeat split; congruence. Qed.

Lemma same_but_files_same_names (o o' : OS) : same_but_files o o' → same_names o o'.
Proof. unfold same_but_files, same_names. intros ?. destruct_and!. repeat split; congruence. Qed.

Lemma same_names_closed (h : nat) (o : OS) : same_names o (closed h o).
Proof. repeat split. simpl. apply length_insert. Qed.

Lemma file_of_closed (h : nat) (o : OS) : file_of h (closed h o) = None.
Proof.
unfold file_of, closed. simpl.
destruct (decide (h < length (handles o))%nat).
- by rewrite list_lookup_insert_eq.
- rewrite list_insert_ge by lia. by rewrite lookup_ge_None_2 by lia.
Qed.

Lemma file_of_closed_ne (h h' : nat) (o : OS) :
h ≠ h' → file_of h' (closed h o) = file_of h' o.
Proof. intros Hne. unfold file_of, closed. simpl. by rewrite list_lookup_insert_ne. Qed.

Lemma healthy_handles_ne (w : World) (i j : nat) (sbi sbj : syncBufio) :
healthy w → writers (fb w) !! i = Some (Some sbi) → writers (fb w) !! j = Some (Some sbj) →
i ≠ j → file sbi ≠ file sbj.
Proof.
intros Hh Hi Hj Hne Heq. apply (proj2 Hh _ _ _ _ Hi Hj Hne). by rewrite Heq.
Qed.

Lemma SyncBufio_close_open (sb : syncBufio) (ino : nat) (o : OS) :
writer_ok o sb → file_of (file sb) o = Some ino →
SyncBufio.close sb o
= (None, emptied sb,
   closed (file sb) (synced ino (appended ino (bufio.buf (writer sb)) o))).
Proof.
intros Hok Hf. unfold SyncBufio.close.
rewrite (SyncBufio_flush_open sb ino o Hok Hf).
unfold SyncBufio.sync. cbn [file emptied].
rewrite (os_Sync_open _ ino) by (by rewrite file_of_appended).
unfold os.Close. by rewrite file_of_synced, file_of_appended, Hf.
Qed.

(** One round of the loop of [close] on a writer in working order: its
    pending bytes are appended to its file, the file is made durable, the
    handle is closed and the slot is nil. *)
Lemma closeLevel_open (i : Z) (w : World) (sb : syncBufio) (ino : nat) :
0 <= i → writers (fb w) !! Z.to_nat i = Some (Some sb) →
writer_ok (sys w) sb → file_of (file sb) (sys w) = Some ino →
closeLevel i w
= Done tt (mkWorld (set_writers (<[Z.to_nat i := None]>) (fb w))
             (closed (file sb)
                (synced ino (appended ino (bufio.buf (writer sb)) (sys w))))).
Proof.
intros Hi Hs Hok Hf. unfold closeLevel.
rewrite (bind_Done _ _ _ _ _ (getWriter_lookup i w _ Hi Hs)).
rewrite bind_run, syscall_run, (SyncBufio_close_open sb ino _ Hok Hf). simpl.
rewrite bind_run. cbn [mret M_ret].
rewrite setWriter_in_range; [done|done|by eapply lookup_lt_Some].
Qed.

(** The loop of [close] over the levels [ls]: each of their writers is
    emptied into its file, the file made durable, the handle closed and the
    slot set to nil; the other slots, handles and files are as before. *)
Lemma close_loop (ls : list Z) (w : World) :
healthy w → NoDup ls →
(∀ i, i ∈ ls → 0 <= i ∧ ∃ sb, writers (fb w) !! Z.to_nat i = Some (Some sb)) →
∃ w', forEach ls closeLevel w = Done tt w'
      ∧ same_but_writers (fb w) (fb w') ∧ same_names (sys w) (sys w')
      ∧ (∀ k : nat, Z.of_nat k ∉ ls → writers (fb w') !! k = writers (fb w) !! k)
      ∧ (∀ h : nat,
           (∀ (k : nat) sb, Z.of_nat k ∈ ls → writers (fb w) !! k = Some (Some sb) →
              file sb ≠ h) →
           handles (sys w') !! h = handles (sys w) !! h)
      ∧ (∀ j : nat,
           (∀ (k : nat) sb, Z.of_nat k ∈ ls → writers (fb w) !! k = Some (Some sb) →
              file_of (file sb) (sys w) ≠ Some j) →
           inodes (sys w') !! j = inodes (sys w) !! j)
      ∧ ∀ (k : nat) sb ino nd,
          Z.of_nat k ∈ ls → writers (fb w) !! k = Some (Some sb) →
          file_of (file sb) (sys w) = Some ino → inodes (sys w) !! ino = Some nd →
          writers (fb w') !! k = Some None
          ∧ handles (sys w') !! file sb = Some None
          ∧ inodes (sys w') !! ino
            = Some (mkInode (content nd ++ bufio.buf (writer sb))
                      (content nd ++ bufio.buf (writer sb))).
Proof.
revert w. induction ls as [|i ls IH]; intros w Hh Hnd Hls.
- exists w. cbn [forEach]. split; [done|]. split; [apply same_but_writers_refl|].
  split; [apply same_names_refl|]. split; [done|]. split; [done|]. split; [done|].
  intros k sb ino nd Hk. set_solver.
- apply NoDup_cons in Hnd as [Hi Hnd].
  destruct (Hls i) as (Hi0 & sb & Hsb); [by left|].
  pose proof (proj1 Hh _ _ Hsb) as Hok.
  pose proof Hok as (_ & _ & [ino Hino] & _).
  pose proof (file_of_Some _ _ _ Hino) as [Hhandle Hlt].
  destruct (lookup_lt_is_Some_2 (inodes (sys w)) ino Hlt) as [nd Hnd0].
  set (o1 := synced ino (appended ino (bufio.buf (writer sb)) (sys w))).
  set (w1 := mkWorld (set_writers (<[Z.to_nat i := None]>) (fb w))
               (closed (file sb) o1)).
  assert (Hsame1 : same_but_files (sys w) o1) by apply same_but_files_committed.
  assert (Hslot1 : ∀ k : nat, k ≠ Z.to_nat i →
            writers (fb w1) !! k = writers (fb w) !! k).
  { intros k Hk. simpl. by rewrite list_lookup_insert_ne. }
  assert (Hslot1i : writers (fb w1) !! Z.to_nat i = Some None).
  { simpl. apply list_lookup_insert_eq. by eapply lookup_lt_Some. }
  assert (Hold : ∀ (k : nat) x, writers (fb w1) !! k = Some (Some x) →
            k ≠ Z.to_nat i ∧ writers (fb w) !! k = Some (Some x)).
  { intros k x Hk. destruct (decide (k = Z.to_nat i)) as [->|Hne]; [congruence|].
    split; [done|]. by rewrite <- Hslot1. }
  assert (Hfile1 : ∀ (k : nat) x, writers (fb w1) !! k = Some (Some x) →
            file_of (file x) (sys w1) = file_of (file x) (sys w)).
  { intros k x [Hne Hk]%Hold. unfold w1; cbn [sys].
    rewrite file_of_closed_ne by (by eapply (healthy_handles_ne w _ k)).
    by apply same_but_files_file_of. }
  assert (Hh1 : healthy w1).
  { split.
    - intros k x Hk. pose proof (Hfile1 k x Hk) as Hf.
      apply Hold in Hk as [_ Hk].
      pose proof (proj1 Hh _ _ Hk) as (? & ? & ? & ?).
      repeat split; try done. by rewrite Hf.
    - intros k j x y Hk Hj Hne.
      rewrite (Hfile1 k x Hk), (Hfile1 j y Hj).
      apply Hold in Hk as [_ Hk]. apply Hold in Hj as [_ Hj]. by eapply (proj2 Hh). }
  assert (Hin : ∀ k : nat, Z.of_nat k ∈ ls → k ≠ Z.to_nat i).
  { intros k Hk ->. apply Hi. by rewrite Z2Nat.id in Hk. }
  destruct (IH w1 Hh1 Hnd) as (w' & Hrun & Hsw & Hsn & Hslots & Hhandles & Hinodes & Hspec).
  { intros j Hj. destruct (Hls j) as (Hj0 & sbj & Hsbj); [by right|].
    split; [done|]. exists sbj. rewrite Hslot1; [done|].
    intros Heq. apply Hi. replace i with j by lia. done. }
  exists w'. cbn [forEach].
  rewrite (bind_Done _ _ _ _ _ (closeLevel_open i w sb ino Hi0 Hsb Hok Hino)).
  fold o1 w1.
  assert (Hmem : ∀ k : nat, Z.of_nat k ∈ i :: ls ↔ k = Z.to_nat i ∨ Z.of_nat k ∈ ls).
  { intros k. rewrite elem_of_cons. split; (intros [?|?]; [left; lia|by right]). }
  split; [exact Hrun|].
  split; [eapply same_but_writers_trans; [apply same_but_writers_insert|exact Hsw]|].
  split.
  { eapply same_names_trans; [|exact Hsn].
    eapply same_names_trans; [apply same_but_files_same_names, Hsame1|].
    apply same_names_closed. }
  assert (Hhandle_i : handles (sys w') !! file sb = Some None).
  { rewrite Hhandles.
    - simpl. apply list_lookup_insert_eq. rewrite length_alter || idtac.
      by eapply lookup_lt_Some.
    - intros k x Hk [Hne Hx]%Hold. by eapply (healthy_handles_ne w k (Z.to_nat i)). }
  assert (Hinode_i : inodes (sys w') !! ino
            = Some (mkInode (content nd ++ bufio.buf (writer sb))
                      (content nd ++ bufio.buf (writer sb)))).
  { rewrite Hinodes.
    - by apply committed_lookup.
    - intros k x Hk Hx. rewrite (Hfile1 k x Hx). apply Hold in Hx as [Hne Hx].
      rewrite <- Hino. by eapply (proj2 Hh). }
  split; [|split; [|split]].
  + intros k Hk. rewrite Hmem in Hk. rewrite Hslots by tauto. apply Hslot1. tauto.
  + intros h Hh0. rewrite Hhandles.
    * unfold w1, o1; cbn [sys closed set_handles handles synced appended set_inodes].
      apply list_lookup_insert_ne. eapply (Hh0 (Z.to_nat i)); [|done].
      apply Hmem. by left.
    * intros k x Hk [Hne Hx]%Hold. apply (Hh0 k); [|done]. apply Hmem. by right.
  + intros j Hj. rewrite Hinodes.
    * unfold w1, o1; cbn [sys closed set_handles inodes]. apply committed_lookup_ne.
      intros ->. eapply (Hj (Z.to_nat i)); [|done..]. apply Hmem. by left.
    * intros k x Hk Hx. rewrite (Hfile1 k x Hx). apply Hold in Hx as [Hne Hx].
      apply (Hj k); [|done]. apply Hmem. by right.
  + intros k sbk inok ndk Hk Hsk Hfk Hnk.
    destruct (decide (k = Z.to_nat i)) as [->|Hne].
    * assert (sbk = sb) as -> by congruence.
      assert (inok = ino) as -> by congruence.
      assert (ndk = nd) as -> by congruence.
      split; [|done]. rewrite Hslots; [done|]. by rewrite Z2Nat.id.
    * apply Hmem in Hk as [?|Hk]; [done|].
      assert (Hsk1 : writers (fb w1) !! k = Some (Some sbk)) by (by rewrite Hslot1).
      apply (Hspec k sbk inok ndk Hk Hsk1).
      -- by rewrite (Hfile1 k sbk Hsk1).
      -- unfold w1, o1; cbn [sys closed set_handles inodes]. rewrite committed_lookup_ne; [done|].
         intros ->. apply (proj2 Hh _ _ _ _ Hsk Hsb Hne). congruence.
Qed.

Lemma Close_open (w : World) :
opened w →
∃ w', Close w = Done tt w'
      ∧ same_but_writers (fb w) (fb w') ∧ same_names (sys w) (sys w')
      ∧ ∀ (k : nat) sb ino nd,
          writers (fb w) !! k = Some (Some sb) →
          file_of (file sb) (sys w) = Some ino → inodes (sys w) !! ino = Some nd →
          writers (fb w') !! k = Some None
          ∧ handles (sys w') !! file sb = Some None
          ∧ inodes (sys w') !! ino
            = Some (mkInode (content nd ++ bufio.buf (writer sb))
                      (content nd ++ bufio.buf (writer sb))).
Proof.
intros Hop. pose proof Hop as (Hm & Hlen & _).
pose proof (opened_healthy w Hop) as Hh.
destruct (close_loop levels (Scenario.held w) (healthy_held w Hh) NoDup_levels)
  as (w3 & Hclose & Hsw & Hsn & _ & _ & _ & Hspec).
{ intros i Hi%elem_of_levels. split; [lia|].
  destruct (opened_slot w (Z.to_nat i) Hop) as (sb & Hsb & _); [unfold levelCount; lia|].
  by eexists. }
exists (mkWorld (set_mutex false (fb w3)) (sys w3)). split.
{ unfold Close. rewrite (bind_Done _ _ _ _ _ (Lock_free _ Hm)).
  assert (Hf : close (Scenario.held w) = Done tt w3) by exact Hclose.
  unfold defer.
  change (mkWorld (set_mutex true (fb w)) (sys w)) with (Scenario.held w).
  rewrite Hf. unfold Unlock.
  destruct Hsw as (-> & _). done. }
split.
{ destruct Hsw as (_ & ? & ? & ? & ? & ? & ?). by repeat split. }
split; [done|].
intros k sb ino nd Hk Hf Hn. cbn [fb sys set_mutex writers].
apply (Hspec k sb ino nd); try done. by eapply opened_slot_index.
Qed.

(** X11: [Close] on an open backend returns with the lock free and
    every slot nil; each slot's handle is closed, and its file holds, durably,
    exactly the bytes logged at its level: those it had followed by those
    that were pending in the buffer.  No name and no diagnostic changes. *)
Theorem Close_makes_everything_durable (w : World) :
opened w →
∃ w', Close w = Done tt w' ∧ mutex (fb w') = false ∧ slots_nil (fb w')
      ∧ names (sys w') = names (sys w) ∧ stderr (sys w') = stderr (sys w)
      ∧ ∀ (k : nat) sb ino,
          writers (fb w) !! k = Some (Some sb) →
          file_of (file sb) (sys w) = Some ino →
          file_of (file sb) (sys w') = None
          ∧ file_content ino (sys w') = logged k w
          ∧ file_durable ino (sys w') = logged k w.
Proof.
intros Hop. pose proof (opened_healthy w Hop) as Hh.
destruct (Close_open w Hop) as (w' & Hrun & Hsw & Hsn & Hspec).
exists w'. split; [done|].
split; [destruct Hsw as (-> & _); apply Hop|].
split; [|split; [apply Hsn|split; [apply Hsn|]]].
- intros k Hk. destruct (opened_slot w k Hop Hk) as (sb & Hsb & _).
  destruct (healthy_file w k sb Hh Hsb) as (ino & nd & Hf & Hn).
  by destruct (Hspec k sb ino nd Hsb Hf Hn) as (? & _).
- intros k sb ino Hk Hf.
  destruct (healthy_file w k sb Hh Hk) as (ino' & nd & Hf' & Hn).
  assert (ino' = ino) as -> by congruence.
  destruct (Hspec k sb ino nd Hk Hf Hn) as (_ & Hh' & Hn').
  rewrite (logged_Some k w sb ino nd Hk Hf Hn).
  unfold file_content, file_durable, file_of. by rewrite Hh', Hn'.
Qed.

Lemma Close_makes_everything_durable_witness :
opened Scenario.logged0
∧ ∃ w', Close Scenario.logged0 = Done tt w' ∧ slots_nil (fb w')
        ∧ file_durable 1 (sys w') = Some Scenario.msg.
Proof.
assert (Hop : opened Scenario.logged0) by (apply (bool_decide_unpack _); by vm_compute).
split; [exact Hop|].
destruct (Close_makes_everything_durable Scenario.logged0 Hop)
  as (w' & Hrun & _ & Hnil & _ & _ & Hspec).
exists w'. split; [exact Hrun|]. split; [exact Hnil|].
refine (eq_trans (proj2 (proj2 (Hspec 1%nat
  (mkSyncBufio (bufio.mkWriter Scenario.msg None 1 defaultBufferSize) 1 19
     "log/INFO.log") 1%nat _ _))) _); by vm_compute.
Defined.

(** X12: nothing logged is lost across [Close]: after [Log] at a valid
    level and then [Close] on an open backend, the file of the level holds,
    durably, the bytes logged at the level before followed by the message
    (however long it is), and the file of every other level holds the bytes
    logged at that level. *)
Theorem Log_then_Close_keeps_every_byte (w : World) (level : Level)
  (message : list byte) :
opened w → levelMin <= level <= levelMax →
∃ w1 w2, Log level message w = Done tt w1 ∧ Close w1 = Done tt w2
         ∧ ∀ (k : nat) sb ino,
             writers (fb w) !! k = Some (Some sb) →
             file_of (file sb) (sys w) = Some ino →
             file_durable ino (sys w2)
             = if decide (k = Z.to_nat level)
               then (λ data, data ++ message) <$> logged k w
               else logged k w.
Proof.
intros Hop Hl. unfold levelMin, levelMax, Debug, Fatal in Hl.
pose proof (opened_healthy w Hop) as Hh.
destruct (Log_open w level message Hop Hl) as (w1 & Hrun & Hsw & Hsf & Hh1 & Hspec).
assert (Hop1 : opened w1).
{ apply (opened_preserved w w1 Hop).
  - destruct Hsw as (-> & _). apply Hop.
  - apply Hsw.
  - intros k sb Hk.
    destruct (healthy_file w k sb Hh Hk) as (ino & nd & Hf & Hn).
    destruct (Hspec k sb ino nd Hk Hf Hn) as (sb' & nd' & Hk' & Hfile & Hpath & _).
    exists sb'. split; [done|]. split; [done|]. split; [done|].
    by apply (proj1 Hh1 _ _ Hk').
  - intros h. by apply same_but_files_file_of. }
destruct (Close_open w1 Hop1) as (w2 & Hrun2 & _ & _ & Hspec2).
exists w1, w2. split; [done|]. split; [done|].
intros k sb ino Hk Hf.
destruct (healthy_file w k sb Hh Hk) as (ino' & nd & Hf' & Hn).
assert (ino' = ino) as -> by congruence.
destruct (Hspec k sb ino nd Hk Hf Hn) as (sb' & nd' & Hk' & Hfile & Hpath & Hn' & Hb).
destruct (Hspec2 k sb' ino nd' Hk') as (_ & _ & Hn2);
  [by rewrite Hfile, (same_but_files_file_of _ _ _ Hsf)|done|].
rewrite (logged_Some k w sb ino nd Hk Hf Hn).
unfold file_durable. rewrite Hn2. simpl. rewrite Hb.
destruct (decide (k = Z.to_nat level)); simpl.
- by rewrite app_assoc.
- by rewrite app_nil_r.
Qed.

Lemma Log_then_Close_keeps_every_byte_witness :
opened Scenario.opened0 ∧ levelMin <= Info <= levelMax
∧ ∃ w1 w2, Log Info Scenario.msg Scenario.opened0 = Done tt w1
           ∧ Close w1 = Done tt w2
           ∧ file_durable 1 (sys w2) = Some Scenario.msg.
Proof.
assert (Hop : opened Scenario.opened0) by (apply (bool_decide_unpack _); by vm_compute).
assert (Hl : levelMin <= Info <= levelMax) by (unfold levelMin, levelMax, Debug, Info, Fatal; lia).
split; [exact Hop|]. split; [exact Hl|].
destruct (Log_then_Close_keeps_every_byte Scenario.opened0 Info Scenario.msg Hop Hl)
  as (w1 & w2 & Hrun1 & Hrun2 & Hspec).
exists w1, w2. split; [exact Hrun1|]. split; [exact Hrun2|].
refine (eq_trans (Hspec 1%nat
  (mkSyncBufio (bufio.mkWriter [] None 1 defaultBufferSize) 1 0 "log/INFO.log")
  1%nat _ _) _); by vm_compute.
Defined.

End CloseOpen.

(** ** [Join] on clean paths is [path.Join] *)

Section CleanPaths.

Import strings.

Lemma Split_nonempty (s : string) (c : ascii) : Split s c ≠ [].
Proof.
destruct s as [|x s]; [done|]. cbn [Split].
destruct (Ascii.eqb x c); [done|]. by destruct (Split s c).
Qed.

Lemma Split_no_sep (s : string) (c : ascii) :
ContainsByte s c = false → Split s c = [s].
Proof.
induction s as [|x s IH]; [done|]. cbn [ContainsByte Split].
intros [Hx Hs]%orb_false_iff. rewrite Hx, (IH Hs). done.
Qed.

Lemma Split_app (a b : string) (c : ascii) :
Split (a +:+ String c b) c = Split a c ++ Split b c.
Proof.
induction a as [|x a IH].
- cbn [String.append Split]. by rewrite Ascii.eqb_refl.
- change (String x a +:+ String c b) with (String x (a +:+ String c b)).
  cbn [Split]. rewrite IH. destruct (Ascii.eqb x c); [done|].
  pose proof (Split_nonempty a c). by destruct (Split a c).
Qed.

Lemma join_elems_cons (x : ascii) (h : string) (t : list string) :
path.join_elems (String x h :: t) = String x (path.join_elems (h :: t)).
Proof. by destruct t. Qed.

Lemma join_elems_Split (s : string) : path.join_elems (Split s "/") = s.
Proof.
induction s as [|x s IH]; [done|]. cbn [Split].
destruct (Ascii.eqb x "/") eqn:Hx.
- apply Ascii.eqb_eq in Hx as ->.
  pose proof (Split_nonempty s "/"). destruct (Split s "/") as [|h t] eqn:E; [done|].
  change (path.join_elems ("" :: h :: t)) with ("" +:+ "/" +:+ path.join_elems (h :: t)).
  by rewrite IH.
- pose proof (Split_nonempty s "/"). destruct (Split s "/") as [|h t] eqn:E; [done|].
  by rewrite join_elems_cons, IH.
Qed.

Lemma join_elems_snoc (l : list string) (e : string) :
l ≠ [] → path.join_elems (l ++ [e]) = path.join_elems l +:+ "/" +:+ e.
Proof.
induction l as [|a l IH]; [done|]. intros _.
destruct l as [|b l]; [done|].
change (path.join_elems ((a :: b :: l) ++ [e]))
  with (a +:+ "/" +:+ path.join_elems ((b :: l) ++ [e])).
rewrite IH by done.
change (path.join_elems (a :: b :: l)) with (a +:+ "/" +:+ path.join_elems (b :: l)).
by rewrite !append_assoc.
Qed.

Lemma foldl_push_clean (rooted : bool) (l acc : list string) :
Forall clean_elem l → foldl (path.push rooted) acc l = rev l ++ acc.
Proof.
intros Hl. revert acc. induction Hl as [|e l (_ & _ & He) _ IH]; intros acc; [done|].
cbn [foldl]. unfold path.push at 2.
apply String.eqb_neq in He. rewrite He, IH. simpl. by rewrite <- app_assoc.
Qed.

Lemma filter_clean (l : list string) :
Forall clean_elem l → filter (λ e, e ≠ "" ∧ e ≠ ".") l = l.
Proof.
induction 1 as [|e l (? & ? & _) _ IH]; [done|].
rewrite filter_cons_True by done. by rewrite IH.
Qed.

(** The cleaned elements of a path whose elements are all clean. *)
Lemma Clean_elems (rooted : bool) (l : list string) :
Forall clean_elem l →
rev (foldl (path.push rooted) [] (filter (λ e, e ≠ "" ∧ e ≠ ".") l)) = l.
Proof.
intros Hl. rewrite (filter_clean l Hl), (foldl_push_clean rooted l [] Hl).
by rewrite app_nil_r, rev_involutive.
Qed.

(** On a clean directory path and a plain name, [path.Join] has nothing to
    clean: it is [Join]. *)
Lemma path_Join_clean (d name : string) :
clean_dir d → clean_elem name → ContainsByte name "/" = false →
path.Join d name = Join d name.
Proof.
intros Hd Hn Hs. pose proof Hn as (Hne & _).
unfold path.Join, Join.
destruct d as [|c d']; [done|]. cbn [String.eqb].
apply String.eqb_neq in Hne. rewrite Hne.
change (String c d' +:+ "/" +:+ name) with (String c (d' +:+ String "/" name)).
unfold path.Clean. cbn [String.eqb]. unfold clean_dir in Hd.
destruct (Ascii.eqb c "/") eqn:Hc.
- apply Ascii.eqb_eq in Hc as ->. cbn [Split]. rewrite Ascii.eqb_refl.
  rewrite Split_app, (Split_no_sep name "/" Hs).
  rewrite filter_cons_False by (by intros [? _]).
  rewrite Clean_elems by (apply Forall_app; split; [done|by constructor]).
  rewrite join_elems_snoc by apply Split_nonempty. rewrite join_elems_Split. done.
- assert (Hsplit : Split (String c (d' +:+ String "/" name)) "/"
                   = Split (String c d') "/" ++ [name]).
  { change (String c (d' +:+ String "/" name)) with (String c d' +:+ String "/" name).
    by rewrite Split_app, (Split_no_sep name "/" Hs). }
  rewrite Hsplit.
  rewrite Clean_elems by (apply Forall_app; split; [done|by constructor]).
  rewrite join_elems_snoc by apply Split_nonempty. rewrite join_elems_Split. done.
Qed.

Lemma level_file_name_clean (l : Level) :
l ∈ levels →
clean_elem (levelName l +:+ logFileSuffix)
∧ ContainsByte (levelName l +:+ logFileSuffix) "/" = false.
Proof.
intros Hl. unfold clean_elem.
destruct (archive_name_cases l Hl) as [E | [E | [E | [E | E]]]]; by rewrite E.
Qed.

(** The active path of a level under a clean directory is the path
    [path.Join] builds. *)
Lemma activePath_path_Join (d : string) (l : Level) :
clean_dir d → l ∈ levels →
activePath d l = path.Join d (levelName l +:+ logFileSuffix).
Proof.
intros Hd Hl. destruct (level_file_name_clean l Hl) as [Hc Hs].
unfold activePath. by rewrite path_Join_clean.
Qed.

End CleanPaths.

(** ** [NewFileBackend] *)

Section Opening.

Lemma disk_ok_spec (o : OS) :
disk_ok o ↔
  (∀ p ino, names o !! p = Some ino → (ino < length (inodes o))%nat)
  ∧ (∀ p q ino, names o !! p = Some ino → names o !! q = Some ino → p = q).
Proof.
unfold disk_ok. split.
- intros [Hlt Hnd]. split; [intros p ino Hp; by apply (map_Forall_lookup_1 _ _ _ _ Hlt Hp)|].
  intros p q ino Hp%elem_of_map_to_list Hq%elem_of_map_to_list.
  apply list_elem_of_lookup in Hp as [a Ha]. apply list_elem_of_lookup in Hq as [b Hb].
  assert (a = b) as ->.
  { eapply (NoDup_lookup _ a b ino); [exact Hnd|..]; rewrite list_lookup_fmap;
      [by rewrite Ha|by rewrite Hb]. }
  congruence.
- intros [Hlt Hinj]. split; [by apply map_Forall_lookup_2|].
  apply NoDup_fmap_2_strong; [|apply NoDup_map_to_list].
  intros [p i] [q j] Hp%elem_of_map_to_list Hq%elem_of_map_to_list Heq.
  simpl in Heq. subst j. f_equal. by eapply Hinj.
Qed.

(** [os.OpenFile] on a reachable path of a well-formed disk: a new handle,
    on the file at the path or on a new empty file there. *)
Lemma OpenFile_ok (path : string) (o : OS) :
path ∉ denied o → disk_ok o →
∃ ino o', OpenFile path o = ((length (handles o), None), o')
          ∧ handles o' = handles o ++ [Some ino]
          ∧ names o' !! path = Some ino ∧ (ino < length (inodes o'))%nat
          ∧ disk_ok o'
          ∧ denied o' = denied o ∧ stderr o' = stderr o ∧ now o' = now o
          ∧ ((names o !! path = Some ino ∧ names o' = names o ∧ inodes o' = inodes o)
             ∨ (names o !! path = None ∧ ino = length (inodes o)
                ∧ names o' = <[path := ino]> (names o)
                ∧ inodes o' = inodes o ++ [mkInode [] []])).
Proof.
intros Hd Hok. pose proof (proj1 (disk_ok_spec o) Hok) as [Hlt Hinj].
unfold OpenFile. rewrite decide_False by done.
destruct (names o !! path) as [ino|] eqn:Hp.
- exists ino. eexists. split; [done|]. simpl.
  split; [done|]. split; [done|]. split; [by eapply Hlt|]. split; [done|].
  repeat split; try done. by left.
- exists (length (inodes o)). eexists. split; [done|]. simpl.
  split; [done|]. split; [by rewrite lookup_insert_eq|].
  split; [rewrite length_app; simpl; lia|].
  split; [|repeat split; try done; by right].
  apply disk_ok_spec. simpl. split.
  + intros p ino. rewrite length_app. simpl.
    destruct (decide (path = p)) as [<-|Hne].
    * rewrite lookup_insert_eq. intros [= <-]. lia.
    * rewrite lookup_insert_ne by done. intros H%Hlt. lia.
  + intros p q ino.
    destruct (decide (path = p)) as [<-|Hnp]; destruct (decide (path = q)) as [<-|Hnq];
      rewrite ?lookup_insert_eq, ?lookup_insert_ne by done.
    * done.
    * intros [= <-] H%Hlt. lia.
    * intros H%Hlt [= <-]. lia.
    * apply Hinj.
Qed.

Lemma openSyncBufio_ok (level : Level) (path : string) (w : World) (o' : OS) :
OpenFile path (sys w) = ((length (handles (sys w)), None), o') →
0 <= level → (Z.to_nat level < length (writers (fb w)))%nat →
openSyncBufio level path w
= Done None
    (mkWorld (set_writers
                (<[Z.to_nat level
                   := Some (newSyncBufio (length (handles (sys w))) path
                              defaultBufferSize)]>) (fb w)) o').
Proof.
intros Hopen Hl Hlen. unfold openSyncBufio.
rewrite bind_run, syscall_run, Hopen. cbn [fst snd].
rewrite bind_run, setWriter_in_range by done. done.
Qed.

Lemma openSyncBufio_denied (level : Level) (path : string) (w : World) :
path ∈ denied (sys w) → openSyncBufio level path w = Done (Some ErrPermission) w.
Proof.
intros Hd. unfold openSyncBufio, OpenFile.
rewrite bind_run, syscall_run. rewrite decide_True by done. by destruct w.
Qed.

(** The loop of [NewFileBackend] over reachable paths. *)
Lemma openLevels_ok (dir : string) (ls : list Level) (w : World) :
disk_ok (sys w) → NoDup ls →
(∀ l, l ∈ ls → 0 <= l ∧ (Z.to_nat l < length (writers (fb w)))%nat
               ∧ activePath dir l ∉ denied (sys w)) →
∃ w', openLevels dir ls w = Done None w' ∧ opened_levels dir ls w w'.
Proof.
revert w. induction ls as [|i ls IH]; intros w Hok Hnd Hls.
- exists w. split; [done|]. unfold opened_levels.
  split; [apply same_but_writers_refl|]. split; [done|].
  split; [done|]. split; [done|]. split; [done|]. split; [done|].
  split; [exists []; by rewrite app_nil_r|]. split; [intros h ?; lia|].
  split; [exists []; by rewrite app_nil_r|]. split; [done|].
  split; [by left|]. intros l Hl. set_solver.
- apply NoDup_cons in Hnd as [Hi Hnd].
  destruct (Hls i) as (Hi0 & Hilen & Hid); [by left|].
  destruct (OpenFile_ok (activePath dir i) (sys w) Hid Hok)
    as (ino & o1 & Hopen & Hh1 & Hn1 & Hlt1 & Hok1 & Hd1 & He1 & Ht1 & Hcase).
  set (h0 := length (handles (sys w))) in *.
  set (w1 := mkWorld (set_writers
                (<[Z.to_nat i := Some (newSyncBufio h0 (activePath dir i)
                                         defaultBufferSize)]>) (fb w)) o1).
  assert (Hstep : openSyncBufio i (activePath dir i) w = Done None w1)
    by (by apply openSyncBufio_ok).
  assert (Hnames1 : ∀ p j, names (sys w) !! p = Some j → names o1 !! p = Some j).
  { intros p j Hp. destruct Hcase as [(_ & -> & _)|(Hnone & _ & -> & _)]; [done|].
    rewrite lookup_insert_ne; [done|]. intros <-. congruence. }
  assert (Hinodes1 : ∃ ns, inodes o1 = inodes (sys w) ++ ns
                           ∧ Forall (λ nd, nd = mkInode [] []) ns).
  { destruct Hcase as [(_ & _ & ->)|(_ & _ & _ & ->)].
    - exists []. by rewrite app_nil_r.
    - exists [mkInode [] []]. split; [done|]. by repeat constructor. }
  destruct (IH w1 Hok1 Hnd)
    as (w' & Hrun & Hsw & Hok' & Hd' & He' & Ht' & Hslots & (hs & Hhs & Hhl) & Hopenh
        & (ns & Hns & Hempty) & Hkeep & Honly & Hspec).
  { intros l Hl. destruct (Hls l) as (? & ? & ?); [by right|].
    split; [done|]. split; [unfold w1; cbn [fb set_writers writers]; by rewrite length_insert|].
    unfold w1; cbn [sys]. by rewrite Hd1. }
  change (sys w1) with o1 in *.
  exists w'. split.
  { cbn [openLevels]. fold (activePath dir i).
    by rewrite (bind_Done _ _ _ _ _ Hstep). }
  destruct Hinodes1 as (ns1 & Hns1 & Hempty1).
  assert (Hfile0 : file_of h0 (sys w') = Some ino).
  { unfold file_of. rewrite Hhs. unfold w1; cbn [sys]. rewrite Hh1.
    rewrite lookup_app_l by (rewrite length_app; simpl; lia).
    rewrite lookup_app_r by (unfold h0; lia).
    replace (h0 - length (handles (sys w)))%nat with 0%nat by (unfold h0; lia). simpl.
    rewrite decide_True; [done|]. rewrite Hns, length_app. unfold w1; cbn [sys]. lia. }
  assert (Hmem : ∀ k : nat, Z.of_nat k ∈ i :: ls ↔ k = Z.to_nat i ∨ Z.of_nat k ∈ ls).
  { intros k. rewrite elem_of_cons. split; (intros [?|?]; [left; lia|by right]). }
  assert (Hslot_i : writers (fb w') !! Z.to_nat i
            = Some (Some (newSyncBufio h0 (activePath dir i) defaultBufferSize))).
  { rewrite Hslots by (by rewrite Z2Nat.id). unfold w1; cbn [fb set_writers writers].
    by apply list_lookup_insert_eq. }
  unfold opened_levels.
  split; [eapply same_but_writers_trans; [apply same_but_writers_insert|exact Hsw]|].
  split; [done|]. split; [congruence|]. split; [congruence|]. split; [congruence|].
  split.
  { intros k Hk. rewrite Hmem in Hk. rewrite Hslots by tauto.
    unfold w1; cbn [fb set_writers writers]. apply list_lookup_insert_ne. intros <-. apply Hk. by left. }
  split.
  { exists (Some ino :: hs). rewrite Hhs. unfold w1; cbn [sys]. rewrite Hh1, <- app_assoc.
    split; [done|]. simpl. by rewrite Hhl. }
  split.
  { intros h Hh. destruct (decide (h = h0)) as [->|Hne]; [by eexists|].
    apply Hopenh. unfold w1; cbn [sys]. rewrite Hh1, length_app. simpl. unfold h0 in *. lia. }
  split.
  { exists (ns1 ++ ns). rewrite Hns. unfold w1; cbn [sys]. rewrite Hns1, <- app_assoc.
    split; [done|]. by apply Forall_app. }
  split; [intros p j Hp; by apply Hkeep, Hnames1|].
  split.
  { intros p j Hp. destruct (Honly p j Hp) as [Hp1|(Hge & l & Hl & ->)].
    - unfold w1 in Hp1; cbn [sys] in Hp1.
      destruct Hcase as [(_ & Heq & _)|(Hnone & Hino & Heq & _)]; rewrite Heq in Hp1.
      + by left.
      + destruct (decide (activePath dir i = p)) as [<-|Hne].
        * rewrite lookup_insert_eq in Hp1. injection Hp1 as <-.
          right. split; [lia|]. exists i. split; [by left|done].
        * rewrite lookup_insert_ne in Hp1 by done. by left.
    - right. split; [|exists l; split; [by right|done]].
      unfold w1 in Hge; cbn [sys] in Hge. rewrite Hns1, length_app in Hge. lia. }
  intros l [->|Hl]%elem_of_cons.
  + exists h0, ino. split; [done|]. split; [done|]. split; [done|]. by apply Hkeep.
  + destruct (Hspec l Hl) as (h & j & Hs & Hge & Hf & Hn).
    exists h, j. split; [done|]. split; [|done].
    unfold w1 in Hge; cbn [sys] in Hge. rewrite Hh1, length_app in Hge. unfold h0. lia.
Qed.

Lemma openLevels_app (dir : string) (ls1 ls2 : list Level) (w w1 : World) :
openLevels dir ls1 w = Done None w1 →
openLevels dir (ls1 ++ ls2) w = openLevels dir ls2 w1.
Proof.
revert w. induction ls1 as [|i ls1 IH]; intros w; simpl.
- by intros [= ->].
- rewrite !bind_run. destruct (openSyncBufio _ _ w) as [[e|] v|p v|v]; try done.
  apply IH.
Qed.

Lemma activePath_inj (dir : string) (l l' : Level) :
l ∈ levels → l' ∈ levels → activePath dir l = activePath dir l' → l = l'.
Proof.
unfold levels. rewrite !elem_of_cons, !elem_of_nil.
intros Hl Hl' H%Join_inj. destruct_or!; subst; try done; by vm_compute in H.
Qed.

Lemma opened_intro (w : World) :
mutex (fb w) = false → length (writers (fb w)) = Z.to_nat levelCount →
(∀ k : nat, (k < Z.to_nat levelCount)%nat →
   ∃ sb, writers (fb w) !! k = Some (Some sb) ∧ writer_ok (sys w) sb) →
(∀ (i j : nat) sbi sbj,
   writers (fb w) !! i = Some (Some sbi) → writers (fb w) !! j = Some (Some sbj) →
   i ≠ j → filePath sbi ≠ filePath sbj) →
(∀ (i j : nat) sbi sbj,
   writers (fb w) !! i = Some (Some sbi) → writers (fb w) !! j = Some (Some sbj) →
   i ≠ j → file_of (file sbi) (sys w) ≠ file_of (file sbj) (sys w)) →
opened w.
Proof.
intros Hm Hlen Hslots Hpaths Hfiles.
assert (Hall : Forall is_Some (writers (fb w))).
{ apply Forall_lookup. intros k x Hk.
  destruct (Hslots k) as (sb & Hsb & _); [apply lookup_lt_Some in Hk; lia|].
  rewrite Hsb in Hk. injection Hk as <-. by eexists. }
split; [done|]. split; [done|]. split; [done|]. split; [|split].
- apply Forall_lookup. intros k sb Hk%(live_lookup _ _ _ Hall).
  destruct (Hslots k) as (sb' & Hsb' & Hok); [apply lookup_lt_Some in Hk; lia|].
  congruence.
- apply NoDup_alt. intros i j p. rewrite !list_lookup_fmap.
  destruct (live (fb w) !! i) as [sbi|] eqn:Hi; [|done].
  destruct (live (fb w) !! j) as [sbj|] eqn:Hj; [|done].
  apply (live_lookup _ _ _ Hall) in Hi, Hj. simpl. intros [= <-] [= Heq].
  destruct (decide (i = j)); [done|]. by destruct (Hpaths i j sbi sbj).
- apply NoDup_alt. intros i j p. rewrite !list_lookup_fmap.
  destruct (live (fb w) !! i) as [sbi|] eqn:Hi; [|done].
  destruct (live (fb w) !! j) as [sbj|] eqn:Hj; [|done].
  apply (live_lookup _ _ _ Hall) in Hi, Hj. simpl. intros [= <-] [= Heq].
  destruct (decide (i = j)); [done|]. by destruct (Hfiles i j sbi sbj).
Qed.

(** X13: for a clean directory path [dir] (no empty, [.] or [..]
    element, so no doubled or trailing slash: [path.Join] has nothing to
    clean), on a well-formed disk where the directory and the five active
    paths can be reached, [NewFileBackend] returns no error and an open
    backend: in each level's slot a writer with an empty buffer of 256 KiB
    on the path [path.Join(dir, <LEVEL>.log)], which is [dir/<LEVEL>.log],
    its handle open on the file of that name,
    which holds what it held before (append mode: an existing file is not
    truncated) or nothing when it was created; the flush interval is three
    seconds and rotation is off; no diagnostic is printed and every name the
    disk had leads to the same file, with the same bytes. *)
Theorem NewFileBackend_opens_every_level (d : string) (o : OS) :
clean_dir d → disk_ok o → d ∉ denied o →
(∀ l, l ∈ levels → activePath d l ∉ denied o) →
∃ w, NewFileBackend d o = Done None w ∧ opened w
     ∧ dir (fb w) = d ∧ flushInterval (fb w) = defaultFlushInterval
     ∧ rotateByHour (fb w) = false
     ∧ stderr (sys w) = stderr o
     ∧ (∀ l, l ∈ levels →
          ∃ h ino,
            writers (fb w) !! Z.to_nat l
            = Some (Some (newSyncBufio h (activePath d l) defaultBufferSize))
            ∧ activePath d l = path.Join d (levelName l +:+ logFileSuffix)
            ∧ file_of h (sys w) = Some ino
            ∧ names (sys w) !! activePath d l = Some ino
            ∧ file_content ino (sys w)
              = match names o !! activePath d l with
                | Some ino0 => file_content ino0 o
                | None => Some []
                end)
     ∧ ∀ p ino, names o !! p = Some ino →
                names (sys w) !! p = Some ino
                ∧ inodes (sys w) !! ino = inodes o !! ino.
Proof.
intros Hclean Hok Hdir Hpaths.
set (w0 := mkWorld (mkFileBackend false d (writers zeroFileBackend)
                      defaultFlushInterval false 0 0) o).
destruct (openLevels_ok d levels w0 Hok NoDup_levels)
  as (w & Hrun & Hsw & Hok' & Hd' & He' & Ht' & Hslots & (hs & Hhs & Hhl) & Hopenh
      & (ns & Hns & Hempty) & Hkeep & Honly & Hspec).
{ intros l Hl. pose proof (proj1 (elem_of_levels l) Hl).
  split; [lia|]. split; [|by apply Hpaths].
  unfold w0; cbn [fb writers zeroFileBackend]. rewrite length_replicate. unfold levelCount. lia. }
pose proof (proj1 (disk_ok_spec o) Hok) as [Hlt Hinj].
pose proof (proj1 (disk_ok_spec _) Hok') as [Hlt' Hinj'].
exists w. split.
{ unfold NewFileBackend, MkdirAll. rewrite decide_False by done. exact Hrun. }
assert (Hlevel : ∀ k : nat, (k < Z.to_nat levelCount)%nat → Z.of_nat k ∈ levels).
{ intros k Hk. apply elem_of_levels. unfold levelCount in Hk. lia. }
assert (Hslot : ∀ (k : nat) sb, writers (fb w) !! k = Some (Some sb) →
          Z.of_nat k ∈ levels
          ∧ ∃ ino, sb = newSyncBufio (file sb) (activePath d (Z.of_nat k))
                          defaultBufferSize
                   ∧ file_of (file sb) (sys w) = Some ino
                   ∧ names (sys w) !! activePath d (Z.of_nat k) = Some ino).
{ intros k sb Hk.
  assert (Hin : Z.of_nat k ∈ levels).
  { apply Hlevel. apply lookup_lt_Some in Hk.
    destruct Hsw as (_ & _ & _ & _ & _ & _ & Hl). rewrite Hl in Hk.
    unfold w0 in Hk; cbn [fb writers zeroFileBackend] in Hk. by rewrite length_replicate in Hk. }
  split; [done|].
  destruct (Hspec _ Hin) as (h & ino & Hs & _ & Hf & Hn).
  rewrite Nat2Z.id in Hs. rewrite Hk in Hs. injection Hs as ->.
  exists ino. by repeat split. }
split.
{ apply opened_intro.
  - by destruct Hsw as (-> & _).
  - destruct Hsw as (_ & _ & _ & _ & _ & _ & ->).
    unfold w0; cbn [fb writers zeroFileBackend]. by rewrite length_replicate.
  - intros k Hk. destruct (Hspec _ (Hlevel k Hk)) as (h & ino & Hs & _ & Hf & Hn).
    rewrite Nat2Z.id in Hs. eexists. split; [exact Hs|].
    split; [done|]. split; [done|]. split; [by eexists|done].
  - intros i j sbi sbj Hi Hj Hne Heq.
    destruct (Hslot i sbi Hi) as (Hini & _ & Ei & _).
    destruct (Hslot j sbj Hj) as (Hinj0 & _ & Ej & _).
    rewrite Ei, Ej in Heq. cbn [newSyncBufio filePath] in Heq.
    apply activePath_inj in Heq; [lia|done..].
  - intros i j sbi sbj Hi Hj Hne Heq.
    destruct (Hslot i sbi Hi) as (Hini & inoi & _ & Hfi & Hni).
    destruct (Hslot j sbj Hj) as (Hinj0 & inoj & _ & Hfj & Hnj).
    assert (inoi = inoj) as -> by congruence.
    pose proof (Hinj' _ _ _ Hni Hnj) as Hp.
    apply activePath_inj in Hp; [lia|done..]. }
split; [by destruct Hsw as (_ & -> & _)|].
split; [by destruct Hsw as (_ & _ & -> & _)|].
split; [by destruct Hsw as (_ & _ & _ & -> & _)|].
split; [done|]. split.
- intros l Hl. destruct (Hspec l Hl) as (h & ino & Hs & _ & Hf & Hn).
  exists h, ino. split; [done|]. split; [by apply activePath_path_Join|].
  split; [done|]. split; [done|].
  unfold file_content. rewrite Hns. unfold w0; cbn [sys].
  destruct (names o !! activePath d l) as [ino0|] eqn:Hn0.
  + pose proof (Hkeep _ _ Hn0) as Hn0'. assert (ino = ino0) as -> by congruence.
    by rewrite lookup_app_l by (by eapply Hlt).
  + destruct (Honly _ _ Hn) as [Hold|(Hge & _)]; [unfold w0 in Hold; cbn [sys] in Hold; congruence|].
    unfold w0 in Hge; cbn [sys] in Hge. rewrite lookup_app_r by done.
    pose proof (Hlt' _ _ Hn) as Hlt2. rewrite Hns, length_app in Hlt2. unfold w0 in Hlt2; cbn [sys] in Hlt2.
    destruct (lookup_lt_is_Some_2 ns (ino - length (inodes o))) as [nd Hnd]; [lia|].
    rewrite Hnd. by rewrite (Forall_lookup_1 _ _ _ _ Hempty Hnd).
- intros p ino Hp. split; [by apply Hkeep|].
  rewrite Hns. unfold w0; cbn [sys]. by rewrite lookup_app_l by (by eapply Hlt).
Qed.

Lemma NewFileBackend_opens_every_level_witness :
disk_ok Scenario.disk0 ∧ ("log" ∉ denied Scenario.disk0)
∧ ∃ w, NewFileBackend "log" Scenario.disk0 = Done None w ∧ opened w.
Proof.
assert (Hok : disk_ok Scenario.disk0) by (apply (bool_decide_unpack _); by vm_compute).
assert (Hd : ∀ p, p ∉ denied Scenario.disk0) by (intros p; apply not_elem_of_empty).
split; [exact Hok|]. split; [apply Hd|].
assert (Hclean : clean_dir "log") by (apply (bool_decide_unpack _); by vm_compute).
destruct (NewFileBackend_opens_every_level "log" Scenario.disk0 Hclean Hok (Hd _)
            (λ l _, Hd _))
  as (w & Hrun & Hop & _).
exists w. split; [exact Hrun|exact Hop].
Defined.

(** X14: when the path of a level cannot be reached (and the directory
    and the paths of the levels before it can), [NewFileBackend] returns the
    error of that [os.OpenFile] and no backend, and closes nothing: the
    handles it opened for the levels before stay open. *)
Theorem NewFileBackend_failure_leaves_handles_open (dir : string) (o : OS)
  (l : Level) :
disk_ok o → dir ∉ denied o → l ∈ levels → activePath dir l ∈ denied o →
(∀ l', l' ∈ levels → l' < l → activePath dir l' ∉ denied o) →
∃ w, NewFileBackend dir o = Done (Some ErrPermission) w
     ∧ length (handles (sys w)) = (length (handles o) + Z.to_nat l)%nat
     ∧ ∀ h : nat, (length (handles o) ≤ h < length (handles (sys w)))%nat →
                  is_Some (file_of h (sys w)).
Proof.
intros Hok Hdir Hl Hden Hbefore.
set (w0 := mkWorld (mkFileBackend false dir (writers zeroFileBackend)
                      defaultFlushInterval false 0 0) o).
pose proof (proj1 (elem_of_levels l) Hl) as Hrange.
assert (Hsplit : (levels = take (Z.to_nat l) levels ++ (l :: drop (S (Z.to_nat l)) levels))
                 ∧ length (take (Z.to_nat l) levels) = Z.to_nat l
                 ∧ ∀ l', l' ∈ take (Z.to_nat l) levels → l' ∈ levels ∧ l' < l).
{ unfold levels, Debug, Info, Warning, Error, Fatal in *.
  rewrite !elem_of_cons, elem_of_nil in Hl.
  destruct_or!; subst; try done; (split; [done|split; [done|]]); simpl;
    intros l'; rewrite ?elem_of_cons, ?elem_of_nil; intros ?; destruct_or!;
    subst; try done; split; (lia || set_solver). }
destruct Hsplit as (Hsplit & Hlen & Hpre).
destruct (openLevels_ok dir (take (Z.to_nat l) levels) w0 Hok)
  as (w & Hrun & Hsw & Hok' & Hd' & He' & Ht' & Hslots & (hs & Hhs & Hhl) & Hopenh & _).
{ pose proof NoDup_levels as Hnd. rewrite Hsplit in Hnd.
  by apply NoDup_app in Hnd as [? _]. }
{ intros l' [Hin Hlt]%Hpre. pose proof (proj1 (elem_of_levels l') Hin).
  split; [lia|]. split; [|by apply Hbefore].
  unfold w0; cbn [fb writers zeroFileBackend]. rewrite length_replicate. unfold levelCount. lia. }
exists w. split; [|split; [|done]].
- unfold NewFileBackend, MkdirAll. rewrite decide_False by done. fold w0.
  rewrite Hsplit, (openLevels_app _ _ _ _ _ Hrun). cbn [openLevels].
  fold (activePath dir l).
  rewrite (bind_Done _ _ _ _ _ (openSyncBufio_denied l _ w ltac:(by rewrite Hd'))). done.
- rewrite Hhs, length_app, Hhl, Hlen. done.
Qed.

Lemma NewFileBackend_failure_leaves_handles_open_witness :
∃ w, NewFileBackend "log"
       (mkOS ∅ [] [] {["log/WARNING.log"]} [] (mkTime 1562721194 0 0))
     = Done (Some ErrPermission) w
     ∧ length (handles (sys w)) = 2%nat.
Proof.
set (o := mkOS ∅ [] [] {["log/WARNING.log"]} [] (mkTime 1562721194 0 0)).
assert (Hok : disk_ok o) by (apply (bool_decide_unpack _); by vm_compute).
destruct (NewFileBackend_failure_leaves_handles_open "log" o Warning Hok)
  as (w & Hrun & Hlen & _).
- by apply (bool_decide_unpack _).
- by apply elem_of_levels.
- by apply (bool_decide_unpack _).
- intros l' Hl' Hlt. unfold levels, Debug, Info, Warning, Error, Fatal in *.
  rewrite !elem_of_cons, elem_of_nil in Hl'.
  destruct_or!; subst; try done; try lia; by apply (bool_decide_unpack _).
- exists w. split; [exact Hrun|exact Hlen].
Defined.

End Opening.

(** ** The rename loop of the rotation tick *)

Section RenameLoop.

Lemma append_ne_self (a b : string) (c : ascii) : a ≠ a +:+ String c b.
Proof. rewrite <- (append_nil_r a) at 1. by intros H%append_inj_l. Qed.

Lemma active_paths_apart (d a b : string) (i j : Level) :
i ∈ levels → j ∈ levels → i ≠ j → activePath d i +:+ a ≠ activePath d j +:+ b.
Proof.
unfold levels. rewrite !elem_of_cons, !elem_of_nil.
intros Hi Hj Hne. unfold activePath, Join. rewrite !append_assoc.
intros H%append_inj_l.
destruct_or!; subst; try done; by vm_compute in H.
Qed.

Lemma levels_lookup (k : nat) :
(k < Z.to_nat levelCount)%nat → levels !! k = Some (Z.of_nat k).
Proof.
unfold levelCount. intros Hk.
destruct k as [|[|[|[|[|k]]]]]; try done. simpl in Hk. lia.
Qed.

Lemma at_home_slot (w : World) (k : nat) (sb : syncBufio) :
opened w → at_home w → writers (fb w) !! k = Some (Some sb) →
filePath sb = activePath (dir (fb w)) (Z.of_nat k).
Proof.
intros Hop Hhome Hk. pose proof Hk as Hlive%(opened_live w k sb Hop).
assert (Hlt : (k < Z.to_nat levelCount)%nat).
{ apply lookup_lt_Some in Hk. destruct Hop as (_ & <- & _). done. }
assert (H : (filePath <$> live (fb w)) !! k = Some (filePath sb))
  by (by rewrite list_lookup_fmap, Hlive).
rewrite Hhome in H. unfold levelCount in Hlt.
destruct k as [|[|[|[|[|k]]]]]; try (by injection H). simpl in Hlt. lia.
Qed.

Lemma attached_slot (w : World) (k : nat) (sb : syncBufio) :
opened w → attached w → writers (fb w) !! k = Some (Some sb) →
names (sys w) !! filePath sb = file_of (file sb) (sys w).
Proof.
intros Hop Hatt Hk%(opened_live w k sb Hop).
by apply (Forall_lookup_1 _ _ _ _ Hatt Hk).
Qed.

Lemma Rename_ok (oldpath newpath : string) (o : OS) :
oldpath ∉ denied o → newpath ∉ denied o →
(Rename oldpath newpath o).2 = set_names (renamed oldpath newpath) o.
Proof.
intros Hold Hnew. unfold Rename, renamed, set_names.
rewrite decide_False by tauto.
destruct (names o !! oldpath); [done|]. by destruct o.
Qed.

Lemma rotateLevel_open (t : Time) (i : Level) (w : World) (sb : syncBufio) :
0 <= i → writers (fb w) !! Z.to_nat i = Some (Some sb) →
filePath sb ∉ denied (sys w) → archivePath sb t ∉ denied (sys w) →
rotateLevel t i w
= Done tt (mkWorld (fb w) (set_names (renamed (filePath sb) (archivePath sb t)) (sys w))).
Proof.
intros Hi Hs Hold Hnew. unfold rotateLevel.
rewrite (bind_Done _ _ _ _ _ (getWriter_lookup i w _ Hi Hs)).
rewrite bind_run, syscall_run. fold (archivePath sb t).
by rewrite Rename_ok.
Qed.

(** The rename loop over the levels [ls], whose active and archive paths
    are apart from each other: each active path is gone, each archive path
    leads to the file that was at the active path; no other name, and
    nothing but names, changes. *)
Lemma rename_loop (t : Time) (ls : list Level) (w : World) :
(∀ i, i ∈ ls → 0 <= i ∧ ∃ sb, writers (fb w) !! Z.to_nat i = Some (Some sb)
                              ∧ (filePath sb ∉ denied (sys w))
                              ∧ (archivePath sb t ∉ denied (sys w))) →
(∀ (i j : nat) sbi sbj,
   writers (fb w) !! i = Some (Some sbi) → writers (fb w) !! j = Some (Some sbj) →
   i ≠ j →
   filePath sbi ≠ filePath sbj ∧ filePath sbi ≠ archivePath sbj t
   ∧ archivePath sbi t ≠ archivePath sbj t) →
NoDup ls →
∃ w', forEach ls (rotateLevel t) w = Done tt w'
      ∧ fb w' = fb w ∧ inodes (sys w') = inodes (sys w)
      ∧ handles (sys w') = handles (sys w) ∧ denied (sys w') = denied (sys w)
      ∧ stderr (sys w') = stderr (sys w) ∧ now (sys w') = now (sys w)
      ∧ (∀ p, (∀ (k : nat) sb, Z.of_nat k ∈ ls → writers (fb w) !! k = Some (Some sb) →
                 p ≠ filePath sb ∧ p ≠ archivePath sb t) →
              names (sys w') !! p = names (sys w) !! p)
      ∧ ∀ (k : nat) sb,
          Z.of_nat k ∈ ls → writers (fb w) !! k = Some (Some sb) →
          names (sys w') !! filePath sb = None
          ∧ names (sys w') !! archivePath sb t
            = match names (sys w) !! filePath sb with
              | Some ino => Some ino
              | None => names (sys w) !! archivePath sb t
              end.
Proof.
intros Hls Hapart Hnd. revert w Hls Hapart.
induction ls as [|i ls IH]; intros w Hls Hapart.
- exists w. cbn [forEach]. repeat split; try done; intros; set_solver.
- apply NoDup_cons in Hnd as [Hi Hnd].
  destruct (Hls i) as (Hi0 & sb & Hsb & Hdo & Hdn); [by left|].
  set (w1 := mkWorld (fb w)
               (set_names (renamed (filePath sb) (archivePath sb t)) (sys w))).
  assert (Hself : filePath sb ≠ archivePath sb t) by apply append_ne_self.
  assert (Hn1 : ∀ p, p ≠ filePath sb → p ≠ archivePath sb t →
            names (sys w1) !! p = names (sys w) !! p).
  { intros p Hp1 Hp2. unfold w1; cbn [sys set_names names]. unfold renamed.
    destruct (names (sys w) !! filePath sb); [|done].
    by rewrite lookup_insert_ne, lookup_delete_ne. }
  assert (Hn1o : names (sys w1) !! filePath sb = None).
  { unfold w1; cbn [sys set_names names]. unfold renamed.
    destruct (names (sys w) !! filePath sb) eqn:E; [|done].
    rewrite lookup_insert_ne by done. by rewrite lookup_delete_eq. }
  assert (Hn1a : names (sys w1) !! archivePath sb t
                 = match names (sys w) !! filePath sb with
                   | Some ino => Some ino
                   | None => names (sys w) !! archivePath sb t
                   end).
  { unfold w1; cbn [sys set_names names]. unfold renamed.
    destruct (names (sys w) !! filePath sb) eqn:E; [|done].
    by rewrite lookup_insert_eq. }
  assert (Hin : ∀ k : nat, Z.of_nat k ∈ ls → k ≠ Z.to_nat i).
  { intros k Hk ->. apply Hi. by rewrite Z2Nat.id in Hk. }
  destruct (IH Hnd w1) as (w' & Hrun & Hfb & Hino & Hha & Hde & Hst & Hno & Hframe & Hspec).
  { intros j Hj. destruct (Hls j) as (? & sbj & ? & ? & ?); [by right|].
    split; [done|]. by exists sbj. }
  { exact Hapart. }
  exists w'. cbn [forEach].
  rewrite (bind_Done _ _ _ _ _ (rotateLevel_open t i w sb Hi0 Hsb Hdo Hdn)). fold w1.
  assert (Hmem : ∀ k : nat, Z.of_nat k ∈ i :: ls ↔ k = Z.to_nat i ∨ Z.of_nat k ∈ ls).
  { intros k. rewrite elem_of_cons. split; (intros [?|?]; [left; lia|by right]). }
  split; [exact Hrun|]. split; [done|]. split; [done|]. split; [done|].
  split; [done|]. split; [done|]. split; [done|]. split.
  + intros p Hp. rewrite Hframe.
    * destruct (Hp (Z.to_nat i) sb) as [? ?]; [apply Hmem; by left|done|].
      by apply Hn1.
    * intros k x Hk Hx. apply (Hp k x); [apply Hmem; by right|done].
  + assert (Hap : ∀ (k : nat) y, Z.of_nat k ∈ ls → writers (fb w) !! k = Some (Some y) →
              filePath y ≠ filePath sb ∧ filePath y ≠ archivePath sb t
              ∧ archivePath y t ≠ filePath sb ∧ archivePath y t ≠ archivePath sb t).
    { intros k y Hk Hy. pose proof (Hin k Hk) as Hne.
      destruct (Hapart k (Z.to_nat i) y sb Hy Hsb Hne) as (? & ? & ?).
      destruct (Hapart (Z.to_nat i) k sb y Hsb Hy) as (? & ? & ?); [done|].
      repeat split; congruence. }
    intros k x Hk Hx. apply Hmem in Hk as [->|Hk].
    * assert (x = sb) as -> by congruence.
      rewrite !Hframe; [done|..]; intros k y Hk Hy;
        destruct (Hap k y Hk Hy) as (? & ? & ? & ?); split; congruence.
    * destruct (Hspec k x Hk Hx) as [Ho Ha]. split; [done|].
      destruct (Hap k x Hk Hx) as (? & ? & ? & ?).
      rewrite Ha, !Hn1 by done. done.
Qed.

(** The rotation tick on an open backend, without retention. *)
Lemma rotation_tick_open (w : World) :
let t := truncateToHour (now (sys w)) in
opened w → at_home w →
rotateByHour (fb w) = true → lastRotateTime (fb w) < Unix t →
keepHours (fb w) <= 0 →
(∀ (k : nat) sb, writers (fb w) !! k = Some (Some sb) →
   (filePath sb ∉ denied (sys w)) ∧ (archivePath sb t ∉ denied (sys w))) →
∃ w', doRotateByHour w = Done tt w'
      ∧ fb w' = fb w ∧ inodes (sys w') = inodes (sys w)
      ∧ handles (sys w') = handles (sys w) ∧ stderr (sys w') = stderr (sys w)
      ∧ denied (sys w') = denied (sys w) ∧ now (sys w') = now (sys w)
      ∧ opened w' ∧ all_missing w'
      ∧ (∀ (k : nat) sb,
           writers (fb w) !! k = Some (Some sb) →
           names (sys w') !! filePath sb = None
           ∧ names (sys w') !! archivePath sb t
             = match names (sys w) !! filePath sb with
               | Some ino => Some ino
               | None => names (sys w) !! archivePath sb t
               end)
      ∧ ∀ p, (∀ (k : nat) sb, writers (fb w) !! k = Some (Some sb) →
                p ≠ filePath sb ∧ p ≠ archivePath sb t) →
             names (sys w') !! p = names (sys w) !! p.
Proof.
intros t Hop Hhome Hrot Hdue Hkeep Hreach.
destruct (rename_loop t levels w) as (w' & Hrun & Hfb & Hino & Hha & Hde & Hst & Hno & Hframe & Hspec).
{ intros i Hi. pose proof (proj1 (elem_of_levels i) Hi).
  split; [lia|].
  destruct (opened_slot w (Z.to_nat i) Hop) as (sb & Hsb & _); [unfold levelCount; lia|].
  exists sb. split; [done|]. by apply (Hreach (Z.to_nat i)). }
{ intros i j sbi sbj Hi Hj Hne.
  pose proof (opened_slot_index w i sbi Hop Hi) as Hil.
  pose proof (opened_slot_index w j sbj Hop Hj) as Hjl.
  assert (Hne' : Z.of_nat i ≠ Z.of_nat j) by lia.
  unfold archivePath.
  rewrite (at_home_slot w i sbi Hop Hhome Hi), (at_home_slot w j sbj Hop Hhome Hj).
  pose proof (active_paths_apart (dir (fb w)) "" "" _ _ Hil Hjl Hne') as H1.
  rewrite !append_nil_r in H1.
  pose proof (active_paths_apart (dir (fb w)) "" ("." +:+ Format_2006010215 t)
                _ _ Hil Hjl Hne') as H2.
  rewrite append_nil_r in H2.
  pose proof (active_paths_apart (dir (fb w)) ("." +:+ Format_2006010215 t)
                ("." +:+ Format_2006010215 t) _ _ Hil Hjl Hne') as H3.
  done. }
{ apply NoDup_levels. }
assert (Hslot : ∀ (k : nat) sb, writers (fb w) !! k = Some (Some sb) → Z.of_nat k ∈ levels)
  by (intros k sb; apply opened_slot_index, Hop).
assert (Hfile : ∀ h, file_of h (sys w') = file_of h (sys w))
  by (intros h; unfold file_of; by rewrite Hha, Hino).
assert (Hop' : opened w').
{ apply (opened_preserved w w' Hop).
  - rewrite Hfb. apply Hop.
  - by rewrite Hfb.
  - intros k sb Hk. exists sb. rewrite Hfb. split; [done|]. split; [done|]. split; [done|].
    pose proof (proj1 (opened_healthy w Hop) _ _ Hk) as (? & ? & ? & ?).
    repeat split; try done. by rewrite Hfile.
  - done. }
exists w'. split.
{ unfold doRotateByHour. rewrite bind_self, Hrot. cbn [negb].
  rewrite bind_getNowTime. fold t.
  replace (lastRotateTime (fb w) <? Unix t) with true by (symmetry; by apply Z.ltb_lt).
  assert (Hloop : forEach levels (rotateLevel t) w = Done tt w') by exact Hrun.
  rewrite (bind_Done _ _ _ _ _ Hloop).
  unfold removeOldFiles. rewrite bind_self, Hfb.
  replace (keepHours (fb w) <=? 0) with true by (symmetry; by apply Z.leb_le). done. }
split; [done|]. split; [done|]. split; [done|]. split; [done|].
split; [done|]. split; [done|]. split; [done|].
split; [|split].
- unfold all_missing. apply Forall_lookup. intros k sb Hk.
  apply (opened_live w' k sb Hop') in Hk. rewrite Hfb in Hk.
  destruct (Hspec k sb (Hslot k sb Hk) Hk) as [Hgone _].
  destruct (Hreach k sb Hk) as [Hr1 _].
  unfold Stat. rewrite Hde, decide_False by done. by rewrite Hgone.
- intros k sb Hk. apply (Hspec k sb); [by apply (Hslot k sb)|done].
- intros p Hp. apply Hframe. intros k sb _ Hk. by apply (Hp k).
Qed.

(** X15: a rotation tick on an open backend whose writers are on the
    active paths, with rotation on, the hour bucket after [lastRotateTime],
    no retention ([keepHours <= 0]) and all paths within reach, renames as
    follows: every active path is gone, and its archive path
    [<path>.<YYYYMMDDHH>] leads to the file that was at the active path (or
    is as before, when there was none); no other name changes.  The backend
    is untouched: each slot keeps its writer and open handle, so the backend
    is still open, now with every active file missing; no byte of a file
    changes and no diagnostic is printed. *)
Theorem doRotateByHour_renames_active_files (w : World) :
let t := truncateToHour (now (sys w)) in
opened w → at_home w →
rotateByHour (fb w) = true → lastRotateTime (fb w) < Unix t →
keepHours (fb w) <= 0 →
(∀ (k : nat) sb, writers (fb w) !! k = Some (Some sb) →
   (filePath sb ∉ denied (sys w)) ∧ (archivePath sb t ∉ denied (sys w))) →
∃ w', doRotateByHour w = Done tt w'
      ∧ fb w' = fb w ∧ inodes (sys w') = inodes (sys w)
      ∧ handles (sys w') = handles (sys w) ∧ stderr (sys w') = stderr (sys w)
      ∧ opened w' ∧ all_missing w'
      ∧ (∀ (k : nat) sb,
           writers (fb w) !! k = Some (Some sb) →
           names (sys w') !! filePath sb = None
           ∧ names (sys w') !! archivePath sb t
             = match names (sys w) !! filePath sb with
               | Some ino => Some ino
               | None => names (sys w) !! archivePath sb t
               end)
      ∧ ∀ p, (∀ (k : nat) sb, writers (fb w) !! k = Some (Some sb) →
                p ≠ filePath sb ∧ p ≠ archivePath sb t) →
             names (sys w') !! p = names (sys w) !! p.
Proof.
intros t Hop Hhome Hrot Hdue Hkeep Hreach.
destruct (rotation_tick_open w Hop Hhome Hrot Hdue Hkeep Hreach)
  as (w' & ? & ? & ? & ? & ? & _ & _ & ? & ? & ? & ?).
exists w'. do 8 (split; [done|]). done.
Qed.

Lemma doRotateByHour_renames_active_files_witness :
let w := Scenario.final (SetRotateFile true 0 Scenario.rotating0) in
let w0 := Scenario.advance Hour w in
∃ w', doRotateByHour w0 = Done tt w' ∧ all_missing w'
      ∧ names (sys w') !! "log/INFO.log.2019071003" = Some 1%nat.
Proof.
intros w w0.
assert (Hop : opened w0) by (apply (bool_decide_unpack _); by vm_compute).
assert (Hhome : at_home w0) by (apply (bool_decide_unpack _); by vm_compute).
destruct (doRotateByHour_renames_active_files w0 Hop Hhome)
  as (w' & Hrun & _ & _ & _ & _ & _ & Hmiss & Hspec & _).
- by vm_compute.
- by vm_compute.
- by vm_compute.
- intros k sb Hk. split; apply not_elem_of_empty.
- exists w'. split; [exact Hrun|]. split; [exact Hmiss|].
  refine (eq_trans (proj2 (Hspec 1%nat
    (mkSyncBufio (bufio.mkWriter Scenario.msg None 1 defaultBufferSize) 1 19
       "log/INFO.log") _)) _); by vm_compute.
Defined.

End RenameLoop.

(** ** The monitor tick on missing files *)

Section MonitorReopen.

Lemma Stat_missing (path : string) (o : OS) :
Stat path o = Some ErrNotExist ↔ (path ∉ denied o) ∧ names o !! path = None.
Proof.
unfold Stat. destruct (decide (path ∈ denied o)) as [Hd|Hd].
- split; [done|]. by intros [? _].
- destruct (names o !! path); split; try done. by intros [_ ?].
Qed.

Lemma OpenFile_missing (path : string) (o : OS) :
path ∉ denied o → names o !! path = None →
OpenFile path o = ((length (handles o), None), created path o).
Proof. intros Hd Hn. unfold OpenFile. rewrite decide_False by done. by rewrite Hn. Qed.

Lemma file_of_created (path : string) (h ino : nat) (o : OS) :
file_of h o = Some ino → file_of h (created path o) = Some ino.
Proof.
intros [Hh Hlt]%file_of_Some. unfold file_of, created. simpl.
rewrite lookup_app_l by (by eapply lookup_lt_Some). rewrite Hh.
rewrite decide_True; [done|]. rewrite length_app. simpl. lia.
Qed.

Lemma file_of_created_new (path : string) (o : OS) :
file_of (length (handles o)) (created path o) = Some (length (inodes o)).
Proof.
unfold file_of, created. simpl.
rewrite lookup_app_r by done. rewrite Nat.sub_diag. simpl.
rewrite decide_True; [done|]. rewrite length_app. simpl. lia.
Qed.

(** One round of the loop of [doMonitorFiles] on a writer in working order
    whose file is missing: a new empty file is created at the path, the slot
    holds a new writer on it, the old writer's pending bytes are appended to
    its old file, which is made durable, and its handle is closed. *)
Lemma monitorLevel_missing (i : Level) (w : World) (sb : syncBufio) (ino : nat) :
0 <= i → mutex (fb w) = false →
writers (fb w) !! Z.to_nat i = Some (Some sb) →
writer_ok (sys w) sb → file_of (file sb) (sys w) = Some ino →
Stat (filePath sb) (sys w) = Some ErrNotExist →
monitorLevel i w
= Done false
    (mkWorld (set_writers
                (<[Z.to_nat i := Some (newSyncBufio (length (handles (sys w)))
                                         (filePath sb) defaultBufferSize)]>) (fb w))
       (closed (file sb)
          (synced ino (appended ino (bufio.buf (writer sb))
                         (created (filePath sb) (sys w)))))).
Proof.
intros Hi Hm Hs Hok Hf Hst. pose proof (proj1 (Stat_missing _ _) Hst) as [Hd Hn].
unfold monitorLevel.
rewrite (bind_Done _ _ _ _ _ (getWriter_lookup i w _ Hi Hs)).
rewrite bind_run, syscall_run. cbn [fst snd]. rewrite Hst. cbn [IsNotExist negb].
assert (Hlock : lockerWrapper i (filePath sb) (mkWorld (fb w) (sys w))
          = Done None
              (mkWorld (set_writers
                          (<[Z.to_nat i := Some (newSyncBufio (length (handles (sys w)))
                                                   (filePath sb) defaultBufferSize)]>)
                          (fb w))
                 (created (filePath sb) (sys w)))).
{ unfold lockerWrapper.
  rewrite (bind_Done _ _ _ _ _ (Lock_free (mkWorld (fb w) (sys w)) Hm)).
  unfold defer.
  rewrite (openSyncBufio_ok i (filePath sb) _ (created (filePath sb) (sys w))).
  - unfold Unlock. cbn [fb sys Scenario.held set_mutex set_writers mutex].
    do 2 f_equal. destruct (fb w); simpl in *. by subst.
  - by apply OpenFile_missing.
  - done.
  - by eapply lookup_lt_Some. }
rewrite (bind_Done _ _ _ _ _ Hlock).
rewrite bind_run, syscall_run.
rewrite (SyncBufio_close_open sb ino).
- done.
- destruct Hok as (? & ? & [j Hj] & ?). repeat split; try done.
  cbn [sys]. rewrite (file_of_created _ _ _ _ Hj). by eexists.
- cbn [sys]. by apply file_of_created.
Qed.

(** The loop of [doMonitorFiles] over levels [ls] whose files are all
    missing runs through them without returning: each level is reopened on
    a new empty file at its path; its old writer is flushed into its old
    file and closed; the other slots, handles, files and names are as
    before. *)
Lemma monitor_loop (ls : list Level) (w : World) :
healthy w → mutex (fb w) = false → NoDup ls →
(∀ i, i ∈ ls → 0 <= i ∧ ∃ sb, writers (fb w) !! Z.to_nat i = Some (Some sb)
                              ∧ Stat (filePath sb) (sys w) = Some ErrNotExist) →
(∀ (i j : nat) sbi sbj,
   writers (fb w) !! i = Some (Some sbi) → writers (fb w) !! j = Some (Some sbj) →
   i ≠ j → filePath sbi ≠ filePath sbj) →
∃ w', (∀ ls2, forReturn (ls ++ ls2) monitorLevel w = forReturn ls2 monitorLevel w')
      ∧ same_but_writers (fb w) (fb w') ∧ healthy w'
      ∧ denied (sys w') = denied (sys w) ∧ stderr (sys w') = stderr (sys w)
      ∧ now (sys w') = now (sys w)
      ∧ (∀ k : nat, Z.of_nat k ∉ ls → writers (fb w') !! k = writers (fb w) !! k)
      ∧ (length (handles (sys w')) = length (handles (sys w)) + length ls)%nat
      ∧ (∀ h : nat, (h < length (handles (sys w)))%nat →
           (∀ (k : nat) sb, Z.of_nat k ∈ ls → writers (fb w) !! k = Some (Some sb) →
              file sb ≠ h) →
           handles (sys w') !! h = handles (sys w) !! h)
      ∧ (length (inodes (sys w')) = length (inodes (sys w)) + length ls)%nat
      ∧ (∀ j : nat, (j < length (inodes (sys w)))%nat →
           (∀ (k : nat) sb, Z.of_nat k ∈ ls → writers (fb w) !! k = Some (Some sb) →
              file_of (file sb) (sys w) ≠ Some j) →
           inodes (sys w') !! j = inodes (sys w) !! j)
      ∧ (∀ p, (∀ (k : nat) sb, Z.of_nat k ∈ ls → writers (fb w) !! k = Some (Some sb) →
                 p ≠ filePath sb) →
              names (sys w') !! p = names (sys w) !! p)
      ∧ ∀ (k : nat) sb ino nd,
          Z.of_nat k ∈ ls → writers (fb w) !! k = Some (Some sb) →
          file_of (file sb) (sys w) = Some ino → inodes (sys w) !! ino = Some nd →
          ∃ h' ino',
            writers (fb w') !! k
            = Some (Some (newSyncBufio h' (filePath sb) defaultBufferSize))
            ∧ file_of h' (sys w') = Some ino'
            ∧ (length (inodes (sys w)) ≤ ino')%nat
            ∧ names (sys w') !! filePath sb = Some ino'
            ∧ inodes (sys w') !! ino' = Some (mkInode [] [])
            ∧ handles (sys w') !! file sb = Some None
            ∧ inodes (sys w') !! ino
              = Some (mkInode (content nd ++ bufio.buf (writer sb))
                        (content nd ++ bufio.buf (writer sb))).
Proof.
intros Hh Hm Hnd. revert w Hh Hm.
induction ls as [|i ls IH]; intros w Hh Hm Hls Hpaths.
- exists w. split; [done|]. split; [apply same_but_writers_refl|]. split; [done|].
  repeat (split; [done || lia|]). intros k sb ino nd Hk. set_solver.
- apply NoDup_cons in Hnd as [Hi Hnd].
  destruct (Hls i) as (Hi0 & sb & Hsb & Hst); [by left|].
  pose proof (proj1 (Stat_missing _ _) Hst) as [Hden Hnone].
  pose proof (proj1 Hh _ _ Hsb) as Hok.
  pose proof Hok as (_ & _ & [ino Hino] & _).
  pose proof (file_of_Some _ _ _ Hino) as [Hhandle Hlt].
  pose proof (lookup_lt_Some _ _ _ Hhandle) as Hhlt.
  destruct (lookup_lt_is_Some_2 (inodes (sys w)) ino Hlt) as [nd Hnd0].
  set (h0 := length (handles (sys w))).
  set (ino0 := length (inodes (sys w))).
  set (sb0 := newSyncBufio h0 (filePath sb) defaultBufferSize).
  set (o0 := created (filePath sb) (sys w)).
  set (o1 := closed (file sb) (synced ino (appended ino (bufio.buf (writer sb)) o0))).
  set (w1 := mkWorld (set_writers (<[Z.to_nat i := Some sb0]>) (fb w)) o1).
  assert (Hstep : monitorLevel i w = Done false w1) by (by apply monitorLevel_missing).
  assert (Hslot1 : ∀ k : nat, k ≠ Z.to_nat i →
            writers (fb w1) !! k = writers (fb w) !! k).
  { intros k Hk. simpl. by rewrite list_lookup_insert_ne. }
  assert (Hslot1i : writers (fb w1) !! Z.to_nat i = Some (Some sb0)).
  { simpl. apply list_lookup_insert_eq. by eapply lookup_lt_Some. }
  assert (Hfile1 : ∀ h j, file_of h (sys w) = Some j → h ≠ file sb →
            file_of h o1 = Some j).
  { intros h j Hj Hne. unfold o1. rewrite file_of_closed_ne by done.
    rewrite file_of_synced, file_of_appended. by apply file_of_created. }
  assert (Hfile1n : file_of h0 o1 = Some ino0).
  { unfold o1. rewrite file_of_closed_ne by (unfold h0; lia).
    rewrite file_of_synced, file_of_appended. apply file_of_created_new. }
  assert (Hlenh1 : length (handles o1) = S h0).
  { unfold o1, o0, closed, created. simpl. rewrite length_insert, length_app. simpl.
    unfold h0. lia. }
  assert (Hleni1 : length (inodes o1) = S ino0).
  { unfold o1, o0, created. simpl. rewrite !length_alter, length_app. simpl.
    unfold ino0. lia. }
  assert (Hhandles1 : ∀ h, h ≠ file sb → (h < h0)%nat →
            handles o1 !! h = handles (sys w) !! h).
  { intros h Hne Hl. unfold o1, o0, closed, created. simpl.
    rewrite list_lookup_insert_ne by done. by rewrite lookup_app_l. }
  assert (Hhandles1c : handles o1 !! file sb = Some None).
  { unfold o1, o0, closed, created. simpl. apply list_lookup_insert_eq.
    rewrite length_app. lia. }
  assert (Hinodes1 : ∀ j, j ≠ ino → (j < ino0)%nat →
            inodes o1 !! j = inodes (sys w) !! j).
  { intros j Hne Hl. unfold o1, o0, created. simpl.
    rewrite !list_lookup_alter_ne by done. by rewrite lookup_app_l. }
  assert (Hinodes1c : inodes o1 !! ino
            = Some (mkInode (content nd ++ bufio.buf (writer sb))
                      (content nd ++ bufio.buf (writer sb)))).
  { unfold o1. cbn [closed set_handles inodes]. apply committed_lookup.
    unfold o0, created. simpl. by rewrite lookup_app_l. }
  assert (Hinodes1n : inodes o1 !! ino0 = Some (mkInode [] [])).
  { unfold o1, o0, created. simpl.
    rewrite !list_lookup_alter_ne by (unfold ino0; lia).
    rewrite lookup_app_r by done. unfold ino0. by rewrite Nat.sub_diag. }
  assert (Hnames1 : ∀ p, p ≠ filePath sb → names o1 !! p = names (sys w) !! p).
  { intros p Hp. unfold o1, o0, created. simpl. by rewrite lookup_insert_ne. }
  assert (Hde1 : denied o1 = denied (sys w)) by done.
  assert (Hnames1n : names o1 !! filePath sb = Some ino0).
  { unfold o1, o0, created. simpl. by rewrite lookup_insert_eq. }
  assert (Hold : ∀ (k : nat) x, writers (fb w1) !! k = Some (Some x) →
            (k = Z.to_nat i ∧ x = sb0)
            ∨ (k ≠ Z.to_nat i ∧ writers (fb w) !! k = Some (Some x))).
  { intros k x Hk. destruct (decide (k = Z.to_nat i)) as [->|Hne].
    - left. split; [done|]. congruence.
    - right. split; [done|]. by rewrite <- Hslot1. }
  assert (Hkeepf : ∀ (k : nat) x, k ≠ Z.to_nat i → writers (fb w) !! k = Some (Some x) →
            ∃ j, file_of (file x) (sys w) = Some j ∧ file_of (file x) o1 = Some j
                 ∧ (j < ino0)%nat ∧ j ≠ ino ∧ file x ≠ file sb ∧ (file x < h0)%nat).
  { intros k x Hne Hx. pose proof (proj1 Hh _ _ Hx) as (_ & _ & [j Hj] & _).
    pose proof (file_of_Some _ _ _ Hj) as [Hjh Hjlt].
    assert (Hfne : file x ≠ file sb) by (by eapply (healthy_handles_ne w k (Z.to_nat i))).
    exists j. split; [done|]. split; [by apply Hfile1|]. split; [done|].
    split; [|split; [done|by eapply lookup_lt_Some]].
    intros ->. apply (proj2 Hh _ _ _ _ Hx Hsb Hne). congruence. }
  assert (Hh1 : healthy w1).
  { split.
    - intros k x [[-> ->]|[Hne Hx]]%Hold.
      + assert (is_Some (file_of (file sb0) o1))
          by (change (file sb0) with h0; rewrite Hfile1n; by eexists).
        by repeat split.
      + destruct (Hkeepf k x Hne Hx) as (j & _ & Hj & _).
        pose proof (proj1 Hh _ _ Hx) as (? & ? & _ & ?).
        assert (is_Some (file_of (file x) o1)) by (rewrite Hj; by eexists).
        by repeat split.
    - intros k j x y Hk Hj Hne. change (sys w1) with o1.
      apply Hold in Hk as [[-> ->]|[Hnk Hx]]; apply Hold in Hj as [[-> ->]|[Hnj Hy]].
      + done.
      + destruct (Hkeepf j y Hnj Hy) as (b & _ & -> & ? & _).
        change (file sb0) with h0. rewrite Hfile1n. intros [= ?]. lia.
      + destruct (Hkeepf k x Hnk Hx) as (a & _ & -> & ? & _).
        change (file sb0) with h0. rewrite Hfile1n. intros [= ?]. lia.
      + destruct (Hkeepf k x Hnk Hx) as (a & Ha & -> & _).
        destruct (Hkeepf j y Hnj Hy) as (b & Hb & -> & _).
        rewrite <- Ha, <- Hb. by eapply (proj2 Hh). }
  assert (Hin : ∀ k : nat, Z.of_nat k ∈ ls → k ≠ Z.to_nat i).
  { intros k Hk ->. apply Hi. by rewrite Z2Nat.id in Hk. }
  destruct (IH Hnd w1 Hh1) as (w' & Hrun & Hsw & Hh' & Hde & Hst' & Hno & Hslots
      & Hlh & Hhandles & Hli & Hinodes & Hnames & Hspec).
  { done. }
  { intros j Hj. destruct (Hls j) as (Hj0 & sbj & Hsbj & Hstj); [by right|].
    split; [done|]. exists sbj.
    assert (Hne : Z.to_nat j ≠ Z.to_nat i).
    { intros Heq. apply Hi. replace i with j by lia. done. }
    split; [by rewrite Hslot1|].
    apply Stat_missing in Hstj as [? ?]. apply Stat_missing. change (sys w1) with o1. rewrite Hde1.
    split; [done|]. rewrite Hnames1; [done|]. by eapply (Hpaths _ _ _ _ Hsbj Hsb). }
  { intros a b x y [[-> ->]|[Hna Hx]]%Hold [[-> ->]|[Hnb Hy]]%Hold Hne; try done.
    - change (filePath sb0) with (filePath sb). by eapply (Hpaths _ _ _ _ Hsb Hy).
    - change (filePath sb0) with (filePath sb). by eapply (Hpaths _ _ _ _ Hx Hsb).
    - by eapply Hpaths. }
  change (sys w1) with o1 in *.
  exists w'.
  assert (Hmem : ∀ k : nat, Z.of_nat k ∈ i :: ls ↔ k = Z.to_nat i ∨ Z.of_nat k ∈ ls).
  { intros k. rewrite elem_of_cons. split; (intros [?|?]; [left; lia|by right]). }
  assert (Hls1 : ∀ (k : nat) x, Z.of_nat k ∈ ls → writers (fb w1) !! k = Some (Some x) →
            writers (fb w) !! k = Some (Some x)).
  { intros k x Hk Hx. rewrite <- Hslot1; [done|]. by apply Hin. }
  split.
  { intros ls2. cbn [app forReturn]. rewrite (bind_Done _ _ _ _ _ Hstep). apply Hrun. }
  split; [eapply same_but_writers_trans; [apply same_but_writers_insert|exact Hsw]|].
  split; [done|]. split; [by rewrite Hde|]. split; [by rewrite Hst'|].
  split; [by rewrite Hno|]. split.
  { intros k Hk. rewrite Hmem in Hk. rewrite Hslots by tauto. apply Hslot1. tauto. }
  split; [rewrite Hlh, Hlenh1; simpl; unfold h0; lia|]. split.
  { intros h Hl Hfree. rewrite Hhandles.
    - apply Hhandles1; [|done]. intros ->. eapply (Hfree (Z.to_nat i)); [|done..].
      apply Hmem. by left.
    - rewrite Hlenh1. unfold h0. lia.
    - intros k x Hk Hx. apply (Hfree k); [apply Hmem; by right|by apply Hls1]. }
  split; [rewrite Hli, Hleni1; simpl; unfold ino0; lia|]. split.
  { intros j Hl Hfree. rewrite Hinodes.
    - apply Hinodes1; [|done]. intros ->. eapply (Hfree (Z.to_nat i)); [|done..].
      apply Hmem. by left.
    - rewrite Hleni1. unfold ino0. lia.
    - intros k x Hk Hx. pose proof (Hls1 k x Hk Hx) as Hx0.
      destruct (Hkeepf k x (Hin k Hk) Hx0) as (b & Hb & -> & _). rewrite <- Hb.
      apply (Hfree k); [apply Hmem; by right|done]. }
  split.
  { intros p Hfree. rewrite Hnames.
    - apply Hnames1. eapply (Hfree (Z.to_nat i)); [|done]. apply Hmem. by left.
    - intros k x Hk Hx. apply (Hfree k); [apply Hmem; by right|by apply Hls1]. }
  intros k x inok ndk Hk Hx Hfk Hnk. apply Hmem in Hk as [->|Hk].
  + assert (x = sb) as -> by congruence.
    assert (inok = ino) as -> by congruence.
    assert (ndk = nd) as -> by congruence.
    exists h0, ino0.
    assert (Hh0' : handles (sys w') !! h0 = handles o1 !! h0).
    { apply Hhandles; [rewrite Hlenh1; lia|].
      intros k y Hk Hy. pose proof (Hls1 k y Hk Hy) as Hy0.
      destruct (Hkeepf k y (Hin k Hk) Hy0) as (_ & _ & _ & _ & _ & _ & ?). lia. }
    assert (Hfree_i : ∀ (k : nat) (y : syncBufio),
              Z.of_nat k ∈ ls → writers (fb w1) !! k = Some (Some y) →
              file_of (file y) o1 ≠ Some ino0 ∧ file_of (file y) o1 ≠ Some ino
              ∧ file y ≠ file sb ∧ filePath sb ≠ filePath y).
    { intros k y Hk Hy. pose proof (Hls1 k y Hk Hy) as Hy0.
      destruct (Hkeepf k y (Hin k Hk) Hy0) as (b & _ & -> & ? & ? & ? & _).
      split; [intros [= ?]; lia|]. split; [congruence|]. split; [done|].
      eapply (Hpaths _ _ _ _ Hsb Hy0). intros E. by eapply (Hin k). }
    split; [by rewrite Hslots by (by rewrite Z2Nat.id)|].
    split.
    { apply file_of_Some in Hfile1n as [Hf1 _]. unfold file_of.
      rewrite Hh0', Hf1. rewrite decide_True; [done|]. rewrite Hli, Hleni1. lia. }
    split; [done|].
    split; [rewrite Hnames; [done|]; intros k y Hk Hy; by apply (Hfree_i k y)|].
    split; [rewrite Hinodes; [done|rewrite Hleni1; lia|];
            intros k y Hk Hy; by apply (Hfree_i k y)|].
    split.
    * rewrite Hhandles; [done|rewrite Hlenh1; unfold h0; lia|].
      intros k y Hk Hy. by apply (Hfree_i k y).
    * rewrite Hinodes; [done|rewrite Hleni1; unfold ino0; lia|].
      intros k y Hk Hy. by apply (Hfree_i k y).
  + pose proof (Hin k Hk) as Hne.
    destruct (Hkeepf k x Hne Hx) as (b & Hb & Hb1 & Hblt & Hbne & _).
    assert (b = inok) as -> by congruence.
    destruct (Hspec k x inok ndk Hk) as (h' & ino' & ? & ? & ? & ? & ? & ? & ?).
    * by rewrite Hslot1.
    * done.
    * by rewrite Hinodes1.
    * exists h', ino'. repeat split; try done. rewrite Hleni1 in *. unfold ino0 in *. lia.
Qed.

Lemma elem_of_take_levels (n k : nat) :
(n ≤ Z.to_nat levelCount)%nat → Z.of_nat k ∈ take n levels ↔ (k < n)%nat.
Proof.
unfold levelCount, levels, Debug, Info, Warning, Error, Fatal. intros Hn.
destruct n as [|[|[|[|[|[|n]]]]]]; simpl in *;
  rewrite ?elem_of_cons, ?elem_of_nil; lia.
Qed.

Lemma drop_levels (n : nat) :
(n < Z.to_nat levelCount)%nat → ∃ rest, drop n levels = Z.of_nat n :: rest.
Proof.
unfold levelCount, levels, Debug, Info, Warning, Error, Fatal. intros Hn.
destruct n as [|[|[|[|[|n]]]]]; simpl in *; try (by eexists). lia.
Qed.

(** The monitor tick on an open backend where the files of the first [n]
    levels are missing and the file of level [n], if there is such a level,
    is in place. *)
Lemma monitor_tick_open (w : World) (n : nat) :
opened w → (n ≤ Z.to_nat levelCount)%nat →
(∀ (k : nat) sb, (k < n)%nat → writers (fb w) !! k = Some (Some sb) →
   Stat (filePath sb) (sys w) = Some ErrNotExist) →
(∀ sb, writers (fb w) !! n = Some (Some sb) → Stat (filePath sb) (sys w) = None) →
∃ w', doMonitorFiles w = Done tt w' ∧ opened w'
      ∧ same_but_writers (fb w) (fb w')
      ∧ denied (sys w') = denied (sys w) ∧ stderr (sys w') = stderr (sys w)
      ∧ now (sys w') = now (sys w)
      ∧ (∀ k : nat, (n ≤ k)%nat → writers (fb w') !! k = writers (fb w) !! k)
      ∧ (∀ p, (∀ (k : nat) sb, (k < n)%nat → writers (fb w) !! k = Some (Some sb) →
                 p ≠ filePath sb) →
              names (sys w') !! p = names (sys w) !! p)
      ∧ ∀ (k : nat) sb ino,
          (k < n)%nat → writers (fb w) !! k = Some (Some sb) →
          file_of (file sb) (sys w) = Some ino →
          ∃ h' ino',
            writers (fb w') !! k
            = Some (Some (newSyncBufio h' (filePath sb) defaultBufferSize))
            ∧ file_of h' (sys w') = Some ino'
            ∧ (length (inodes (sys w)) ≤ ino')%nat
            ∧ names (sys w') !! filePath sb = Some ino'
            ∧ file_content ino' (sys w') = Some []
            ∧ file_of (file sb) (sys w') = None
            ∧ file_content ino (sys w') = logged k w
            ∧ file_durable ino (sys w') = logged k w.
Proof.
intros Hop Hn Hmiss Hpres. pose proof Hop as (Hm & Hlen & _).
pose proof (opened_healthy w Hop) as Hh.
assert (Hnd : NoDup (take n levels)).
{ pose proof NoDup_levels as H. rewrite <- (take_drop n levels) in H.
  by apply NoDup_app in H as [? _]. }
destruct (monitor_loop (take n levels) w Hh Hm Hnd)
  as (w' & Hrun & Hsw & Hh' & Hde & Hst & Hno & Hslots & Hlh & Hhandles & Hli
      & Hinodes & Hnames & Hspec).
{ intros i Hi. assert (Hil : i ∈ levels).
  { rewrite <- (take_drop n levels). apply elem_of_app. by left. }
  pose proof (proj1 (elem_of_levels i) Hil). split; [lia|].
  destruct (opened_slot w (Z.to_nat i) Hop) as (sb & Hsb & _); [unfold levelCount; lia|].
  exists sb. split; [done|]. apply (Hmiss (Z.to_nat i)); [|done].
  apply (elem_of_take_levels n); [done|]. by rewrite Z2Nat.id by lia. }
{ intros i j sbi sbj. apply (opened_distinct_paths w i j sbi sbj Hop). }
assert (Hslot_ge : ∀ k : nat, (n ≤ k)%nat → writers (fb w') !! k = writers (fb w) !! k).
{ intros k Hk. apply Hslots. rewrite elem_of_take_levels by done. lia. }
assert (Hnames' : ∀ p, (∀ (k : nat) sb, (k < n)%nat →
            writers (fb w) !! k = Some (Some sb) → p ≠ filePath sb) →
            names (sys w') !! p = names (sys w) !! p).
{ intros p Hp. apply Hnames. intros k sb Hk%elem_of_take_levels; [|done]. by apply Hp. }
assert (Hspec' : ∀ (k : nat) sb, (k < n)%nat → writers (fb w) !! k = Some (Some sb) →
          ∃ ino nd h' ino',
            file_of (file sb) (sys w) = Some ino ∧ inodes (sys w) !! ino = Some nd
            ∧ writers (fb w') !! k
              = Some (Some (newSyncBufio h' (filePath sb) defaultBufferSize))
            ∧ file_of h' (sys w') = Some ino'
            ∧ (length (inodes (sys w)) ≤ ino')%nat
            ∧ names (sys w') !! filePath sb = Some ino'
            ∧ inodes (sys w') !! ino' = Some (mkInode [] [])
            ∧ handles (sys w') !! file sb = Some None
            ∧ inodes (sys w') !! ino
              = Some (mkInode (content nd ++ bufio.buf (writer sb))
                        (content nd ++ bufio.buf (writer sb)))).
{ intros k sb Hk Hsb.
  destruct (healthy_file w k sb Hh Hsb) as (ino & nd & Hf & Hn0).
  destruct (Hspec k sb ino nd) as (h' & ino' & H); [by apply elem_of_take_levels|done..|].
  exists ino, nd, h', ino'. split; [done|]. split; [done|]. exact H. }
exists w'. split.
{ unfold doMonitorFiles. rewrite <- (take_drop n levels) at 1. rewrite Hrun.
  destruct (decide (n < Z.to_nat levelCount)%nat) as [Hlt|Hge].
  - destruct (drop_levels n Hlt) as (rest & ->). cbn [forReturn].
    destruct (opened_slot w n Hop Hlt) as (sb & Hsb & _).
    assert (Hpn : monitorLevel (Z.of_nat n) w' = Done true w').
    { apply (monitorLevel_present (Z.of_nat n) w' sb); [lia| |].
      + rewrite Nat2Z.id. by rewrite Hslot_ge.
      + pose proof (Hpres sb Hsb) as Hp. unfold Stat in *. rewrite Hde.
        destruct (decide _); [done|]. rewrite Hnames'; [done|].
        intros k x Hk Hx. apply (opened_distinct_paths w n k sb x Hop Hsb Hx). lia. }
    by rewrite (bind_Done _ _ _ _ _ Hpn).
  - rewrite drop_ge; [done|]. unfold levels, levelCount in *. simpl in *. lia. }
split.
{ apply opened_intro.
  - by destruct Hsw as (-> & _).
  - by destruct Hsw as (_ & _ & _ & _ & _ & _ & ->).
  - intros k Hk. destruct (opened_slot w k Hop Hk) as (sb & Hsb & _).
    destruct (decide (k < n)%nat) as [Hlt|Hge].
    + destruct (Hspec' k sb Hlt Hsb) as (_ & _ & h' & _ & _ & _ & Hk' & _).
      eexists. split; [exact Hk'|]. by apply (proj1 Hh' _ _ Hk').
    + exists sb. assert (Hk' : writers (fb w') !! k = Some (Some sb))
        by (rewrite Hslot_ge by lia; done).
      split; [done|]. by apply (proj1 Hh' _ _ Hk').
  - assert (Hpath : ∀ (k : nat) x, writers (fb w') !! k = Some (Some x) →
              ∃ y, writers (fb w) !! k = Some (Some y) ∧ filePath x = filePath y).
    { intros k x Hx.
      assert (Hk : (k < Z.to_nat levelCount)%nat).
      { apply lookup_lt_Some in Hx. destruct Hsw as (_ & _ & _ & _ & _ & _ & Hl).
        rewrite Hl in Hx. lia. }
      destruct (opened_slot w k Hop Hk) as (y & Hy & _). exists y. split; [done|].
      destruct (decide (k < n)%nat) as [Hlt|Hge].
      - destruct (Hspec' k y Hlt Hy) as (_ & _ & h' & _ & _ & _ & Hk' & _).
        rewrite Hk' in Hx. by injection Hx as <-.
      - rewrite Hslot_ge in Hx by lia. congruence. }
    intros i j x y Hi Hj Hne.
    destruct (Hpath i x Hi) as (x0 & Hx0 & ->). destruct (Hpath j y Hj) as (y0 & Hy0 & ->).
    by apply (opened_distinct_paths w i j x0 y0 Hop).
  - apply Hh'. }
split; [done|]. split; [done|]. split; [done|]. split; [done|]. split; [done|].
split; [done|].
intros k sb ino Hk Hsb Hf.
destruct (Hspec' k sb Hk Hsb)
  as (ino0 & nd & h' & ino' & Hf0 & Hn0 & Hk' & Hf' & Hge & Hn' & He' & Hc' & Hi').
assert (ino0 = ino) as -> by congruence.
exists h', ino'. split; [done|]. split; [done|]. split; [done|]. split; [done|].
rewrite (logged_Some k w sb ino nd Hsb Hf Hn0).
unfold file_content, file_durable, file_of. rewrite He', Hc', Hi'. done.
Qed.

(** X16: when every level's active file is missing, one monitor tick
    on an open backend reopens every level: each slot holds a new writer
    with an empty buffer on a new, empty file at the same path; the old
    writer's pending bytes have been appended to its old file, which holds
    durably everything logged at the level, and the old handle is closed.
    The backend is open again, no diagnostic is printed and no other name
    changes. *)
Theorem doMonitorFiles_reopens_every_missing_file (w : World) :
opened w → all_missing w →
∃ w', doMonitorFiles w = Done tt w' ∧ opened w' ∧ attached w'
      ∧ stderr (sys w') = stderr (sys w)
      ∧ (∀ p, (∀ (k : nat) sb, writers (fb w) !! k = Some (Some sb) → p ≠ filePath sb) →
              names (sys w') !! p = names (sys w) !! p)
      ∧ ∀ (k : nat) sb ino,
          writers (fb w) !! k = Some (Some sb) →
          file_of (file sb) (sys w) = Some ino →
          ∃ h' ino',
            writers (fb w') !! k
            = Some (Some (newSyncBufio h' (filePath sb) defaultBufferSize))
            ∧ file_of h' (sys w') = Some ino'
            ∧ (length (inodes (sys w)) ≤ ino')%nat
            ∧ names (sys w') !! filePath sb = Some ino'
            ∧ file_content ino' (sys w') = Some []
            ∧ file_of (file sb) (sys w') = None
            ∧ file_content ino (sys w') = logged k w
            ∧ file_durable ino (sys w') = logged k w.
Proof.
intros Hop Hmiss. pose proof Hop as (_ & Hlen & _).
pose proof (opened_healthy w Hop) as Hh.
destruct (monitor_tick_open w (Z.to_nat levelCount) Hop)
  as (w' & Hrun & Hop' & Hsw & Hde & Hst & _ & _ & Hnames & Hspec); [done| | |].
{ intros k sb _ Hk%(opened_live w k sb Hop).
  by apply (Forall_lookup_1 _ _ _ _ Hmiss Hk). }
{ intros sb Hk%lookup_lt_Some. lia. }
assert (Hlt : ∀ (k : nat) sb, writers (fb w) !! k = Some (Some sb) →
          (k < Z.to_nat levelCount)%nat).
{ intros k sb Hk%lookup_lt_Some. lia. }
exists w'. split; [done|]. split; [done|]. split; [|split; [done|split]].
- apply Forall_lookup. intros k x Hx%(opened_live w' k x Hop').
  assert (Hk : (k < Z.to_nat levelCount)%nat).
  { apply lookup_lt_Some in Hx. destruct Hop' as (_ & <- & _). done. }
  destruct (opened_slot w k Hop Hk) as (sb & Hsb & _).
  destruct (healthy_file w k sb Hh Hsb) as (ino & nd & Hf & _).
  destruct (Hspec k sb ino Hk Hsb Hf) as (h' & ino' & Hk' & Hf' & _ & Hn' & _).
  rewrite Hk' in Hx. injection Hx as <-. cbn [newSyncBufio filePath file]. congruence.
- intros p Hp. apply Hnames. intros k sb _ Hk. by apply (Hp k).
- intros k sb ino Hk Hf. by apply Hspec; [eapply Hlt|..].
Qed.

Lemma doMonitorFiles_reopens_every_missing_file_witness :
opened Scenario.allMissing ∧ all_missing Scenario.allMissing
∧ ∃ w', doMonitorFiles Scenario.allMissing = Done tt w' ∧ opened w'
        ∧ file_durable 1 (sys w') = Some Scenario.msg.
Proof.
assert (Hop : opened Scenario.allMissing) by (apply (bool_decide_unpack _); by vm_compute).
assert (Hmiss : all_missing Scenario.allMissing)
  by (apply (bool_decide_unpack _); by vm_compute).
split; [exact Hop|]. split; [exact Hmiss|].
destruct (doMonitorFiles_reopens_every_missing_file Scenario.allMissing Hop Hmiss)
  as (w' & Hrun & Hop' & _ & _ & _ & Hspec).
exists w'. split; [exact Hrun|]. split; [exact Hop'|].
destruct (Hspec 1%nat
  (mkSyncBufio (bufio.mkWriter Scenario.msg None 1 defaultBufferSize) 1 19
     "log/INFO.log") 1%nat) as (h' & ino' & _ & _ & _ & _ & _ & _ & _ & Hd);
  [by vm_compute..|].
refine (eq_trans Hd _). by vm_compute.
Defined.

(** X17: the monitor tick heals only up to the first file in place:
    when the files of the levels before level [n] are missing and the file
    of level [n] is in place, the tick reopens exactly the levels before
    [n] and returns; the slot of every level from [n] on is untouched, and a
    file missing there is still missing after the tick. *)
Theorem doMonitorFiles_stops_at_first_file_in_place (w : World) (n : nat)
  (sbn : syncBufio) :
opened w →
(∀ (k : nat) sb, (k < n)%nat → writers (fb w) !! k = Some (Some sb) →
   Stat (filePath sb) (sys w) = Some ErrNotExist) →
writers (fb w) !! n = Some (Some sbn) → Stat (filePath sbn) (sys w) = None →
∃ w', doMonitorFiles w = Done tt w' ∧ opened w'
      ∧ (∀ (k : nat) sb, (k < n)%nat → writers (fb w) !! k = Some (Some sb) →
           Stat (filePath sb) (sys w') = None
           ∧ ∃ h', writers (fb w') !! k
                   = Some (Some (newSyncBufio h' (filePath sb) defaultBufferSize)))
      ∧ ∀ (k : nat) sb, (n ≤ k)%nat → writers (fb w) !! k = Some (Some sb) →
          writers (fb w') !! k = Some (Some sb)
          ∧ Stat (filePath sb) (sys w') = Stat (filePath sb) (sys w).
Proof.
intros Hop Hmiss Hn Hpres. pose proof Hop as (_ & Hlen & _).
pose proof (opened_healthy w Hop) as Hh.
assert (Hnlt : (n < Z.to_nat levelCount)%nat) by (apply lookup_lt_Some in Hn; lia).
destruct (monitor_tick_open w n Hop)
  as (w' & Hrun & Hop' & Hsw & Hde & Hst & _ & Hslots & Hnames & Hspec); [lia|done| |].
{ intros sb Hsb. by assert (sb = sbn) as -> by congruence. }
exists w'. split; [done|]. split; [done|]. split.
- intros k sb Hk Hsb.
  destruct (healthy_file w k sb Hh Hsb) as (ino & nd & Hf & _).
  destruct (Hspec k sb ino Hk Hsb Hf) as (h' & ino' & Hk' & _ & _ & Hn' & _).
  split; [|by exists h'].
  pose proof (proj1 (Stat_missing _ _) (Hmiss k sb Hk Hsb)) as [Hd _].
  unfold Stat. rewrite Hde, decide_False by done. by rewrite Hn'.
- intros k sb Hk Hsb. split; [by rewrite Hslots|].
  unfold Stat. rewrite Hde, Hnames; [done|].
  intros j x Hj Hx. apply (opened_distinct_paths w k j sb x Hop Hsb Hx). lia.
Qed.

Lemma doMonitorFiles_stops_at_first_file_in_place_witness :
let w := Scenario.unlink "log/WARNING.log" (Scenario.unlink "log/DEBUG.log" Scenario.opened0) in
∃ w', doMonitorFiles w = Done tt w'
      ∧ Stat "log/DEBUG.log" (sys w') = None
      ∧ Stat "log/WARNING.log" (sys w') = Some ErrNotExist.
Proof.
intros w.
assert (Hop : opened w) by (apply (bool_decide_unpack _); by vm_compute).
destruct (doMonitorFiles_stops_at_first_file_in_place w 1
            (newSyncBufio 1 "log/INFO.log" defaultBufferSize) Hop)
  as (w' & Hrun & _ & Hbefore & Hafter).
- intros k sb Hk Hsb. assert (k = 0%nat) as -> by lia.
  vm_compute in Hsb. injection Hsb as <-. by vm_compute.
- by vm_compute.
- by vm_compute.
- exists w'. split; [exact Hrun|]. split.
  + refine (proj1 (Hbefore 0%nat (newSyncBufio 0 "log/DEBUG.log" defaultBufferSize)
                     _ _)); (lia || by vm_compute).
  + refine (eq_trans (proj2 (Hafter 2%nat
                               (newSyncBufio 2 "log/WARNING.log" defaultBufferSize)
                               _ _)) _); (lia || by vm_compute).
Defined.

End MonitorReopen.

(** ** A rotation tick followed by a monitor tick *)

Section RotateThenReopen.

Lemma at_home_intro (w : World) :
opened w →
(∀ (k : nat) sb, writers (fb w) !! k = Some (Some sb) →
   filePath sb = activePath (dir (fb w)) (Z.of_nat k)) →
at_home w.
Proof.
intros Hop Hpaths. unfold at_home. apply list_eq. intros k.
destruct (decide (k < Z.to_nat levelCount)%nat) as [Hlt|Hge].
- destruct (opened_slot w k Hop Hlt) as (sb & Hsb & _).
  pose proof (Hpaths k sb Hsb) as Hp.
  apply (opened_live w k sb Hop) in Hsb.
  rewrite list_lookup_fmap, Hsb. simpl. rewrite Hp.
  unfold levelCount in Hlt.
  destruct k as [|[|[|[|[|k]]]]]; try done. simpl in Hlt. lia.
- pose proof Hop as (_ & Hlen & Hall & _).
  rewrite !lookup_ge_None_2; [done|..].
  + rewrite length_fmap. unfold levels, levelCount in *. simpl in *. lia.
  + rewrite length_fmap. unfold live. rewrite live_length by done. lia.
Qed.

Lemma logged_same (k : nat) (w w' : World) :
fb w' = fb w → inodes (sys w') = inodes (sys w) → handles (sys w') = handles (sys w) →
logged k w' = logged k w.
Proof.
intros Hfb Hi Hh. unfold logged, writer_at, file_of, file_content.
by rewrite Hfb, Hi, Hh.
Qed.

(** A rotation tick that is due, then a monitor tick. *)
Lemma rotate_then_reopen (w : World) :
let t := truncateToHour (now (sys w)) in
opened w → at_home w → attached w →
rotateByHour (fb w) = true → lastRotateTime (fb w) < Unix t →
keepHours (fb w) <= 0 →
(∀ (k : nat) sb, writers (fb w) !! k = Some (Some sb) →
   (filePath sb ∉ denied (sys w)) ∧ (archivePath sb t ∉ denied (sys w))) →
∃ w1 w2, doRotateByHour w = Done tt w1 ∧ doMonitorFiles w1 = Done tt w2
         ∧ opened w2 ∧ at_home w2 ∧ attached w2
         ∧ same_but_writers (fb w) (fb w2)
         ∧ denied (sys w2) = denied (sys w) ∧ now (sys w2) = now (sys w)
         ∧ (∀ p, (∀ (k : nat) sb, writers (fb w) !! k = Some (Some sb) →
                    p ≠ filePath sb ∧ p ≠ archivePath sb t) →
                 names (sys w2) !! p = names (sys w) !! p)
         ∧ ∀ (k : nat) sb ino,
             writers (fb w) !! k = Some (Some sb) →
             file_of (file sb) (sys w) = Some ino →
             ∃ h' ino',
               writers (fb w2) !! k
               = Some (Some (newSyncBufio h' (filePath sb) defaultBufferSize))
               ∧ file_of h' (sys w2) = Some ino'
               ∧ (length (inodes (sys w)) ≤ ino')%nat
               ∧ names (sys w2) !! filePath sb = Some ino'
               ∧ file_content ino' (sys w2) = Some []
               ∧ names (sys w2) !! archivePath sb t = Some ino
               ∧ file_content ino (sys w2) = logged k w
               ∧ file_durable ino (sys w2) = logged k w.
Proof.
intros t Hop Hhome Hatt Hrot Hdue Hkeep Hreach.
pose proof (opened_healthy w Hop) as Hh.
destruct (rotation_tick_open w Hop Hhome Hrot Hdue Hkeep Hreach)
  as (w1 & Hrun1 & Hfb1 & Hino1 & Hha1 & Hst1 & Hde1 & Hno1 & Hop1 & Hmiss1 & Hspec1 & Hframe1).
fold t in Hspec1.
pose proof Hop1 as (_ & Hlen1 & _).
destruct (monitor_tick_open w1 (Z.to_nat levelCount) Hop1)
  as (w2 & Hrun2 & Hop2 & Hsw2 & Hde2 & Hst2 & Hno2 & _ & Hnames2 & Hspec2); [done| | |].
{ intros k sb _ Hk%(opened_live w1 k sb Hop1).
  by apply (Forall_lookup_1 _ _ _ _ Hmiss1 Hk). }
{ intros sb Hk%lookup_lt_Some. lia. }
assert (Hlt : ∀ (k : nat) sb, writers (fb w) !! k = Some (Some sb) →
          (k < Z.to_nat levelCount)%nat).
{ intros k sb Hk%lookup_lt_Some. destruct Hop as (_ & <- & _). done. }
assert (Hfile1 : ∀ h, file_of h (sys w1) = file_of h (sys w))
  by (intros h; unfold file_of; by rewrite Hha1, Hino1).
assert (Hapart : ∀ (k j : nat) sb x,
          writers (fb w) !! k = Some (Some sb) → writers (fb w) !! j = Some (Some x) →
          archivePath sb t ≠ filePath x).
{ intros k j sb x Hk Hx.
  destruct (decide (k = j)) as [->|Hne].
  - assert (x = sb) as -> by congruence. intros E. symmetry in E.
    by apply append_ne_self in E.
  - unfold archivePath.
    rewrite (at_home_slot w k sb Hop Hhome Hk), (at_home_slot w j x Hop Hhome Hx).
    pose proof (active_paths_apart (dir (fb w)) ("." +:+ Format_2006010215 t) ""
                  (Z.of_nat k) (Z.of_nat j)) as Hap.
    rewrite append_nil_r in Hap. apply Hap; [apply (opened_slot_index w k sb Hop Hk)
                    |apply (opened_slot_index w j x Hop Hx)|lia]. }
assert (Hnew : ∀ (k : nat) sb ino,
          writers (fb w) !! k = Some (Some sb) → file_of (file sb) (sys w) = Some ino →
          ∃ h' ino',
            writers (fb w2) !! k
            = Some (Some (newSyncBufio h' (filePath sb) defaultBufferSize))
            ∧ file_of h' (sys w2) = Some ino'
            ∧ (length (inodes (sys w)) ≤ ino')%nat
            ∧ names (sys w2) !! filePath sb = Some ino'
            ∧ file_content ino' (sys w2) = Some []
            ∧ names (sys w2) !! archivePath sb t = Some ino
            ∧ file_content ino (sys w2) = logged k w
            ∧ file_durable ino (sys w2) = logged k w).
{ intros k sb ino Hk Hf.
  destruct (Hspec2 k sb ino) as (h' & ino' & ? & ? & Hge & ? & ? & _ & Hc & Hd);
    [by eapply Hlt|by rewrite Hfb1|by rewrite Hfile1|].
  rewrite (logged_same k w w1) in Hc, Hd by done. rewrite Hino1 in Hge.
  exists h', ino'. do 5 (split; [done|]). split; [|done].
  rewrite Hnames2.
  - destruct (Hspec1 k sb Hk) as [_ ->].
    by rewrite (attached_slot w k sb Hop Hatt Hk), Hf.
  - intros j x _ Hx. rewrite Hfb1 in Hx. by apply (Hapart k j). }
exists w1, w2. split; [done|]. split; [done|]. split; [done|].
assert (Hdir : dir (fb w2) = dir (fb w)).
{ destruct Hsw2 as (_ & -> & _). by rewrite Hfb1. }
split; [|split; [|split; [|split; [|split; [|split]]]]].
- apply at_home_intro; [done|]. intros k x Hx.
  assert (Hk : (k < Z.to_nat levelCount)%nat).
  { apply lookup_lt_Some in Hx. destruct Hop2 as (_ & <- & _). done. }
  destruct (opened_slot w k Hop Hk) as (sb & Hsb & _).
  destruct (healthy_file w k sb Hh Hsb) as (ino & nd & Hf & _).
  destruct (Hnew k sb ino Hsb Hf) as (h' & ino' & Hk' & _).
  rewrite Hk' in Hx. injection Hx as <-. cbn [newSyncBufio filePath].
  rewrite Hdir. by apply at_home_slot.
- apply Forall_lookup. intros k x Hx%(opened_live w2 k x Hop2).
  assert (Hk : (k < Z.to_nat levelCount)%nat).
  { apply lookup_lt_Some in Hx. destruct Hop2 as (_ & <- & _). done. }
  destruct (opened_slot w k Hop Hk) as (sb & Hsb & _).
  destruct (healthy_file w k sb Hh Hsb) as (ino & nd & Hf & _).
  destruct (Hnew k sb ino Hsb Hf) as (h' & ino' & Hk' & Hf' & _ & Hn' & _).
  rewrite Hk' in Hx. injection Hx as <-. cbn [newSyncBufio filePath file]. congruence.
- destruct Hsw2 as (? & ? & ? & ? & ? & ? & ?). rewrite Hfb1 in *. by repeat split.
- congruence.
- congruence.
- intros p Hp. rewrite Hnames2, Hframe1; [done| |].
  + intros k sb Hk. by apply (Hp k).
  + intros k sb _ Hk. rewrite Hfb1 in Hk. by apply (Hp k).
- exact Hnew.
Qed.

(** X18: rotation end to end, with retention off.  On an open backend
    whose writers are on their active paths and files, with
    [keepHours <= 0] (so that no retention sweep runs) and all active and
    archive paths within reach, a rotation tick that is due followed by a
    monitor tick leaves,
    for every level, the archive path [<path>.<YYYYMMDDHH>] leading to the
    file the level was writing, which holds durably exactly the bytes logged
    at the level (what was in the file and what was pending in the buffer),
    and a new writer with nothing logged on a new file at the active path.
    The backend is open again, on its active paths and files. *)
Theorem rotation_then_monitor_archives_every_byte (w : World) :
let t := truncateToHour (now (sys w)) in
opened w → at_home w → attached w →
rotateByHour (fb w) = true → lastRotateTime (fb w) < Unix t →
keepHours (fb w) <= 0 →
(∀ (k : nat) sb, writers (fb w) !! k = Some (Some sb) →
   (filePath sb ∉ denied (sys w)) ∧ (archivePath sb t ∉ denied (sys w))) →
∃ w1 w2, doRotateByHour w = Done tt w1 ∧ doMonitorFiles w1 = Done tt w2
         ∧ opened w2 ∧ at_home w2 ∧ attached w2
         ∧ ∀ (k : nat) sb ino,
             writers (fb w) !! k = Some (Some sb) →
             file_of (file sb) (sys w) = Some ino →
             names (sys w2) !! archivePath sb t = Some ino
             ∧ file_content ino (sys w2) = logged k w
             ∧ file_durable ino (sys w2) = logged k w
             ∧ logged k w2 = Some [].
Proof.
intros t Hop Hhome Hatt Hrot Hdue Hkeep Hreach.
destruct (rotate_then_reopen w Hop Hhome Hatt Hrot Hdue Hkeep Hreach)
  as (w1 & w2 & Hrun1 & Hrun2 & Hop2 & Hhome2 & Hatt2 & _ & _ & _ & _ & Hnew).
exists w1, w2. do 5 (split; [done|]).
intros k sb ino Hk Hf.
destruct (Hnew k sb ino Hk Hf) as (h' & ino' & Hk' & Hf' & _ & _ & He' & Hn & Hc & Hd).
do 3 (split; [done|]).
unfold logged, writer_at. rewrite Hk'. simpl. rewrite Hf'. simpl. by rewrite He'.
Qed.

Lemma rotation_then_monitor_archives_every_byte_witness :
let w := Scenario.advance Hour
           (Scenario.final (SetRotateFile true 0 Scenario.logged0)) in
∃ w1 w2, doRotateByHour w = Done tt w1 ∧ doMonitorFiles w1 = Done tt w2
         ∧ names (sys w2) !! "log/INFO.log.2019071002" = Some 1%nat
         ∧ file_durable 1 (sys w2) = Some Scenario.msg.
Proof.
intros w.
assert (Hop : opened w) by (apply (bool_decide_unpack _); by vm_compute).
assert (Hhome : at_home w) by (apply (bool_decide_unpack _); by vm_compute).
assert (Hatt : attached w) by (apply (bool_decide_unpack _); by vm_compute).
destruct (rotation_then_monitor_archives_every_byte w Hop Hhome Hatt)
  as (w1 & w2 & Hrun1 & Hrun2 & _ & _ & _ & Hspec).
- by vm_compute.
- by vm_compute.
- by vm_compute.
- intros k sb Hk. split; apply not_elem_of_empty.
- exists w1, w2. split; [exact Hrun1|]. split; [exact Hrun2|].
  destruct (Hspec 1%nat
    (mkSyncBufio (bufio.mkWriter Scenario.msg None 1 defaultBufferSize) 1 19
       "log/INFO.log") 1%nat) as (Hn & _ & Hd & _); [by vm_compute..|].
  split.
  + refine (eq_trans _ Hn). by vm_compute.
  + refine (eq_trans Hd _). by vm_compute.
Defined.

End RotateThenReopen.

(** ** Archive names: what rotation writes, the sweep reads back *)

Section ArchiveRoundTrip.

Import strings regexp.

Lemma all_from_spec (P : Z → bool) (lo n : Z) :
all_from P lo (Z.to_nat n) = true → ∀ x, lo <= x < lo + n → P x = true.
Proof.
intros H x Hx. assert (Hn : n = Z.of_nat (Z.to_nat n)) by lia.
rewrite Hn in Hx. clear Hn. revert lo H Hx.
induction (Z.to_nat n) as [|k IH]; intros lo H Hx; [lia|].
cbn [all_from] in H. apply andb_true_iff in H as [H0 H].
destruct (decide (x = lo)) as [->|Hne]; [done|].
apply (IH (lo + 1)); [done|lia].
Qed.

Lemma two_digits (x : Z) :
0 <= x < 100 →
∃ a b, appendInt x 2 = String a (String b "")
       ∧ isDigit a = true ∧ isDigit b = true ∧ digitVal a * 10 + digitVal b = x.
Proof.
intros Hx.
assert (H : two_digits_ok x = true).
{ apply (all_from_spec two_digits_ok 0 100); [by vm_compute|lia]. }
unfold two_digits_ok in H.
destruct (appendInt x 2) as [|a [|b [|? ?]]]; try done.
apply andb_true_iff in H as [[Ha Hb]%andb_true_iff Hv]. exists a, b.
repeat split; try done. lia.
Qed.

Lemma year_digits (y : Z) :
2000 <= y < 2100 →
∃ c d, appendInt y 4 = String "2" (String "0" (String c (String d "")))
       ∧ isDigit c = true ∧ isDigit d = true
       ∧ 2000 + digitVal c * 10 + digitVal d = y.
Proof.
intros Hy.
assert (H : year_digits_ok y = true).
{ apply (all_from_spec year_digits_ok 2000 100); [by vm_compute|lia]. }
unfold year_digits_ok in H.
destruct (appendInt y 4) as [|a [|b [|c [|d [|? ?]]]]]; try done.
apply andb_true_iff in H as [[[[Ha Hb]%andb_true_iff Hc]%andb_true_iff Hd]%andb_true_iff Hv].
apply Ascii.eqb_eq in Ha, Hb. subst a b. exists c, d.
repeat split; try done. lia.
Qed.

Lemma civil_of_day (day : Z) :
10957 <= day < 47482 →
∃ y m d, civil_from_days day = (y, m, d)
         ∧ 2000 <= y < 2100 ∧ 1 <= m <= 12 ∧ 1 <= d <= daysIn m y
         ∧ days_from_civil y m d = day.
Proof.
intros Hd.
assert (H : civil_ok day = true).
{ apply (all_from_spec civil_ok 10957 36525); [by vm_compute|lia]. }
unfold civil_ok in H. destruct (civil_from_days day) as [[y m] d].
exists y, m, d. split; [done|].
repeat (apply andb_true_iff in H as [H ?]). lia.
Qed.

Lemma getyear_digits (a b c d : ascii) (rest : string) :
isDigit a = true → isDigit b = true → isDigit c = true → isDigit d = true →
getyear (String a (String b (String c (String d rest))))
= Some (((digitVal a * 10 + digitVal b) * 10 + digitVal c) * 10 + digitVal d, rest).
Proof. intros Ha Hb Hc Hd. unfold getyear. by rewrite Ha, Hb, Hc, Hd. Qed.

Lemma getnum_digits (a b : ascii) (rest : string) (fixed : bool) :
isDigit a = true → isDigit b = true →
getnum (String a (String b rest)) fixed = Some (digitVal a * 10 + digitVal b, rest).
Proof. intros Ha Hb. unfold getnum. by rewrite Ha, Hb. Qed.

(** The suffix the rotation tick writes for a time of the years 2000 to
    2099: ["20"] and eight digits, which [time.Parse] reads back as the
    start of the hour, in UTC. *)
Lemma Format_Parse (t : Time) :
946684800 <= localSec t < 4102444800 →
∃ cs, length cs = 8%nat ∧ Forall (λ c, isDigit c = true) cs
      ∧ Format_2006010215 t = "20" +:+ string_of_list_ascii cs
      ∧ Parse_2006010215 (Format_2006010215 t)
        = Some (mkTime (localSec t / 3600 * 3600) 0 0).
Proof.
intros Ht.
destruct (civil_of_day (localSec t / 86400)) as (y & m & d & Hciv & Hy & Hm & Hd & Hday).
{ split; [apply Z.div_le_lower_bound|apply Z.div_lt_upper_bound]; lia. }
assert (Hdmax : daysIn m y <= 31).
{ unfold daysIn. repeat case_match; lia. }
destruct (year_digits y Hy) as (y3 & y4 & Ey & Hy3 & Hy4 & Hyv).
destruct (two_digits m) as (m1 & m2 & Em & Hm1 & Hm2 & Hmv); [lia|].
destruct (two_digits d) as (d1 & d2 & Ed & Hd1 & Hd2 & Hdv); [lia|].
assert (Hh : 0 <= Hour_of t < 24).
{ unfold Hour_of. split; [apply Z.div_pos|apply Z.div_lt_upper_bound]; try lia;
    pose proof (Z.mod_pos_bound (localSec t) 86400); lia. }
destruct (two_digits (Hour_of t)) as (h1 & h2 & Eh & Hh1 & Hh2 & Hhv); [lia|].
exists [y3; y4; m1; m2; d1; d2; h1; h2].
split; [done|]. split; [by repeat constructor|].
assert (EF : Format_2006010215 t
             = String "2" (String "0" (String y3 (String y4 (String m1 (String m2
                 (String d1 (String d2 (String h1 (String h2 "")))))))))).
{ unfold Format_2006010215. rewrite Hciv, Ey, Em, Ed, Eh. done. }
split; [rewrite EF; reflexivity|].
rewrite EF. unfold Parse_2006010215.
rewrite getyear_digits by done.
rewrite (getnum_digits m1 m2) by done. rewrite Hmv.
replace ((m <=? 0) || (12 <? m)) with false by (symmetry; apply orb_false_iff; lia).
rewrite (getnum_digits d1 d2) by done. rewrite Hdv.
rewrite (getnum_digits h1 h2) by done. rewrite Hhv.
replace ((Hour_of t <? 0) || (24 <=? Hour_of t)) with false
  by (symmetry; apply orb_false_iff; lia).
replace (((digitVal "2" * 10 + digitVal "0") * 10 + digitVal y3) * 10 + digitVal y4)
  with y
  by (assert (digitVal "2" = 2) by (by vm_compute);
      assert (digitVal "0" = 0) by (by vm_compute); lia).
replace ((d <? 1) || (daysIn m y <? d)) with false
  by (symmetry; apply orb_false_iff; lia).
unfold Date. rewrite Hday. do 2 f_equal. unfold Hour_of.
pose proof (Z.div_mod (localSec t) 86400 ltac:(lia)).
pose proof (Z.mod_pos_bound (localSec t) 86400 ltac:(lia)).
pose proof (Z.div_mod (localSec t mod 86400) 3600 ltac:(lia)).
pose proof (Z.mod_pos_bound (localSec t mod 86400) 3600 ltac:(lia)).
pose proof (Z.div_mod (localSec t) 3600 ltac:(lia)).
pose proof (Z.mod_pos_bound (localSec t) 3600 ltac:(lia)).
lia.
Qed.

(** X19: the names the rotation tick writes are names the retention
    sweep reads.  For a level [l] and a time [t] of the years 2000 to 2099,
    the archive path [<dir>/<LEVEL>.log.<YYYYMMDDHH>] that the tick builds
    is the entry [<LEVEL>.log.<YYYYMMDDHH>] of the directory; that name
    passes the test of the removal loop, and its hour-bucket suffix parses
    back, without error, to the start of [t]'s hour on the wall clock of
    [t]'s location, read as UTC. *)
Theorem archive_name_round_trip (d : string) (l : Level) (t : Time) :
l ∈ levels → 946684800 <= localSec t < 4102444800 →
let name := (levelName l +:+ logFileSuffix) +:+ "." +:+ Format_2006010215 t in
activePath d l +:+ "." +:+ Format_2006010215 t = Join d name
∧ entry_name d (Join d name) = Some name
∧ isArchiveName name = true
∧ Split name "." !! 2%nat = Some (Format_2006010215 t)
∧ Parse_2006010215 (Format_2006010215 t)
  = Some (mkTime (localSec t / 3600 * 3600) 0 0).
Proof.
intros Hl Ht name.
destruct (Format_Parse t Ht) as (cs & Hlen & Hdig & EF & Hparse).
assert (Ename : name = levelName l +:+ ".log.20" +:+ string_of_list_ascii cs).
{ unfold name. rewrite EF.
  destruct (archive_name_cases l Hl) as [E | [E | [E | [E | E]]]]; by rewrite E. }
assert (Harch : isArchiveName name = true).
{ rewrite Ename. by apply isArchiveName_of_shape. }
split; [|split; [|split; [done|split; [|done]]]].
- unfold activePath, Join, name. by rewrite !append_assoc.
- apply entry_name_Join; [by apply isArchiveName_nonempty|by apply isArchiveName_no_slash].
- rewrite (isArchiveName_Split name Harch). f_equal.
  rewrite EF. unfold name. rewrite EF.
  destruct cs as [|c1 [|c2 [|c3 [|c4 [|c5 [|c6 [|c7 [|c8 [|? ?]]]]]]]]]; try done.
  destruct (archive_name_cases l Hl) as [E | [E | [E | [E | E]]]]; by rewrite E.
Qed.

Lemma archive_name_round_trip_witness :
isArchiveName ("INFO.log" +:+ "." +:+ Format_2006010215 (mkTime 1562724000 0 0)) = true
∧ Parse_2006010215 (Format_2006010215 (mkTime 1562724000 0 0))
  = Some (mkTime 1562724000 0 0).
Proof.
destruct (archive_name_round_trip "log" Info (mkTime 1562724000 0 0))
  as (_ & _ & Ha & _ & Hp).
- by apply elem_of_levels.
- unfold localSec. simpl. lia.
- split; [exact Ha|exact Hp].
Defined.

End ArchiveRoundTrip.

(** ** A second rotation tick in the same hour *)

Section SecondTick.

(** X20: [lastRotateTime] is never moved forward, so a rotation tick
    that was due is due again at the next tick.  With retention off
    ([keepHours <= 0], so that no retention sweep runs), on a well-formed
    disk and an open backend whose writers are on their active paths and
    files, all active and archive paths within reach: after a due rotation
    tick and a monitor tick, a second rotation tick at the same clock
    renames the new, empty active file of every level over
    the archive of the hour: the archive path leads to that empty file, and
    no name at all leads any more to the file that held the bytes logged at
    the level. *)
Theorem second_rotation_tick_overwrites_archive (w : World) :
let t := truncateToHour (now (sys w)) in
opened w → at_home w → attached w → disk_ok (sys w) →
rotateByHour (fb w) = true → lastRotateTime (fb w) < Unix t →
keepHours (fb w) <= 0 →
(∀ (k : nat) sb, writers (fb w) !! k = Some (Some sb) →
   (filePath sb ∉ denied (sys w)) ∧ (archivePath sb t ∉ denied (sys w))) →
∃ w1 w2 w3, doRotateByHour w = Done tt w1 ∧ doMonitorFiles w1 = Done tt w2
            ∧ doRotateByHour w2 = Done tt w3
            ∧ ∀ (k : nat) sb ino,
                writers (fb w) !! k = Some (Some sb) →
                file_of (file sb) (sys w) = Some ino →
                (∃ ino', names (sys w3) !! archivePath sb t = Some ino'
                         ∧ ino' ≠ ino ∧ file_content ino' (sys w3) = Some [])
                ∧ ∀ p, names (sys w3) !! p ≠ Some ino.
Proof.
intros t Hop Hhome Hatt Hdisk Hrot Hdue Hkeep Hreach.
pose proof (opened_healthy w Hop) as Hh.
pose proof (proj1 (disk_ok_spec _) Hdisk) as [Hlt Hinj].
destruct (rotate_then_reopen w Hop Hhome Hatt Hrot Hdue Hkeep Hreach)
  as (w1 & w2 & Hrun1 & Hrun2 & Hop2 & Hhome2 & Hatt2 & Hsw2 & Hde2 & Hno2 & Hframe2
      & Hnew).
fold t in Hframe2, Hnew.
assert (Hback : ∀ (k : nat) x, writers (fb w2) !! k = Some (Some x) →
          ∃ sb ino h' ino',
            writers (fb w) !! k = Some (Some sb) ∧ file_of (file sb) (sys w) = Some ino
            ∧ x = newSyncBufio h' (filePath sb) defaultBufferSize
            ∧ file_of h' (sys w2) = Some ino'
            ∧ (length (inodes (sys w)) ≤ ino')%nat
            ∧ names (sys w2) !! filePath sb = Some ino'
            ∧ file_content ino' (sys w2) = Some []).
{ intros k x Hx.
  assert (Hk : (k < Z.to_nat levelCount)%nat).
  { apply lookup_lt_Some in Hx. destruct Hop2 as (_ & <- & _). done. }
  destruct (opened_slot w k Hop Hk) as (sb & Hsb & _).
  destruct (healthy_file w k sb Hh Hsb) as (ino & nd & Hf & _).
  destruct (Hnew k sb ino Hsb Hf) as (h' & ino' & Hk' & ? & ? & ? & ? & _).
  exists sb, ino, h', ino'. repeat split; try done. congruence. }
destruct (rotation_tick_open w2 Hop2 Hhome2)
  as (w3 & Hrun3 & Hfb3 & Hino3 & Hha3 & Hst3 & Hde3 & Hno3 & Hop3 & Hmiss3 & Hspec3
      & Hframe3).
{ destruct Hsw2 as (_ & _ & _ & -> & _). done. }
{ destruct Hsw2 as (_ & _ & _ & _ & -> & _). by rewrite Hno2. }
{ destruct Hsw2 as (_ & _ & _ & _ & _ & -> & _). done. }
{ intros k x Hx.
  destruct (Hback k x Hx) as (sb & ino & h' & ino' & Hsb & _ & -> & _).
  rewrite Hde2, Hno2. unfold archivePath. cbn [newSyncBufio filePath].
  apply (Hreach k sb Hsb). }
rewrite Hno2 in Hspec3, Hframe3. fold t in Hspec3, Hframe3.
exists w1, w2, w3. do 3 (split; [done|]).
intros k sb ino Hk Hf.
destruct (Hnew k sb ino Hk Hf) as (h' & ino' & Hk' & Hf' & Hge & Hn' & He' & Ha & _).
pose proof (file_of_Some _ _ _ Hf) as [_ Hino_lt].
split.
- exists ino'. destruct (Hspec3 k _ Hk') as [_ Harch].
  unfold archivePath in Harch. cbn [newSyncBufio filePath] in Harch.
  fold (archivePath sb t) in Harch. rewrite Hn' in Harch.
  split; [done|]. split; [lia|]. unfold file_content. by rewrite Hino3.
- intros p Hp.
  destruct (decide (Exists (λ x, p = filePath x ∨ p = archivePath x t) (live (fb w))))
    as [Hex|Hnex].
  + apply Exists_exists in Hex as (x & Hx & Hpx).
    apply list_elem_of_lookup in Hx as [j Hj].
    apply (opened_live w j x Hop) in Hj.
    destruct (healthy_file w j x Hh Hj) as (inoj & ndj & Hfj & _).
    destruct (Hnew j x inoj Hj Hfj) as (hj & inoj' & Hj' & _ & Hgej & Hnj' & _).
    destruct (Hspec3 j _ Hj') as [Hgone Harch].
    unfold archivePath in Harch. cbn [newSyncBufio filePath] in Hgone, Harch.
    fold (archivePath x t) in Harch. rewrite Hnj' in Harch.
    destruct Hpx as [-> | ->]; [congruence|].
    rewrite Harch in Hp. injection Hp as ->. lia.
  + assert (Hfree : ∀ (j : nat) x, writers (fb w) !! j = Some (Some x) →
              p ≠ filePath x ∧ p ≠ archivePath x t).
    { intros j x Hx%(opened_live w j x Hop).
      rewrite Exists_exists in Hnex. split; intros ->; apply Hnex; exists x;
        (split; [by eapply list_elem_of_lookup_2|tauto]). }
    rewrite Hframe3, Hframe2 in Hp; [|done|].
    * pose proof (attached_slot w k sb Hop Hatt Hk) as Hnk. rewrite Hf in Hnk.
      pose proof (Hinj _ _ _ Hp Hnk) as ->. by destruct (Hfree k sb Hk).
    * intros j x Hx.
      destruct (Hback j x Hx) as (y & ? & ? & ? & Hy & _ & -> & _).
      unfold archivePath. cbn [newSyncBufio filePath]. by apply (Hfree j y).
Qed.

Lemma second_rotation_tick_overwrites_archive_witness :
let w := Scenario.advance Hour
           (Scenario.final (SetRotateFile true 0 Scenario.logged0)) in
∃ w1 w2 w3, doRotateByHour w = Done tt w1 ∧ doMonitorFiles w1 = Done tt w2
            ∧ doRotateByHour w2 = Done tt w3
            ∧ ∀ p, names (sys w3) !! p ≠ Some 1%nat.
Proof.
intros w.
assert (Hop : opened w) by (apply (bool_decide_unpack _); by vm_compute).
assert (Hhome : at_home w) by (apply (bool_decide_unpack _); by vm_compute).
assert (Hatt : attached w) by (apply (bool_decide_unpack _); by vm_compute).
assert (Hdisk : disk_ok (sys w)) by (apply (bool_decide_unpack _); by vm_compute).
destruct (second_rotation_tick_overwrites_archive w Hop Hhome Hatt Hdisk)
  as (w1 & w2 & w3 & Hrun1 & Hrun2 & Hrun3 & Hspec).
- by vm_compute.
- by vm_compute.
- by vm_compute.
- intros k sb Hk. split; apply not_elem_of_empty.
- exists w1, w2, w3. do 3 (split; [assumption|]).
  refine (proj2 (Hspec 1%nat
    (mkSyncBufio (bufio.mkWriter Scenario.msg None 1 defaultBufferSize) 1 19
       "log/INFO.log") 1%nat _ _)); by vm_compute.
Defined.

End SecondTick.

(** ** [bufio.Writer.Write]: the loop runs at most twice *)

Section WriteLoop.

Lemma Write_loop_stop (fuel : nat) (b : bufio.Writer) (p : list byte) (nn : Z) (o : OS) :
(bufio.Available b <? Z.of_nat (length p)) && bool_decide (bufio.err b = None) = false →
bufio.Write_loop fuel b p nn o = bufio.Write_loop 0 b p nn o.
Proof. intros H. destruct fuel; [done|]. cbn [bufio.Write_loop]. by rewrite H. Qed.

Lemma Write_loop_empty_buffer (fuel : nat) (b : bufio.Writer) (p : list byte) (nn : Z)
  (o : OS) :
bufio.Buffered b = 0 → 0 <= bufio.size b →
bufio.Write_loop (S fuel) b p nn o = bufio.Write_loop 1 b p nn o.
Proof.
intros Hb Hs. cbn [bufio.Write_loop].
destruct ((bufio.Available b <? Z.of_nat (length p)) && bool_decide (bufio.err b = None));
  [|done].
rewrite Hb. change (0 =? 0) with true. cbv iota.
unfold os.Write. destruct (file_of (bufio.wr b) o) as [ino|].
- apply Write_loop_stop. cbn [bufio.err]. rewrite Nat2Z.id, drop_all.
  apply andb_false_iff. left. apply Z.ltb_ge.
  unfold bufio.Available. cbn [bufio.size]. unfold bufio.Buffered in *.
  cbn [bufio.buf length]. lia.
- apply Write_loop_stop. cbn [bufio.err]. apply andb_false_iff. by right.
Qed.

(** More rounds than two change nothing: [bufio.Write] ends after at most
    one flush of the filled buffer and one direct write. *)
Lemma Write_loop_fuel (fuel : nat) (b : bufio.Writer) (p : list byte) (nn : Z) (o : OS) :
0 <= bufio.size b →
bufio.Write_loop (S (S fuel)) b p nn o = bufio.Write_loop 2 b p nn o.
Proof.
intros Hs.
change (bufio.Write_loop (S (S fuel)) b p nn o)
  with (let finish :=
          match bufio.err b with
          | Some e => ((nn, Some e), b, o)
          | None => ((nn + Z.of_nat (length p), None),
                     bufio.mkWriter (bufio.buf b ++ p) None (bufio.wr b) (bufio.size b), o)
          end in
        if (bufio.Available b <? Z.of_nat (length p)) && bool_decide (bufio.err b = None)
        then
          if bufio.Buffered b =? 0 then
            let '((n, e), o') := os.Write (bufio.wr b) p o in
            bufio.Write_loop (S fuel) (bufio.mkWriter (bufio.buf b) e (bufio.wr b) (bufio.size b))
              (drop (Z.to_nat n) p) (nn + n) o'
          else
            let n := Z.to_nat (bufio.Available b) in
            let '(_, b', o') :=
              bufio.Flush (bufio.mkWriter (bufio.buf b ++ take n p) (bufio.err b)
                             (bufio.wr b) (bufio.size b)) o in
            bufio.Write_loop (S fuel) b' (drop n p) (nn + Z.of_nat n) o'
        else finish).
change (bufio.Write_loop 2 b p nn o)
  with (let finish :=
          match bufio.err b with
          | Some e => ((nn, Some e), b, o)
          | None => ((nn + Z.of_nat (length p), None),
                     bufio.mkWriter (bufio.buf b ++ p) None (bufio.wr b) (bufio.size b), o)
          end in
        if (bufio.Available b <? Z.of_nat (length p)) && bool_decide (bufio.err b = None)
        then
          if bufio.Buffered b =? 0 then
            let '((n, e), o') := os.Write (bufio.wr b) p o in
            bufio.Write_loop 1 (bufio.mkWriter (bufio.buf b) e (bufio.wr b) (bufio.size b))
              (drop (Z.to_nat n) p) (nn + n) o'
          else
            let n := Z.to_nat (bufio.Available b) in
            let '(_, b', o') :=
              bufio.Flush (bufio.mkWriter (bufio.buf b ++ take n p) (bufio.err b)
                             (bufio.wr b) (bufio.size b)) o in
            bufio.Write_loop 1 b' (drop n p) (nn + Z.of_nat n) o'
        else finish).
cbv zeta.
destruct ((bufio.Available b <? Z.of_nat (length p)) && bool_decide (bufio.err b = None))
  eqn:Hc; [|done].
apply andb_true_iff in Hc as [_ He%bool_decide_eq_true].
destruct (bufio.Buffered b =? 0) eqn:Hb.
- apply Z.eqb_eq in Hb.
  destruct (os.Write (bufio.wr b) p o) as [[n e] o'].
  apply Write_loop_empty_buffer; [|done]. unfold bufio.Buffered in *. done.
- apply Z.eqb_neq in Hb. rewrite He.
  set (n := Z.to_nat (bufio.Available b)).
  unfold bufio.Flush. cbn [bufio.err bufio.buf bufio.wr bufio.size].
  assert (Hne : (bufio.Buffered (bufio.mkWriter (bufio.buf b ++ take n p) None
                                   (bufio.wr b) (bufio.size b)) =? 0) = false).
  { apply Z.eqb_neq. unfold bufio.Buffered in *. cbn [bufio.buf].
    rewrite length_app. lia. }
  rewrite Hne. unfold os.Write.
  destruct (file_of (bufio.wr b) o) as [ino|].
  + rewrite Z.ltb_irrefl. cbn [andb].
    apply Write_loop_empty_buffer; done.
  + replace (0 <? bufio.Buffered _) with true.
    2:{ symmetry. apply Z.ltb_lt. apply Z.eqb_neq in Hne.
        unfold bufio.Buffered in *. lia. }
    cbn [andb]. rewrite bool_decide_eq_false_2 by done.
    rewrite (Write_loop_stop (S fuel)), (Write_loop_stop 1); [done|..];
      cbn [bufio.err]; apply andb_false_iff; by right.
Qed.

End WriteLoop.
(** ** [shouldDelete] outside the archive names *)

Section ShouldDeleteBounds.

Import strings.




End ShouldDeleteBounds.

(** ** [Log] on a writer that has failed *)

Section FailedWriter.

(** X22: the error of a buffered writer is sticky.  When the writer of
    a level below [Fatal] carries an error from an earlier write, [Log] at
    that level prints the diagnostic "write file failed", takes none of the
    message (nothing is buffered, nothing reaches the file, the byte count
    does not move) and returns as usual, with the lock free: the message is
    dropped. *)
Theorem Log_on_failed_writer_drops_message (w : World) (level : Level)
  (message : list byte) (sb : syncBufio) (e : error) :
mutex (fb w) = false → levelMin <= level < Fatal →
writers (fb w) !! Z.to_nat level = Some (Some sb) →
bufio.err (writer sb) = Some e → 0 <= writeSize sb < 2 ^ 64 →
Log level message w = Done tt (mkWorld (fb w) (eprint DiagWriteFailed (sys w))).
Proof.
intros Hm Hl Hs He Hsize. unfold levelMin, Debug, Fatal in Hl.
assert (Hwrite : SyncBufio.write sb message (sys w) = (sb, eprint DiagWriteFailed (sys w))).
{ unfold SyncBufio.write, bufio.Write. cbn [bufio.Write_loop]. rewrite He.
  rewrite bool_decide_eq_false_2 by done. rewrite andb_false_r.
  rewrite Z.add_0_r. unfold wrapU64. rewrite Z.mod_small by done. by destruct sb. }
rewrite (Log_run level message w
           (mkWorld (fb (Scenario.held w)) (eprint DiagWriteFailed (sys w))) Hm).
- cbn [fb sys Scenario.held]. do 2 f_equal. destruct (fb w); simpl in *. by subst.
- unfold logWrite.
  replace ((levelMin <=? level) && (level <=? levelMax)) with true
    by (unfold levelMin, levelMax, Debug, Fatal; symmetry; apply andb_true_iff; lia).
  replace (level =? Fatal) with false by (symmetry; apply Z.eqb_neq; unfold Fatal; lia).
  rewrite bind_run.
  rewrite (bind_Done _ _ _ _ _ (getWriter_lookup level (Scenario.held w) _ ltac:(lia) Hs)).
  rewrite bind_run, syscall_run. cbn [sys Scenario.held]. rewrite Hwrite. cbn [fst snd].
  rewrite setWriter_in_range; [|lia|by eapply lookup_lt_Some].
  unfold set_writers. cbn [fb Scenario.held set_mutex writers mutex dir flushInterval
    rotateByHour lastRotateTime keepHours]. rewrite list_insert_id by done.
  reflexivity.
- done.
Qed.

Lemma Log_on_failed_writer_drops_message_witness :
let failed := mkSyncBufio (bufio.mkWriter [] (Some ErrShortWrite) 1 defaultBufferSize)
                1 0 "log/INFO.log" in
let w := mkWorld (set_writers (<[1%nat := Some failed]>) (fb Scenario.opened0))
           (sys Scenario.opened0) in
Log Info Scenario.msg w = Done tt (mkWorld (fb w) (eprint DiagWriteFailed (sys w))).
Proof.
intros failed w.
apply (Log_on_failed_writer_drops_message w Info Scenario.msg failed ErrShortWrite).
- reflexivity.
- unfold levelMin, Debug, Info, Fatal. lia.
- reflexivity.
- reflexivity.
- simpl. lia.
Defined.

End FailedWriter.

(** ** What [Log] makes durable *)

Section LogDurability.

(** X23: [Log] at [Fatal] on an open backend flushes and syncs every
    level, not only [Fatal]: when it returns, every slot's buffer is empty
    and every level's file holds, durably, exactly the bytes logged at the
    level, the message included for [Fatal]. *)
Theorem Log_Fatal_makes_every_level_durable (w : World) (message : list byte) :
opened w →
∃ w', Log Fatal message w = Done tt w'
      ∧ ∀ (k : nat) sb ino,
          writers (fb w) !! k = Some (Some sb) →
          file_of (file sb) (sys w) = Some ino →
          (∃ sb', writers (fb w') !! k = Some (Some sb') ∧ bufio.buf (writer sb') = [])
          ∧ logged k w' = (if decide (k = Z.to_nat Fatal)
                           then (λ data, data ++ message) <$> logged k w
                           else logged k w)
          ∧ file_content ino (sys w') = logged k w'
          ∧ file_durable ino (sys w') = logged k w'.
Proof.
intros Hop. pose proof (opened_healthy w Hop) as Hh.
destruct (Log_Fatal_flushes_all w message Hop) as (w' & Hrun & Hspec).
exists w'. split; [done|]. intros k sb ino Hk Hf.
destruct (healthy_file w k sb Hh Hk) as (ino' & nd & Hf' & Hn).
assert (ino' = ino) as -> by congruence.
destruct (Hspec k sb ino nd Hk Hf Hn) as ((sb' & Hk' & Hb & Hfile & _) & Hfo & Hino).
assert (Hlog' : logged k w'
                = Some (content nd ++ bufio.buf (writer sb)
                        ++ (if decide (k = Z.to_nat Fatal) then message else []))).
{ rewrite (logged_Some k w' sb' ino _ Hk' ltac:(by rewrite Hfile) Hino).
  cbn [content]. by rewrite Hb, app_nil_r. }
split; [by exists sb'|]. rewrite Hlog', (logged_Some k w sb ino nd Hk Hf Hn).
split; [|unfold file_content, file_durable; by rewrite Hino].
destruct (decide (k = Z.to_nat Fatal)); simpl; [by rewrite app_assoc|by rewrite app_nil_r].
Qed.

Lemma Log_Fatal_makes_every_level_durable_witness :
opened Scenario.logged0
∧ ∃ w', Log Fatal Scenario.msg Scenario.logged0 = Done tt w'
        ∧ file_durable 1 (sys w') = Some Scenario.msg.
Proof.
assert (Hop : opened Scenario.logged0) by (apply (bool_decide_unpack _); by vm_compute).
split; [exact Hop|].
destruct (Log_Fatal_makes_every_level_durable Scenario.logged0 Scenario.msg Hop)
  as (w' & Hrun & Hspec).
exists w'. split; [exact Hrun|].
destruct (Hspec 1%nat
  (mkSyncBufio (bufio.mkWriter Scenario.msg None 1 defaultBufferSize) 1 19
     "log/INFO.log") 1%nat) as (_ & Hl & _ & Hd); [by vm_compute..|].
refine (eq_trans Hd (eq_trans Hl _)). by vm_compute.
Defined.

(** X24: [Log] below [Fatal] on an open backend never syncs: no file's
    durable bytes change.  A message that fits the free space of the level's
    buffer only joins the buffer, and the system is left exactly as it was;
    a message that does not fit makes bytes of the level reach its file,
    unsynced, before [Log] returns. *)
Theorem Log_below_Fatal_syncs_nothing (w : World) (level : Level)
  (message : list byte) :
opened w → levelMin <= level < Fatal →
∃ w' sb sb' ino,
  Log level message w = Done tt w'
  ∧ writers (fb w) !! Z.to_nat level = Some (Some sb)
  ∧ writers (fb w') !! Z.to_nat level = Some (Some sb')
  ∧ file_of (file sb) (sys w) = Some ino
  ∧ (∀ j, file_durable j (sys w') = file_durable j (sys w))
  ∧ (Z.of_nat (length message) <= bufio.Available (writer sb) →
     sys w' = sys w ∧ bufio.buf (writer sb') = bufio.buf (writer sb) ++ message)
  ∧ (bufio.Available (writer sb) < Z.of_nat (length message) →
     file_content ino (sys w') ≠ file_content ino (sys w)).
Proof.
intros Hop Hl. pose proof (opened_healthy w Hop) as Hh.
destruct (Log_below_Fatal_buffers w level message Hop Hl)
  as (sb & ino & q & sb' & Hs & Hf & Hrun & _ & _ & Hq & Hfit & Hb).
eexists _, sb, sb', ino. split; [exact Hrun|]. cbn [sys fb set_writers writers].
split; [done|].
split; [apply list_lookup_insert_eq; by eapply lookup_lt_Some|].
split; [done|].
split; [intros j; apply file_durable_appended|]. split.
- intros Hfits. rewrite (Hfit Hfits) in *. split; [apply appended_nil|done].
- intros Hbig. rewrite file_content_appended.
  destruct (healthy_file w _ sb Hh Hs) as (ino' & nd & Hf' & Hn).
  assert (ino' = ino) as -> by congruence.
  unfold file_content. rewrite Hn. simpl. intros [= Heq].
  assert (q = []) as ->.
  { apply (f_equal length) in Heq. rewrite length_app in Heq.
    destruct q; [done|simpl in Heq; lia]. }
  pose proof (proj1 Hh _ _ Hs) as (_ & _ & _ & Hsize).
  simpl in Hq. apply (f_equal length) in Hq. rewrite length_app in Hq.
  unfold bufio.Available, bufio.Buffered in Hbig. rewrite Hsize in Hbig. lia.
Qed.

Lemma Log_below_Fatal_syncs_nothing_witness :
opened Scenario.opened0 ∧ levelMin <= Info < Fatal
∧ ∃ w', Log Info Scenario.msg Scenario.opened0 = Done tt w'
        ∧ ∀ j, file_durable j (sys w') = file_durable j (sys Scenario.opened0).
Proof.
assert (Hop : opened Scenario.opened0) by (apply (bool_decide_unpack _); by vm_compute).
assert (Hl : levelMin <= Info < Fatal) by (unfold levelMin, Debug, Info, Fatal; lia).
split; [exact Hop|]. split; [exact Hl|].
destruct (Log_below_Fatal_syncs_nothing Scenario.opened0 Info Scenario.msg Hop Hl)
  as (w' & sb & sb' & ino & Hrun & _ & _ & _ & Hd & _).
exists w'. split; [exact Hrun|exact Hd].
Defined.

End LogDurability.
